(** * datelib: a validated calendar date with arithmetic and day-of-week

    Shallow embedding of [datelib/constants.py], [datelib/utils.py],
    [datelib/day_of_week.py] and [datelib/dates.py], and of the [repeat]
    decorator of [datelib/decorators.py].

    Python integers are unbounded, so they are [Z]; [//] and [%] are
    floor division and its remainder, which is what [Z.div] and [Z.modulo]
    compute.  Exceptions are values of [result]; a [while True] loop runs
    on fuel and reports [OutOfFuel] when the fuel is spent.  [Date]
    instances live in a heap, because the class has setters that mutate an
    instance in place.  [get_type_name] and [__str__] (which print values
    of any type) and the [timer] decorator (which reads the clock and
    prints) are not modelled. *)

From stdpp Require Import gmap strings list sorting pretty.
From Stdlib Require Import ZArith Lia.

Local Open Scope Z_scope.

(** ** The fragment of the Python runtime the library uses *)

Module Py.

Inductive exn : Set :=
| InvalidDateError
| AssertionError
| TypeError
| KeyError
| IndexError
| ValueError
| NoSuchObject. (* model only: a reference outside the heap *)

Inductive result (A : Type) : Type :=
| Ok (a : A)
| Raise (e : exn)
| OutOfFuel.
Arguments Ok {A} a.
Arguments Raise {A} e.
Arguments OutOfFuel {A}.

#[export] Instance result_ret : MRet result := λ A a, Ok a.
#[export] Instance result_bind : MBind result := λ A B f r,
  match r with
  | Ok a => f a
  | Raise e => Raise e
  | OutOfFuel => OutOfFuel
  end.

(** [assert cond] *)
Definition assert (cond : bool) : result unit :=
  if cond then Ok () else Raise AssertionError.

(** A value a caller may pass where an [int] is expected.  [bool] is a
    subclass of [int], so [True] and [False] are [PyInt 1] and
    [PyInt 0]; everything else ([float], [str], [None], ...) fails
    [isinstance(_, int)] and is kept with its type name only. *)
Inductive PyVal : Type :=
| PyInt (z : Z)
| PyOther (type_name : string).

Definition isinstance_int (v : PyVal) : bool :=
  match v with PyInt _ => true | PyOther _ => false end.

(** [range(start, stop, step)] as the list of its elements. *)
Fixpoint range_from (start step : Z) (n : nat) : list Z :=
  match n with
  | O => []
  | S k => start :: range_from (start + step) step k
  end.

Definition range_len (start stop step : Z) : nat :=
  if 0 <? step then Z.to_nat ((stop - start + step - 1) / step)
  else if step <? 0 then Z.to_nat ((start - stop - step - 1) / (- step))
  else O.

Definition range (start stop step : Z) : list Z :=
  range_from start step (range_len start stop step).

(** [x in [a, b, ...]] *)
Definition py_in (x : Z) (l : list Z) : bool := existsb (Z.eqb x) l.

(** [l[i:j]] *)
Definition slice_bound (len i : Z) : Z :=
  if i <? 0 then Z.max 0 (len + i) else Z.min i len.

Definition slice {A} (l : list A) (i j : Z) : list A :=
  let len := Z.of_nat (length l) in
  let i' := slice_bound len i in
  let j' := slice_bound len j in
  take (Z.to_nat (j' - i')) (drop (Z.to_nat i') l).

(** [sum(l)] *)
Definition sum (l : list Z) : Z := fold_left Z.add l 0.

(** [sorted(l)] on integers *)
Definition sorted (l : list Z) : list Z := merge_sort Z.le l.

(** [d[k]] on a dict that is only ever looked up *)
Definition getitem {V} (d : gmap Z V) (k : Z) : result V :=
  match d !! k with
  | Some v => Ok v
  | None => Raise KeyError
  end.

(** A dict whose iteration order the code relies on: the items in
    insertion order. *)
Definition odict (V : Type) : Type := list (Z * V).

Fixpoint odict_get {V} (d : odict V) (k : Z) : option V :=
  match d with
  | [] => None
  | (k', v) :: d' => if k' =? k then Some v else odict_get d' k
  end.

Definition odict_getitem {V} (d : odict V) (k : Z) : result V :=
  match odict_get d k with
  | Some v => Ok v
  | None => Raise KeyError
  end.

(** The outcome of one pass through the body of a [while True] loop. *)
Inductive ctl (S R : Type) : Type :=
| Continue (s : S) (* reached the end of the body, or [continue] *)
| Return (r : R).  (* [return] or [break] with the value that follows *)
Arguments Continue {S R} s.
Arguments Return {S R} r.

Fixpoint while_true {S R} (fuel : nat) (body : S → result (ctl S R)) (s : S)
  : result R :=
  match fuel with
  | O => OutOfFuel
  | Datatypes.S fuel' =>
      match body s with
      | Ok (Continue s') => while_true fuel' body s'
      | Ok (Return r) => Ok r
      | Raise e => Raise e
      | OutOfFuel => OutOfFuel
      end
  end.

End Py.
Import Py.

(** ** datelib/constants.py *)

Module DayOfWeek.
Definition MONDAY : string := "Monday".
Definition TUESDAY : string := "Tuesday".
Definition WEDNESDAY : string := "Wednesday".
Definition THURSDAY : string := "Thursday".
Definition FRIDAY : string := "Friday".
Definition SATURDAY : string := "Saturday".
Definition SUNDAY : string := "Sunday".
End DayOfWeek.

Definition DAY_NUMBER_TO_NAME_MAPPER : gmap Z string :=
  list_to_map
    [ (1, DayOfWeek.MONDAY); (2, DayOfWeek.TUESDAY); (3, DayOfWeek.WEDNESDAY);
      (4, DayOfWeek.THURSDAY); (5, DayOfWeek.FRIDAY); (6, DayOfWeek.SATURDAY);
      (7, DayOfWeek.SUNDAY) ].

Module MonthOfYear.
End MonthOfYear.


Definition NUM_DAYS_IN_WEEK : Z := 7.
Definition NUM_MONTHS_IN_YEAR : Z := 12.
Definition NUM_DAYS_IN_NON_LEAP_YEAR : Z := 365.
Definition NUM_DAYS_IN_LEAP_YEAR : Z := 366.

Definition DAY_COUNTS_IN_NON_LEAP_YEAR_BY_MONTH : list Z :=
  [31; 28; 31; 30; 31; 30; 31; 31; 30; 31; 30; 31].
Definition DAY_COUNTS_IN_LEAP_YEAR_BY_MONTH : list Z :=
  [31; 29; 31; 30; 31; 30; 31; 31; 30; 31; 30; 31].

Definition YEARS_HAVING_JANUARY_1ST_AS_SATURDAY : list Z :=
  [28; 248; 524; 744; 980; 1228; 1448; 1684; 1916; 2000; 2084; 2276; 2400;
   2676; 2952].

(** ** datelib/utils.py *)

(** The body of the loop of [argmin]; the state is [(low_idx, low_item)]. *)
Definition argmin_body (low : nat * Z) (it : nat * Z) : nat * Z :=
  let '(low_idx, low_item) := low in
  let '(idx, item) := it in
  let idx := S idx in
  if item <? low_item then (idx, item) else (low_idx, low_item).

Definition argmin (iterable : list Z) : result nat :=
  match iterable with
  | [] => Raise IndexError
  | first :: rest =>
      Ok (fst (fold_left argmin_body (imap (λ idx item, (idx, item)) rest)
                 (O, first)))
  end.

Definition is_leap_year (year : Z) : bool :=
  if negb (year mod 4 =? 0) then false
  else if negb (year mod 100 =? 0) then true
  else if year mod 400 =? 0 then true else false.


Definition get_days_count_in_year (year : Z) : Z :=
  if is_leap_year year then NUM_DAYS_IN_LEAP_YEAR else NUM_DAYS_IN_NON_LEAP_YEAR.

Definition get_days_count_between_months (year start_month end_month : Z)
  : result Z :=
  _ ← assert ((1 <=? start_month) && (start_month <=? 12)
              && ((1 <=? end_month) && (end_month <=? 12)));
  _ ← assert (start_month <=? end_month);
  let includes_february := py_in 2 (range start_month (end_month + 1) 1) in
  let _is_leap_year := if includes_february then is_leap_year year else false in
  if _is_leap_year
  then Ok (sum (slice DAY_COUNTS_IN_LEAP_YEAR_BY_MONTH (start_month - 1) end_month))
  else Ok (sum (slice DAY_COUNTS_IN_NON_LEAP_YEAR_BY_MONTH (start_month - 1) end_month)).

Definition get_days_in_month (year month : Z) : result Z :=
  get_days_count_between_months year month month.

Definition get_days_remaining_in_month (year month day : Z) : result Z :=
  n ← get_days_in_month year month; Ok (n - day).

Definition get_days_per_month_mapper (year : Z) : odict Z :=
  [ (1, 31); (2, if is_leap_year year then 29 else 28); (3, 31); (4, 30);
    (5, 31); (6, 30); (7, 31); (8, 31); (9, 30); (10, 31); (11, 30); (12, 31) ].

Definition BASE_MAPPER : gmap Z Z :=
  list_to_map
    [ (1, 31); (2, 28); (3, 31); (4, 30); (5, 31); (6, 30); (7, 31); (8, 31);
      (9, 30); (10, 31); (11, 30); (12, 31) ].

Definition get_days_per_month_mapper_for_multiple_years (years : list Z)
  : gmap Z (gmap Z Z) :=
  fold_left
    (λ full_mapper year,
       let base_mapper_copy := BASE_MAPPER in
       let base_mapper_copy :=
         if is_leap_year year then <[2 := 29]> base_mapper_copy
         else base_mapper_copy in
       <[year := base_mapper_copy]> full_mapper)
    (sorted years) ∅.

(** ** datelib/day_of_week.py *)

Definition _get_reference_date_details (year : Z) : result (Z * Z * string) :=
  let year_differences :=
    (λ year_, Z.abs (year - year_)) <$> YEARS_HAVING_JANUARY_1ST_AS_SATURDAY in
  i ← argmin year_differences;
  reference_year ←
    match YEARS_HAVING_JANUARY_1ST_AS_SATURDAY !! i with
    | Some y => Ok y
    | None => Raise IndexError
    end;
  _ ← assert (is_leap_year reference_year);
  name ← getitem DAY_NUMBER_TO_NAME_MAPPER 6;
  Ok (reference_year, 6, name).

Definition _get_day_of_week_on_january_1st (year : Z) : result (Z * string) :=
  '(reference_year, reference_dow_number, reference_dow_name) ←
    _get_reference_date_details year;
  if year =? reference_year then Ok (reference_dow_number, reference_dow_name)
  else
    let is_year_ahead_of_reference := reference_year <? year in
    let num_years_between := Z.abs (year - reference_year) in
    let step_size := if is_year_ahead_of_reference then 4 else -4 in
    let num_days_away :=
      if is_year_ahead_of_reference then
        let num_leap_years_between :=
          fold_left
            (λ n year_,
               if is_leap_year year_ && negb (year_ =? year) then n + 1 else n)
            (range reference_year (year + 1) step_size) 0 in
        (num_years_between + num_leap_years_between) mod NUM_DAYS_IN_WEEK
      else
        let num_leap_years_between :=
          fold_left
            (λ n year_,
               if is_leap_year year_ && negb (year_ =? reference_year)
               then n + 1 else n)
            (range reference_year (year - 1) step_size) 0 in
        NUM_DAYS_IN_WEEK
        - ((num_years_between + num_leap_years_between) mod NUM_DAYS_IN_WEEK) in
    let dow_number := (reference_dow_number + num_days_away) mod NUM_DAYS_IN_WEEK in
    let dow_number := if dow_number =? 0 then NUM_DAYS_IN_WEEK else dow_number in
    dow_name ← getitem DAY_NUMBER_TO_NAME_MAPPER dow_number;
    Ok (dow_number, dow_name).

Definition _MONTH_TO_FIRST_SAME_DAY_MAPPER : gmap Z Z :=
  list_to_map
    [ (1, 1); (2, 5); (3, 5); (4, 2); (5, 7); (6, 4); (7, 2); (8, 6); (9, 3);
      (10, 1); (11, 5); (12, 3) ].

Definition get_day_of_week (year month day : Z) : result string :=
  '(jan1st_dow_number, _) ← _get_day_of_week_on_january_1st year;
  anchor ← getitem _MONTH_TO_FIRST_SAME_DAY_MAPPER month;
  let num_days_away := (day - anchor) mod NUM_DAYS_IN_WEEK in
  let num_days_away :=
    if num_days_away <? 0 then num_days_away + NUM_DAYS_IN_WEEK
    else num_days_away in
  let days_difference := jan1st_dow_number + num_days_away in
  let days_difference :=
    if is_leap_year year && (2 <? month) then days_difference + 1
    else days_difference in
  let dow_number := days_difference mod NUM_DAYS_IN_WEEK in
  let dow_number := if dow_number =? 0 then NUM_DAYS_IN_WEEK else dow_number in
  getitem DAY_NUMBER_TO_NAME_MAPPER dow_number.

(** ** datelib/dates.py *)

(** The state of a [Date] instance: what [self._year], [self._month] and
    [self._day] hold.  A setter stores whatever it is given before it
    validates, so a field is a [PyVal], not an integer. *)
Record DateObj : Type := mkDateObj { _year : PyVal; _month : PyVal; _day : PyVal }.

(** References are positions in the heap; a new object goes at the end. *)
Abbreviation loc := nat (only parsing).
Abbreviation heap := (list DateObj) (only parsing).

(** Computations that read and write the heap and may raise. An exception
    leaves the heap as it was when it was raised. *)
Definition M (A : Type) : Type := heap → heap * result A.

#[export] Instance M_ret : MRet M := λ A a h, (h, Ok a).
#[export] Instance M_bind : MBind M := λ A B f m h,
  match m h with
  | (h', Ok a) => f a h'
  | (h', Raise e) => (h', Raise e)
  | (h', OutOfFuel) => (h', OutOfFuel)
  end.

Definition lift {A} (r : result A) : M A := λ h, (h, r).
Definition raise {A} (e : exn) : M A := λ h, (h, Raise e).

Definition alloc (o : DateObj) : M loc := λ h, (h ++ [o], Ok (length h)).

Definition load (self : loc) : M DateObj := λ h,
  match h !! self with
  | Some o => (h, Ok o)
  | None => (h, Raise NoSuchObject)
  end.

Definition store (self : loc) (f : DateObj → DateObj) : M unit := λ h,
  match h !! self with
  | Some o => (<[self := f o]> h, Ok ())
  | None => (h, Raise NoSuchObject)
  end.

(** The methods below compare and do arithmetic on fields that hold
    integers on every validated instance.  The model reads such a field
    with [int]; on any other object it raises [TypeError], where Python
    would go on with that object's own operators. *)
Definition int (v : PyVal) : M Z :=
  match v with
  | PyInt z => mret z
  | PyOther _ => raise TypeError
  end.

Definition PyNone : PyVal := PyOther "NoneType".

Definition of_option (o : option Z) : PyVal :=
  match o with Some z => PyInt z | None => PyNone end.

Module Date.

(** [date_obj.year], [date_obj.month], [date_obj.day]: the property getters *)
Definition year (self : loc) : M PyVal := o ← load self; mret (_year o).
Definition month (self : loc) : M PyVal := o ← load self; mret (_month o).
Definition day (self : loc) : M PyVal := o ← load self; mret (_day o).

(** The three getters in a row, each read as an integer. *)
Definition ymd (self : loc) : M (Z * Z * Z) :=
  y ← year self ≫= int; m ← month self ≫= int; d ← day self ≫= int;
  mret (y, m, d).

Definition _validate_date (date_obj : loc) : M unit :=
  y ← year date_obj; m ← month date_obj; d ← day date_obj;
  (* Check types *)
  match y, m, d with
  | PyInt year, PyInt month, PyInt day =>
      (* Check values *)
      if year <=? 0 then raise InvalidDateError
      else if negb ((1 <=? month) && (month <=? 12)) then raise InvalidDateError
      else if py_in month [1; 3; 5; 7; 8; 10; 12]
              && negb ((1 <=? day) && (day <=? 31))
      then raise InvalidDateError
      else if py_in month [4; 6; 9; 11] && negb ((1 <=? day) && (day <=? 30))
      then raise InvalidDateError
      else if py_in month [2] then
        let _is_leap_year := is_leap_year year in
        if (_is_leap_year && negb ((1 <=? day) && (day <=? 29)))
           || (negb _is_leap_year && negb ((1 <=? day) && (day <=? 28)))
        then raise InvalidDateError
        else mret ()
      else mret ()
  | _, _, _ => raise InvalidDateError
  end.

(** [Date(year=..., month=..., day=...)]: a new object, its three fields
    set by [__init__], then validated. *)
Definition __init__ (year month day : PyVal) : M loc :=
  self ← alloc (mkDateObj year month day);
  _ ← _validate_date self;
  mret self.

(** The constructor at the call sites that pass integers. *)
Definition new (year month day : Z) : M loc :=
  __init__ (PyInt year) (PyInt month) (PyInt day).

(** The comparisons.  [and] and [or] skip the reads of the fields they
    do not need; a read has no effect, so the model reads all six fields
    first. *)
Definition __eq__ (self other : loc) : M bool :=
  '(sy, sm, sd) ← ymd self; '(oy, om, od) ← ymd other;
  mret ((sy =? oy) && (sm =? om) && (sd =? od)).

Definition __ne__ (self other : loc) : M bool :=
  '(sy, sm, sd) ← ymd self; '(oy, om, od) ← ymd other;
  mret (negb (sy =? oy) || negb (sm =? om) || negb (sd =? od)).

Definition __gt__ (self other : loc) : M bool :=
  '(sy, sm, sd) ← ymd self; '(oy, om, od) ← ymd other;
  mret ((oy <? sy) || ((sy =? oy) && ((om <? sm) || (od <? sd)))).

Definition __ge__ (self other : loc) : M bool :=
  '(sy, sm, sd) ← ymd self; '(oy, om, od) ← ymd other;
  mret ((oy <=? sy) && (om <=? sm) && (od <=? sd)).

Definition __lt__ (self other : loc) : M bool :=
  '(sy, sm, sd) ← ymd self; '(oy, om, od) ← ymd other;
  mret ((sy <? oy) || ((sy =? oy) && ((sm <? om) || (sd <? od)))).

Definition __le__ (self other : loc) : M bool :=
  '(sy, sm, sd) ← ymd self; '(oy, om, od) ← ymd other;
  mret ((sy <=? oy) && (sm <=? om) && (sd <=? od)).

(** The setters: assign, then validate. *)
Definition set_year (self : loc) (year : PyVal) : M unit :=
  _ ← store self (λ o, mkDateObj year (_month o) (_day o));
  _validate_date self.

Definition set_month (self : loc) (month : PyVal) : M unit :=
  _ ← store self (λ o, mkDateObj (_year o) month (_day o));
  _validate_date self.

Definition set_day (self : loc) (day : PyVal) : M unit :=
  _ ← store self (λ o, mkDateObj (_year o) (_month o) day);
  _validate_date self.

Definition copy (self : loc) : M loc :=
  y ← year self; m ← month self; d ← day self; __init__ y m d.

Definition days_since_start_of_year (self : loc) : M Z :=
  '(y, m, d) ← ymd self;
  if m =? 1 then mret d
  else n ← lift (get_days_count_between_months y 1 (m - 1)); mret (n + d).

(** The body of the loop of [days_till_end_of_year], over the items
    still to visit. *)
Fixpoint days_till_end_of_year_loop
    (items : list (Z * Z)) (self_month self_day num_days : Z) : Z :=
  match items with
  | [] => num_days
  | (month_number, num_days_in_month) :: items' =>
      if month_number =? self_month
      then num_days + (num_days_in_month - self_day) (* break *)
      else days_till_end_of_year_loop items' self_month self_day
             (num_days + num_days_in_month)
  end.

Definition days_till_end_of_year (self : loc) : M Z :=
  '(y, m, d) ← ymd self;
  mret (days_till_end_of_year_loop (reverse (get_days_per_month_mapper y)) m d 0).

Definition is_first_day_of_month (self : loc) : M bool :=
  d ← day self ≫= int; mret (d =? 1).

Definition is_first_day_of_year (self : loc) : M bool :=
  m ← month self ≫= int; d ← day self ≫= int; mret ((m =? 1) && (d =? 1)).

Definition _increment_year_and_month (year month : Z) : Z * Z :=
  if month =? 12 then (year + 1, 1) else (year, month + 1).

Definition _decrement_year_and_month (year month : Z) : Z * Z :=
  if month =? 1 then (year - 1, 12) else (year, month - 1).

(** [days_per_month_mapper.get(year, {}).get(month, None)] *)
Definition mapper_get (mapper : gmap Z (gmap Z Z)) (year month : Z) : option Z :=
  default ∅ (mapper !! year) !! month.

(** An operand of [<], [>] or [-] that must be an integer. *)
Definition operand (o : option Z) : result Z :=
  match o with Some z => Ok z | None => Raise TypeError end.

(** One pass through [while True] in [_subtract_days]; the state is
    [(days, current_year, current_month)], the value returned is the
    triple the [Date] is then built from. *)
Definition _subtract_days_body (days_per_month_mapper : gmap Z (gmap Z Z))
    (s : Z * Z * Z) : result (ctl (Z * Z * Z) (Z * Z * PyVal)) :=
  let '(days, current_year, current_month) := s in
  let total_days_in_month :=
    mapper_get days_per_month_mapper current_year current_month in
  if days =? 0
  then Ok (Return (current_year, current_month, of_option total_days_in_month))
  else
    total ← operand total_days_in_month;
    if total <? days then
      let '(current_year, current_month) :=
        _decrement_year_and_month current_year current_month in
      Ok (Continue (days - total, current_year, current_month))
    else if days <? total then
      Ok (Return (current_year, current_month, PyInt (total - days)))
    else Ok (Continue (days, current_year, current_month)).

Definition _subtract_days (fuel : nat) (self : loc) (days : Z) : M loc :=
  _ ← lift (assert (0 <=? days));
  '(self_year, self_month, self_day) ← ymd self;
  let days_per_month_mapper :=
    get_days_per_month_mapper_for_multiple_years
      (range (self_year - days / 366 - 1) (self_year + 1) 1) in
  (* Handle current year/month *)
  let total_days_in_month :=
    mapper_get days_per_month_mapper self_year self_month in
  if days <? self_day then new self_year self_month (self_day - days)
  else
    let days := days - self_day in
    let '(current_year, current_month) :=
      _decrement_year_and_month self_year self_month in
    (* Handle previous years/months *)
    '(y, m, d) ← lift (while_true fuel (_subtract_days_body days_per_month_mapper)
                         (days, current_year, current_month));
    __init__ (PyInt y) (PyInt m) d.

Definition _subtract_years (self : loc) (years : Z) : M loc :=
  _ ← lift (assert (0 <=? years));
  '(self_year, self_month, self_day) ← ymd self;
  let '(month, day) :=
    if (self_month =? 2) && (self_day =? 29) then
      if is_leap_year (self_year - years) then (2, 29) else (2, 28)
    else (self_month, self_day) in
  new (self_year - years) month day.

Definition _subtract_months_mapper : gmap Z Z :=
  list_to_map
    [ (0, 12); (-1, 11); (-2, 10); (-3, 9); (-4, 8); (-5, 7); (-6, 6);
      (-7, 5); (-8, 4); (-9, 3); (-10, 2); (-11, 1) ].

Definition _subtract_months (self : loc) (months : Z) : M loc :=
  _ ← lift (assert (0 <=? months));
  let '(years, months) :=
    (months / NUM_MONTHS_IN_YEAR, months mod NUM_MONTHS_IN_YEAR) in
  date_new ← _subtract_years self years;
  '(date_new_year, date_new_month, date_new_day) ← ymd date_new;
  let month := date_new_month - months in
  let year := date_new_year in
  '(year, month) ←
    (if month <=? 0 then
       month ← lift (getitem _subtract_months_mapper month);
       mret (date_new_year - 1, month)
     else mret (year, month));
  new year month date_new_day.

(** One pass through [while True] in [_add_days]; the state is
    [(days, current_year, current_month)]. *)
Definition _add_days_body (days_per_month_mapper : gmap Z (gmap Z Z))
    (s : Z * Z * Z) : result (ctl (Z * Z * Z) (Z * Z * Z)) :=
  let '(days, current_year, current_month) := s in
  total ← operand (mapper_get days_per_month_mapper current_year current_month);
  if total <? days then
    let '(current_year, current_month) :=
      _increment_year_and_month current_year current_month in
    Ok (Continue (days - total, current_year, current_month))
  else if days <=? total then Ok (Return (current_year, current_month, days))
  else Ok (Continue (days, current_year, current_month)).

Definition _add_days (fuel : nat) (self : loc) (days : Z) : M loc :=
  _ ← lift (assert (0 <=? days));
  '(self_year, self_month, self_day) ← ymd self;
  let days_per_month_mapper :=
    get_days_per_month_mapper_for_multiple_years
      (range self_year (self_year + days / 366 + 2) 1) in
  (* Handle current year/month *)
  total_days_in_month ←
    lift (operand (mapper_get days_per_month_mapper self_year self_month));
  let days_remaining_in_month := total_days_in_month - self_day in
  if days <=? days_remaining_in_month
  then new self_year self_month (self_day + days)
  else
    let days := days - days_remaining_in_month in
    let '(current_year, current_month) :=
      _increment_year_and_month self_year self_month in
    (* Handle subsequent years/months *)
    '(y, m, d) ← lift (while_true fuel (_add_days_body days_per_month_mapper)
                         (days, current_year, current_month));
    new y m d.

Definition _add_years (self : loc) (years : Z) : M loc :=
  _ ← lift (assert (0 <=? years));
  '(self_year, self_month, self_day) ← ymd self;
  let '(month, day) :=
    if (self_month =? 2) && (self_day =? 29) then
      if is_leap_year (self_year + years) then (2, 29) else (3, 1)
    else (self_month, self_day) in
  new (self_year + years) month day.

Definition _add_months (self : loc) (months : Z) : M loc :=
  _ ← lift (assert (0 <=? months));
  let '(years, months) :=
    (months / NUM_MONTHS_IN_YEAR, months mod NUM_MONTHS_IN_YEAR) in
  date_new ← _add_years self years;
  '(date_new_year, date_new_month, date_new_day) ← ymd date_new;
  let month := (date_new_month + months) mod NUM_MONTHS_IN_YEAR in
  let month := if month =? 0 then NUM_MONTHS_IN_YEAR else month in
  let year :=
    if NUM_MONTHS_IN_YEAR <? date_new_month + months then date_new_year + 1
    else date_new_year in
  new year month date_new_day.

Definition _get_years_between_dates (fuel : nat) (small big : loc)
  : M (list Z) :=
  lt ← __lt__ small big;
  _ ← lift (assert lt);
  small_year ← year small ≫= int;
  big_year ← year big ≫= int;
  if small_year =? big_year then mret [small_year]
  else
    lift (while_true fuel
            (λ years : list Z,
               match last years with
               | Some last_year =>
                   if last_year + 1 <=? big_year
                   then Ok (Continue (years ++ [last_year + 1]))
                   else Ok (Return years)
               | None => Raise IndexError
               end)
            [small_year]).

Definition _difference_between_dates_in_same_year (self small big : loc)
  : M Z :=
  lt ← __lt__ small big;
  _ ← lift (assert lt);
  '(small_year, small_month, small_day) ← ymd small;
  '(big_year, big_month, big_day) ← ymd big;
  _ ← lift (assert (small_year =? big_year));
  self_year ← year self ≫= int;
  let days_difference_abs := 0 in
  if small_month =? big_month then
    mret (days_difference_abs + (big_day - small_day))
  else if small_month + 1 =? big_month then
    r ← lift (get_days_remaining_in_month self_year small_month small_day);
    mret (days_difference_abs + r + big_day)
  else
    r ← lift (get_days_remaining_in_month self_year small_month small_day);
    b ← lift (get_days_count_between_months self_year
                (small_month + 1) (big_month - 1));
    mret (days_difference_abs + r + b + big_day).

(** [_, *years_in_between, _ = years] *)
Definition years_in_between (years : list Z) : result (list Z) :=
  match years with
  | _ :: (_ :: _) as rest => Ok (removelast rest)
  | _ => Raise ValueError
  end.

Definition _difference_between_dates_in_different_years
    (fuel : nat) (self small big : loc) : M Z :=
  lt ← __lt__ small big;
  _ ← lift (assert lt);
  small_year ← year small ≫= int;
  big_year ← year big ≫= int;
  _ ← lift (assert (negb (small_year =? big_year)));
  let days_difference_abs := 0 in
  years ← _get_years_between_dates fuel small big;
  years_in_between ← lift (years_in_between years);
  till_end ← days_till_end_of_year small;
  let in_between :=
    match years_in_between with
    | [] => 0
    | _ => sum (get_days_count_in_year <$> years_in_between)
    end in
  since_start ← days_since_start_of_year big;
  mret (days_difference_abs + till_end + in_between + since_start).

Definition difference (fuel : nat) (self other : loc) : M Z :=
  equal ← __eq__ self other;
  if equal : bool then mret 0
  else
    lt ← __lt__ self other;
    '(small, big) ←
      (if lt : bool then s ← copy self; b ← copy other; mret (s, b)
       else s ← copy other; b ← copy self; mret (s, b));
    small_year ← year small ≫= int;
    big_year ← year big ≫= int;
    days_difference_abs ←
      (if small_year =? big_year
       then _difference_between_dates_in_same_year self small big
       else _difference_between_dates_in_different_years fuel self small big);
    lt ← __lt__ self other;
    mret (if lt : bool then days_difference_abs * -1 else days_difference_abs).

Definition abs_difference (fuel : nat) (self other : loc) : M Z :=
  d ← difference fuel self other; mret (Z.abs d).

Definition add (fuel : nat) (self : loc) (years months days : Z) : M loc :=
  d1 ← _add_years self years;
  d2 ← _add_months d1 months;
  _add_days fuel d2 days.

Definition subtract (fuel : nat) (self : loc) (years months days : Z) : M loc :=
  d1 ← _subtract_years self years;
  d2 ← _subtract_months d1 months;
  _subtract_days fuel d2 days.

Definition day_of_week (self : loc) : M string :=
  '(y, m, d) ← ymd self; lift (get_day_of_week y m d).

(** The remaining methods, after the ones they call. *)




Definition is_weekend (self : loc) : M bool :=
  dow ← day_of_week self;
  mret (bool_decide (dow ∈ [DayOfWeek.SATURDAY; DayOfWeek.SUNDAY])).

Definition is_weekday (self : loc) : M bool :=
  weekend ← is_weekend self; mret (negb weekend).

Definition is_last_day_of_month (self : loc) : M bool :=
  '(y, m, d) ← ymd self;
  last_day ← lift (odict_getitem (get_days_per_month_mapper y) m);
  mret (d =? last_day).

Definition is_last_day_of_year (self : loc) : M bool :=
  m ← month self ≫= int; d ← day self ≫= int; mret ((m =? 12) && (d =? 31)).

Definition _subtract_one_day (self : loc) : M loc :=
  first_of_year ← is_first_day_of_year self;
  if first_of_year : bool then
    y ← year self ≫= int; new (y - 1) 12 31
  else
    first_of_month ← is_first_day_of_month self;
    if first_of_month : bool then
      '(y, m, _) ← ymd self;
      last_day ← lift (odict_getitem (get_days_per_month_mapper y) (m - 1));
      new y (m - 1) last_day
    else
      '(y, m, d) ← ymd self; new y m (d - 1).

End Date.

(** ** datelib/decorators.py *)

(** The function [wrapper] that [repeat(num_times)(func)] returns.  A call
    of [func] with the arguments of [wrapper] is any computation on a
    state [St] that returns a value or raises; [wrapper] itself raises
    [UnboundLocalError] when the loop body never ran. *)
Inductive outcome (E A : Type) : Type :=
| Returned (a : A)
| Raised (e : E)
| UnboundLocalError.
Arguments Returned {E A} a.
Arguments Raised {E A} e.
Arguments UnboundLocalError {E A}.

(** The [for _ in range(num_times)] loop of [wrapper], over the passes
    still to make; [result] is what the variable [result] holds. *)
Fixpoint repeat_loop {St E A} (func : St → St * (E + A)) (passes : list Z)
    (result : option A) (st : St) : St * outcome E A :=
  match passes with
  | [] =>
      match result with
      | Some a => (st, Returned a)
      | None => (st, UnboundLocalError)
      end
  | _ :: passes' =>
      match func st with
      | (st', inr a) => repeat_loop func passes' (Some a) st'
      | (st', inl e) => (st', Raised e)
      end
  end.

Definition repeat {St E A} (num_times : Z) (func : St → St * (E + A))
    (st : St) : St * outcome E A :=
  repeat_loop func (range 0 num_times 1) None st.

(** ** The calendar, as the specification words it

    The proleptic Gregorian calendar of the specification's data model:
    the leap-year rule, the month lengths, and day counts obtained by
    adding up whole years, whole months and days.  Nothing here uses
    the code above; the theorems compare the code with it. *)

Module Calendar.

Definition leap_year (y : Z) : bool :=
  (y mod 4 =? 0) && (negb (y mod 100 =? 0) || (y mod 400 =? 0)).

Definition days_in_year (y : Z) : Z := if leap_year y then 366 else 365.

Definition days_in_month (y m : Z) : Z :=
  if m =? 2 then (if leap_year y then 29 else 28)
  else if (m =? 4) || (m =? 6) || (m =? 9) || (m =? 11) then 30
  else 31.

Definition valid (y m d : Z) : bool :=
  (1 <=? y) && (1 <=? m) && (m <=? 12) && (1 <=? d) && (d <=? days_in_month y m).

(** The days of the years [1 .. n]. *)
Fixpoint days_in_years (n : nat) : Z :=
  match n with
  | O => 0
  | S k => days_in_years k + days_in_year (Z.of_nat (S k))
  end.

(** The days of the months [1 .. n] of year [y]. *)
Fixpoint days_in_months (y : Z) (n : nat) : Z :=
  match n with
  | O => 0
  | S k => days_in_months y k + days_in_month y (Z.of_nat (S k))
  end.

(** The number of the day, counting 0001-01-01 as day 1. *)
Definition ordinal (y m d : Z) : Z :=
  days_in_years (Z.to_nat (y - 1)) + days_in_months y (Z.to_nat (m - 1)) + d.

(** The weekday number (1 = Monday ... 7 = Sunday), counted from the
    anchor 2000-01-01, a Saturday. *)
Definition weekday (y m d : Z) : Z :=
  (ordinal y m d - ordinal 2000 1 1 + 5) mod 7 + 1.

Definition weekday_name (n : Z) : string :=
  match n with
  | 1 => "Monday"
  | 2 => "Tuesday"
  | 3 => "Wednesday"
  | 4 => "Thursday"
  | 5 => "Friday"
  | 6 => "Saturday"
  | 7 => "Sunday"
  | _ => ""
  end.

Definition next_day (date : Z * Z * Z) : Z * Z * Z :=
  let '(y, m, d) := date in
  if d <? days_in_month y m then (y, m, d + 1)
  else if m <? 12 then (y, m + 1, 1)
  else (y + 1, 1, 1).

(** Day by day from [from] until [to] is reached: the number of steps
    on top of [n], if [fuel] steps are enough. *)
Fixpoint count_days (fuel : nat) (from to : Z * Z * Z) (n : Z) : option Z :=
  if decide (from = to) then Some n
  else match fuel with
       | O => None
       | S fuel' => count_days fuel' (next_day from) to (n + 1)
       end.

End Calendar.

(** The instance at [self] holds the integers [y], [m], [d]. *)
Definition is_date (h : heap) (self : loc) (y m d : Z) : Prop :=
  h !! self = Some (mkDateObj (PyInt y) (PyInt m) (PyInt d)).

(** What the constructor accepts, in the specification's words. *)
Definition valid_fields (year month day : PyVal) : bool :=
  match year, month, day with
  | PyInt y, PyInt m, PyInt d => Calendar.valid y m d
  | _, _, _ => false
  end.

(** ** Auxiliary definitions of the proofs *)

(** Leap years among [1 .. y]. *)
Definition leaps_upto (y : Z) : Z := y / 4 - y / 100 + y / 400.

(** Days before January 1st of [year], in closed form. *)
Definition days_before_year (year : Z) : Z := 365 * (year - 1) + leaps_upto (year - 1).

(** The months of one year in the multi-year mapper. *)
Definition year_mapper (year : Z) : gmap Z Z :=
  if is_leap_year year then <[2 := 29]> BASE_MAPPER else BASE_MAPPER.

(** The number of the day within its year, January 1st being day 1. *)
Definition day_of_year (y m d : Z) : Z :=
  Calendar.days_in_months y (Z.to_nat (m - 1)) + d.

(** The day numbered [T] (0001-01-01 being day 1) is not after the end
    of some year before [lo], or lies before the calendar altogether. *)
Definition not_after_year (lo T : Z) : Prop :=
  T ≤ 0 ∨ ∃ cy, 1 ≤ cy < lo ∧ T ≤ Calendar.days_in_years (Z.to_nat cy).

(** The day numbered [T] is the last day of a month. *)
Definition last_day_of_a_month (T : Z) : Prop :=
  ∃ y m, Calendar.valid y m (Calendar.days_in_month y m) = true
         ∧ Calendar.ordinal y m (Calendar.days_in_month y m) = T.




(** *** Heap effects of a call *)

(** [m] only ever adds objects: the heap it leaves starts with the heap
    it found, whatever the outcome. *)
Definition grows {A} (m : M A) : Prop :=
  ∀ (h h' : heap) (r : result A), m h = (h', r) → h `prefix_of` h'.

(** When [m] returns, what it returns is the object it allocated last,
    a validated one, on top of a heap that starts with the heap it
    found. *)
Definition returns_new (m : M loc) : Prop :=
  ∀ (h h' : heap) (r : loc),
    m h = (h', Ok r) →
    ∃ (h0 : heap) (o : DateObj),
      h' = h0 ++ [o] ∧ r = length h0 ∧ h `prefix_of` h0
      ∧ valid_fields (_year o) (_month o) (_day o) = true.

Create HintDb frame.

(** Replace a closed subterm of the goal by its value. *)
Ltac eval_closed t := let v := eval vm_compute in t in change t with v.

(** * Theorems *)

(** ** Running the monads *)

Lemma result_bind_Ok {A B} (f : A → result B) (a : A) : Ok a ≫= f = f a.
Proof. reflexivity. Qed.

Lemma result_bind_Raise {A B} (f : A → result B) (e : exn) :
  Raise e ≫= f = Raise e.
Proof. reflexivity. Qed.

(** ** Leap years *)

Lemma is_leap_year_spec y : is_leap_year y = Calendar.leap_year y.
Proof.
  unfold is_leap_year, Calendar.leap_year.
  destruct (y mod 4 =? 0), (y mod 100 =? 0), (y mod 400 =? 0); reflexivity.
Qed.

Lemma leaps_upto_step y :
  leaps_upto y = leaps_upto (y - 1) + (if is_leap_year y then 1 else 0).
Proof.
  unfold leaps_upto, is_leap_year.
  destruct (Z.eqb_spec (y mod 4) 0), (Z.eqb_spec (y mod 100) 0),
    (Z.eqb_spec (y mod 400) 0); simpl;
    Z.div_mod_to_equations; lia.
Qed.

Lemma is_leap_year_mod4 y : is_leap_year y = true → y mod 4 = 0.
Proof.
  unfold is_leap_year. destruct (Z.eqb_spec (y mod 4) 0); [done | discriminate].
Qed.

Lemma not_mod4_not_leap y : y mod 4 ≠ 0 → is_leap_year y = false.
Proof.
  intros H. destruct (is_leap_year y) eqn:E; [| done].
  by apply is_leap_year_mod4 in E.
Qed.

Lemma days_in_years_closed n :
  Calendar.days_in_years n = 365 * Z.of_nat n + leaps_upto (Z.of_nat n).
Proof.
  induction n as [| k IH]; [reflexivity |].
  cbn [Calendar.days_in_years]. rewrite IH.
  rewrite (leaps_upto_step (Z.of_nat (S k))).
  replace (Z.of_nat (S k) - 1) with (Z.of_nat k) by lia.
  unfold Calendar.days_in_year. rewrite <- is_leap_year_spec.
  destruct (is_leap_year _); lia.
Qed.

(** The leap years of a block [r .. r+3] whose first year is a multiple
    of 4: only [r] can be one. *)
Lemma leaps_upto_block r x :
  r mod 4 = 0 → r ≤ x ≤ r + 3 →
  leaps_upto x = leaps_upto (r - 1) + (if is_leap_year r then 1 else 0).
Proof.
  intros Hr Hx. rewrite <- leaps_upto_step.
  unfold leaps_upto. Z.div_mod_to_equations. lia.
Qed.

(** ** The loops that count leap years in [_get_day_of_week_on_january_1st] *)

Lemma count_leaps_ahead year n : ∀ r acc,
  r mod 4 = 0 → r + 4 * Z.of_nat n ≤ year + 4 →
  fold_left
    (λ n year_, if is_leap_year year_ && negb (year_ =? year) then n + 1 else n)
    (range_from r 4 n) acc
  = acc + leaps_upto (Z.min (year - 1) (r + 4 * Z.of_nat n - 1))
    - leaps_upto (Z.min (year - 1) (r - 1)).
Proof.
  induction n as [| k IH]; intros r acc Hr Hle.
  - cbn [range_from fold_left].
    replace (r + 4 * Z.of_nat 0 - 1) with (r - 1) by lia. lia.
  - cbn [range_from fold_left].
    destruct (Z.eqb_spec r year) as [-> | Hne].
    + assert (k = O) as -> by lia. rewrite andb_false_r. cbn.
      rewrite !Z.min_l by lia. lia.
    + rewrite andb_true_r, IH by (try lia; Z.div_mod_to_equations; lia).
      rewrite (leaps_upto_block r (Z.min (year - 1) (r + 4 - 1))) by lia.
      rewrite (Z.min_r (year - 1) (r - 1)) by lia.
      replace (r + 4 + 4 * Z.of_nat k - 1) with (r + 4 * Z.of_nat (S k) - 1) by lia.
      destruct (is_leap_year r); lia.
Qed.

Lemma count_leaps_behind reference_year n : ∀ s acc,
  s mod 4 = 0 → s < reference_year →
  fold_left
    (λ n year_,
       if is_leap_year year_ && negb (year_ =? reference_year) then n + 1 else n)
    (range_from s (-4) n) acc
  = acc + leaps_upto (s + 3) - leaps_upto (s - 4 * Z.of_nat n + 3).
Proof.
  induction n as [| k IH]; intros s acc Hs Hlt.
  - cbn [range_from fold_left].
    replace (s - 4 * Z.of_nat 0 + 3) with (s + 3) by lia. lia.
  - cbn [range_from fold_left].
    destruct (Z.eqb_spec s reference_year) as [-> | _]; [lia |].
    rewrite andb_true_r, IH by (try lia; Z.div_mod_to_equations; lia).
    rewrite (leaps_upto_block s (s + 3)) by lia.
    replace (s + -4 + 3) with (s - 1) by lia.
    replace (s + -4 - 4 * Z.of_nat k + 3) with (s - 4 * Z.of_nat (S k) + 3) by lia.
    destruct (is_leap_year s); lia.
Qed.

(** ** The reference years *)

Lemma ordinal_jan1 year :
  1 ≤ year → Calendar.ordinal year 1 1 = days_before_year year + 1.
Proof.
  intros Hy. unfold Calendar.ordinal, days_before_year.
  rewrite days_in_years_closed, Z2Nat.id by lia.
  change (Z.to_nat (1 - 1)) with O. cbn [Calendar.days_in_months]. lia.
Qed.

(** Every reference year is a leap year whose January 1st is a whole
    number of weeks away from 2000-01-01. *)
Lemma reference_years_ok :
  Forall (λ r, 1 ≤ r ∧ is_leap_year r = true
               ∧ (days_before_year r - days_before_year 2000) mod 7 = 0)
    YEARS_HAVING_JANUARY_1ST_AS_SATURDAY.
Proof.
  repeat (constructor; [split; [lia | split; vm_compute; reflexivity] |]).
  constructor.
Qed.

Lemma argmin_bound_aux (n : nat) (ps : list (nat * Z)) : ∀ low_idx low_item,
  Forall (λ p, (S p.1 < n)%nat) ps → (low_idx < n)%nat →
  ((fold_left argmin_body ps (low_idx, low_item)).1 < n)%nat.
Proof.
  induction ps as [| [idx item] ps IH]; intros low_idx low_item Hall Hlow.
  - exact Hlow.
  - inversion Hall as [| ? ? Hhd Htl]; subst. cbn [fold_left argmin_body].
    destruct (item <? low_item); apply IH; auto.
Qed.

Lemma argmin_bound (l : list Z) i : argmin l = Ok i → (i < length l)%nat.
Proof.
  destruct l as [| first rest]; [discriminate |].
  intros [= <-]. apply argmin_bound_aux; [| cbn; lia].
  apply Forall_forall. intros [idx item] Hin.
  apply elem_of_lookup_imap in Hin as (j & y & [= -> ->] & Hj).
  apply lookup_lt_Some in Hj. cbn. lia.
Qed.

Lemma argmin_is_Ok (l : list Z) : l ≠ [] → ∃ i, argmin l = Ok i.
Proof. destruct l; [done | eauto]. Qed.

Lemma reference_date_details year :
  ∃ r, r ∈ YEARS_HAVING_JANUARY_1ST_AS_SATURDAY
       ∧ _get_reference_date_details year = Ok (r, 6, DayOfWeek.SATURDAY).
Proof.
  unfold _get_reference_date_details.
  destruct (argmin_is_Ok
              ((λ year_, Z.abs (year - year_)) <$> YEARS_HAVING_JANUARY_1ST_AS_SATURDAY))
    as [i Hi]; [done |].
  rewrite Hi, result_bind_Ok.
  apply argmin_bound in Hi. rewrite length_fmap in Hi.
  destruct (lookup_lt_is_Some_2 _ _ Hi) as [r Hr]. rewrite Hr, result_bind_Ok.
  exists r. split; [by eapply list_elem_of_lookup_2 |].
  assert (is_leap_year r = true) as ->.
  { pose proof reference_years_ok as Hall. rewrite Forall_lookup in Hall.
    by destruct (Hall _ _ Hr) as (_ & ? & _). }
  reflexivity.
Qed.

(** ** January 1st *)

Lemma day_name_lookup n :
  1 ≤ n ≤ 7 → getitem DAY_NUMBER_TO_NAME_MAPPER n = Ok (Calendar.weekday_name n).
Proof.
  intros Hn.
  assert (n = 1 ∨ n = 2 ∨ n = 3 ∨ n = 4 ∨ n = 5 ∨ n = 6 ∨ n = 7)
    as [-> | [-> | [-> | [-> | [-> | [-> | ->]]]]]] by lia;
    reflexivity.
Qed.

Lemma weekday_range y m d : 1 ≤ Calendar.weekday y m d ≤ 7.
Proof. unfold Calendar.weekday. Z.div_mod_to_equations. lia. Qed.

Lemma weekday_jan1 year :
  1 ≤ year →
  Calendar.weekday year 1 1
  = (days_before_year year - days_before_year 2000 + 5) mod 7 + 1.
Proof.
  intros Hy. unfold Calendar.weekday. rewrite !ordinal_jan1 by lia.
  do 2 f_equal. lia.
Qed.

Lemma january_1st year :
  1 ≤ year →
  _get_day_of_week_on_january_1st year
  = Ok (Calendar.weekday year 1 1,
        Calendar.weekday_name (Calendar.weekday year 1 1)).
Proof.
  intros Hy. unfold _get_day_of_week_on_january_1st.
  destruct (reference_date_details year) as (r & Hin & ->).
  rewrite result_bind_Ok. cbv beta iota.
  pose proof reference_years_ok as Hall. rewrite Forall_forall in Hall.
  destruct (Hall r Hin) as (Hr1 & Hleap & Hsat). clear Hall Hin.
  apply is_leap_year_mod4 in Hleap.
  pose proof (weekday_range year 1 1) as Hrange.
  rewrite weekday_jan1 in * by done.
  unfold days_before_year in *.
  destruct (Z.eqb_spec year r) as [-> | Hne].
  { replace ((365 * (r - 1) + leaps_upto (r - 1)
              - (365 * (2000 - 1) + leaps_upto (2000 - 1)) + 5) mod 7 + 1)
      with 6 by (Z.div_mod_to_equations; lia).
    reflexivity. }
  unfold range, range_len, NUM_DAYS_IN_WEEK.
  destruct (Z.ltb_spec r year) as [Hlt | Hge]; cbv zeta.
  - change (0 <? 4) with true. cbv iota.
    rewrite count_leaps_ahead;
      [| done | rewrite Z2Nat.id; Z.div_mod_to_equations; lia].
    rewrite Z2Nat.id by (Z.div_mod_to_equations; lia).
    rewrite (Z.min_l (year - 1)) by (Z.div_mod_to_equations; lia).
    rewrite (Z.min_r (year - 1)) by lia.
    rewrite Z.abs_eq by lia.
    match goal with
    | |- context [if ?d =? 0 then 7 else ?d] =>
        replace (if d =? 0 then 7 else d)
          with ((365 * (year - 1) + leaps_upto (year - 1)
                 - (365 * (2000 - 1) + leaps_upto (2000 - 1)) + 5) mod 7 + 1)
    end.
    + rewrite day_name_lookup by done. reflexivity.
    + set (a := leaps_upto (year - 1)) in *. set (b := leaps_upto (r - 1)) in *.
      set (c := leaps_upto (2000 - 1)) in *. clearbody a b c.
      destruct (Z.eqb_spec ((6 + (year - r + (0 + a - b)) mod 7) mod 7) 0);
        Z.div_mod_to_equations; lia.
  - change (0 <? -4) with false. change (-4 <? 0) with true. cbv iota.
    change (- -4) with 4.
    assert (∃ k, range_from r (-4) (Z.to_nat ((r - (year - 1) - -4 - 1) / 4))
                 = r :: range_from (r - 4) (-4) k
                 ∧ (year - 1) / 4 = (r - 4 - 4 * Z.of_nat k + 3) / 4)
      as (k & -> & Hk).
    { exists (Z.to_nat ((r - (year - 1) - -4 - 1) / 4 - 1)).
      replace (Z.to_nat ((r - (year - 1) - -4 - 1) / 4))
        with (S (Z.to_nat ((r - (year - 1) - -4 - 1) / 4 - 1)))
        by (Z.div_mod_to_equations; lia).
      split; [reflexivity |].
      rewrite Z2Nat.id by (Z.div_mod_to_equations; lia).
      Z.div_mod_to_equations; lia. }
    cbn [fold_left]. rewrite Z.eqb_refl, andb_false_r.
    rewrite count_leaps_behind; [| Z.div_mod_to_equations; lia | lia].
    replace (r - 4 + 3) with (r - 1) by lia.
    assert (leaps_upto (r - 4 - 4 * Z.of_nat k + 3) = leaps_upto (year - 1)) as ->.
    { unfold leaps_upto. rewrite <- !(Z.div_div _ 4 25), <- !(Z.div_div _ 4 100), Hk by lia.
      reflexivity. }
    rewrite Z.abs_neq by lia.
    match goal with
    | |- context [if ?d =? 0 then 7 else ?d] =>
        replace (if d =? 0 then 7 else d)
          with ((365 * (year - 1) + leaps_upto (year - 1)
                 - (365 * (2000 - 1) + leaps_upto (2000 - 1)) + 5) mod 7 + 1)
    end.
    + rewrite day_name_lookup by done. reflexivity.
    + set (a := leaps_upto (year - 1)) in *. set (b := leaps_upto (r - 1)) in *.
      set (c := leaps_upto (2000 - 1)) in *. clearbody a b c.
      destruct (Z.eqb_spec
                  ((6 + (7 - (- (year - r) + (0 + b - a)) mod 7)) mod 7) 0);
        Z.div_mod_to_equations; lia.
Qed.

(** ** The day of the week of any valid date *)

Lemma valid_bounds y m d :
  Calendar.valid y m d = true →
  1 ≤ y ∧ 1 ≤ m ≤ 12 ∧ 1 ≤ d ≤ Calendar.days_in_month y m.
Proof. unfold Calendar.valid. rewrite !andb_true_iff, !Z.leb_le. lia. Qed.

Lemma get_day_of_week_correct y m d :
  Calendar.valid y m d = true →
  get_day_of_week y m d = Ok (Calendar.weekday_name (Calendar.weekday y m d)).
Proof.
  intros (Hy & Hm & Hd)%valid_bounds. unfold get_day_of_week.
  rewrite january_1st, result_bind_Ok by done. cbv beta iota.
  rewrite <- (day_name_lookup (Calendar.weekday y m d)) by apply weekday_range.
  pose proof (weekday_range y 1 1) as Hj. revert Hj.
  unfold Calendar.weekday, Calendar.ordinal, NUM_DAYS_IN_WEEK.
  generalize (Calendar.days_in_years (Z.to_nat (2000 - 1))
              + Calendar.days_in_months 2000 (Z.to_nat (1 - 1)) + 1).
  generalize (Calendar.days_in_years (Z.to_nat (y - 1))).
  intros J C. rewrite is_leap_year_spec. clear Hd.
  assert (m = 1 ∨ m = 2 ∨ m = 3 ∨ m = 4 ∨ m = 5 ∨ m = 6 ∨ m = 7 ∨ m = 8
          ∨ m = 9 ∨ m = 10 ∨ m = 11 ∨ m = 12)
    as [-> | [-> | [-> | [-> | [-> | [-> | [-> | [-> | [-> | [-> | [-> | ->]]]]]]]]]]]
    by lia;
    match goal with
    | |- context [getitem _MONTH_TO_FIRST_SAME_DAY_MAPPER ?k] =>
        eval_closed (getitem _MONTH_TO_FIRST_SAME_DAY_MAPPER k);
        eval_closed (2 <? k); eval_closed (Z.to_nat (k - 1))
    end;
    change (Z.to_nat (1 - 1)) with O;
    rewrite result_bind_Ok; cbv zeta;
    cbn [Calendar.days_in_months]; unfold Calendar.days_in_month;
    repeat match goal with
           | |- context [Z.of_nat ?k =? ?j] => eval_closed (Z.of_nat k =? j)
           end;
    cbn [orb andb];
    destruct (Calendar.leap_year y); cbn [andb];
    intros Hj; f_equal;
    match goal with
    | |- context [?a mod 7 <? 0] => destruct (Z.ltb_spec (a mod 7) 0)
    end;
    match goal with
    | |- context [if ?dow =? 0 then 7 else ?dow] => destruct (Z.eqb_spec dow 0)
    end;
    Z.div_mod_to_equations; lia.
Qed.

(** ** Running heap computations *)

Lemma run_bind {A B} (f : A → M B) (m : M A) (h : heap) :
  (m ≫= f) h
  = match m h with
    | (h', Ok a) => f a h'
    | (h', Raise e) => (h', Raise e)
    | (h', OutOfFuel) => (h', OutOfFuel)
    end.
Proof. reflexivity. Qed.

Lemma run_bind_Ok {A B} (f : A → M B) (m : M A) (h h' : heap) (a : A) :
  m h = (h', Ok a) → (m ≫= f) h = f a h'.
Proof. intros H. by rewrite run_bind, H. Qed.

Lemma run_bind_Raise {A B} (f : A → M B) (m : M A) (h h' : heap) (e : exn) :
  m h = (h', Raise e) → (m ≫= f) h = (h', Raise e).
Proof. intros H. by rewrite run_bind, H. Qed.

Lemma run_load h self o : h !! self = Some o → load self h = (h, Ok o).
Proof. intros H. unfold load. by rewrite H. Qed.

Lemma run_year h self o : h !! self = Some o → Date.year self h = (h, Ok (_year o)).
Proof. intros H. unfold Date.year. by rewrite (run_bind_Ok _ _ _ _ _ (run_load _ _ _ H)). Qed.

Lemma run_month h self o : h !! self = Some o → Date.month self h = (h, Ok (_month o)).
Proof. intros H. unfold Date.month. by rewrite (run_bind_Ok _ _ _ _ _ (run_load _ _ _ H)). Qed.

Lemma run_day h self o : h !! self = Some o → Date.day self h = (h, Ok (_day o)).
Proof. intros H. unfold Date.day. by rewrite (run_bind_Ok _ _ _ _ _ (run_load _ _ _ H)). Qed.

Lemma run_ymd h self y m d :
  is_date h self y m d → Date.ymd self h = (h, Ok (y, m, d)).
Proof.
  intros H. unfold Date.ymd.
  rewrite (run_bind_Ok _ _ h h y);
    [| by rewrite (run_bind_Ok _ _ _ _ _ (run_year _ _ _ H))].
  rewrite (run_bind_Ok _ _ h h m);
    [| by rewrite (run_bind_Ok _ _ _ _ _ (run_month _ _ _ H))].
  rewrite (run_bind_Ok _ _ h h d);
    [| by rewrite (run_bind_Ok _ _ _ _ _ (run_day _ _ _ H))].
  reflexivity.
Qed.

(** ** Validation *)

Lemma valid_iff y m d :
  Calendar.valid y m d = true
  ↔ 1 ≤ y ∧ 1 ≤ m ≤ 12 ∧ 1 ≤ d ≤ Calendar.days_in_month y m.
Proof. unfold Calendar.valid. rewrite !andb_true_iff, !Z.leb_le. lia. Qed.

Lemma validate_spec h self o :
  h !! self = Some o →
  Date._validate_date self h
  = (h, if valid_fields (_year o) (_month o) (_day o)
        then Ok () else Raise InvalidDateError).
Proof.
  intros H. unfold Date._validate_date.
  rewrite (run_bind_Ok _ _ _ _ _ (run_year _ _ _ H)).
  rewrite (run_bind_Ok _ _ _ _ _ (run_month _ _ _ H)).
  rewrite (run_bind_Ok _ _ _ _ _ (run_day _ _ _ H)).
  clear H. destruct o as [[y |] [m |] [d |]]; try reflexivity.
  cbn [_year _month _day valid_fields].
  destruct (Calendar.valid y m d) eqn:E;
    [apply valid_iff in E
    | apply not_true_iff_false in E; rewrite valid_iff in E];
    revert E; unfold Calendar.days_in_month; rewrite <- is_leap_year_spec;
    intros E.
  - destruct E as (Hy & Hm & Hd).
    destruct (Z.leb_spec y 0); [lia |].
    assert (m = 1 ∨ m = 2 ∨ m = 3 ∨ m = 4 ∨ m = 5 ∨ m = 6 ∨ m = 7 ∨ m = 8
            ∨ m = 9 ∨ m = 10 ∨ m = 11 ∨ m = 12)
      as [-> | [-> | [-> | [-> | [-> | [-> | [-> | [-> | [-> | [-> | [-> | ->]]]]]]]]]]]
      by lia;
      cbn in Hd |- *; destruct (is_leap_year y); cbn [andb orb negb];
      repeat match goal with
             | |- context [?a <=? ?b] => destruct (Z.leb_spec a b); try lia
             end;
      reflexivity.
  - destruct (Z.leb_spec y 0); [reflexivity |].
    destruct (Z.leb_spec 1 m), (Z.leb_spec m 12); try reflexivity.
    assert (m = 1 ∨ m = 2 ∨ m = 3 ∨ m = 4 ∨ m = 5 ∨ m = 6 ∨ m = 7 ∨ m = 8
            ∨ m = 9 ∨ m = 10 ∨ m = 11 ∨ m = 12)
      as [-> | [-> | [-> | [-> | [-> | [-> | [-> | [-> | [-> | [-> | [-> | ->]]]]]]]]]]]
      by lia;
      cbn in E |- *; destruct (is_leap_year y); cbn [andb orb negb];
      repeat match goal with
             | |- context [?a <=? ?b] => destruct (Z.leb_spec a b); try lia
             end;
      reflexivity.
Qed.

(** ** Construction and the setters *)

Lemma run_alloc o h : alloc o h = (h ++ [o], Ok (length h)).
Proof. reflexivity. Qed.

Lemma lookup_alloc (h : heap) (o : DateObj) : (h ++ [o]) !! length h = Some o.
Proof. by apply list_lookup_middle. Qed.

Lemma run_init year month day h :
  Date.__init__ year month day h
  = (h ++ [mkDateObj year month day],
     if valid_fields year month day then Ok (length h)
     else Raise InvalidDateError).
Proof.
  unfold Date.__init__.
  rewrite (run_bind_Ok _ _ _ _ _ (run_alloc _ _)), run_bind.
  rewrite (validate_spec _ _ _ (lookup_alloc _ _)). cbn [_year _month _day].
  by destruct (valid_fields year month day).
Qed.

(** C5: [Date(year, month, day)] returns a new instance holding the three
    fields exactly when all three are integers with [year >= 1], [month]
    in 1-12 and [day] in 1 .. days-in-month (28/29 for February by leap
    year, 30 for April, June, September and November, 31 otherwise), and
    raises [InvalidDateError] for every other triple. *)
Theorem init_accepts_exactly_the_valid_triples (year month day : PyVal) (h : heap) :
  Date.__init__ year month day h
  = (h ++ [mkDateObj year month day],
     if valid_fields year month day then Ok (length h)
     else Raise InvalidDateError).
Proof. apply run_init. Qed.

(** The invalid triples the specification lists, and a non-integer field. *)
Example init_rejects_listed_triples :
  snd (Date.new 2021 0 10 []) = Raise InvalidDateError
  ∧ snd (Date.new 2021 13 10 []) = Raise InvalidDateError
  ∧ snd (Date.new 2021 5 0 []) = Raise InvalidDateError
  ∧ snd (Date.new 2021 1 32 []) = Raise InvalidDateError
  ∧ snd (Date.new 2021 2 29 []) = Raise InvalidDateError
  ∧ snd (Date.new 0 1 1 []) = Raise InvalidDateError
  ∧ snd (Date.__init__ (PyInt 2021) (PyOther "float") (PyInt 1) [])
    = Raise InvalidDateError
  ∧ snd (Date.new 2020 2 29 []) = Ok O.
Proof. repeat split; reflexivity. Qed.

(** The leap years and the day shift the specification lists. *)
Example is_leap_year_examples :
  is_leap_year <$> [2000; 1996; 2400; 1900; 2100; 1999]
  = [true; true; true; false; false; false].
Proof. reflexivity. Qed.

Example add_360_days :
  snd ((d ← Date.new 2014 1 1; r ← Date.add 11 d 0 0 360; Date.ymd r) [])
  = Ok (2014, 12, 27).
Proof. vm_compute. reflexivity. Qed.

Lemma run_store h self o f :
  h !! self = Some o → store self f h = (<[self := f o]> h, Ok ()).
Proof. intros H. unfold store. by rewrite H. Qed.

Lemma lookup_stored (h : heap) self (o o' : DateObj) :
  h !! self = Some o → <[self := o']> h !! self = Some o'.
Proof. intros H. apply list_lookup_insert_eq. by eapply lookup_lt_Some. Qed.

(** C2 as stated fails: assigning month 2 to the valid date 2020-01-31
    raises [InvalidDateError], and the instance then holds 2020-02-31. *)
Lemma setter_failure_keeps_the_rejected_value :
  valid_fields (PyInt 2020) (PyInt 1) (PyInt 31) = true
  ∧ Date.set_month 0 (PyInt 2) [mkDateObj (PyInt 2020) (PyInt 1) (PyInt 31)]
    = ([mkDateObj (PyInt 2020) (PyInt 2) (PyInt 31)], Raise InvalidDateError)
  ∧ mkDateObj (PyInt 2020) (PyInt 2) (PyInt 31)
    ≠ mkDateObj (PyInt 2020) (PyInt 1) (PyInt 31).
Proof. split; [reflexivity | split; [reflexivity | discriminate]]. Qed.

(** C2, amended: a setter always stores the assigned value in its field
    and leaves the other two fields as they were, and it raises
    [InvalidDateError] exactly when the resulting triple is invalid; so
    after a failed assignment the instance holds the rejected value. *)
Theorem setter_assigns_then_validates (h : heap) (self : loc) (o : DateObj) (v : PyVal) :
  h !! self = Some o →
  Date.set_year self v h
  = (<[self := mkDateObj v (_month o) (_day o)]> h,
     if valid_fields v (_month o) (_day o) then Ok ()
     else Raise InvalidDateError)
  ∧ Date.set_month self v h
    = (<[self := mkDateObj (_year o) v (_day o)]> h,
       if valid_fields (_year o) v (_day o) then Ok ()
       else Raise InvalidDateError)
  ∧ Date.set_day self v h
    = (<[self := mkDateObj (_year o) (_month o) v]> h,
       if valid_fields (_year o) (_month o) v then Ok ()
       else Raise InvalidDateError).
Proof.
  intros H. unfold Date.set_year, Date.set_month, Date.set_day.
  rewrite !(run_bind_Ok _ _ _ _ _ (run_store _ _ _ _ H)).
  by rewrite !(validate_spec _ _ _ (lookup_stored _ _ _ _ H)).
Qed.

Lemma setter_assigns_then_validates_witness :
  Date.set_day 0 (PyInt 30) [mkDateObj (PyInt 2021) (PyInt 2) (PyInt 28)]
  = ([mkDateObj (PyInt 2021) (PyInt 2) (PyInt 30)], Raise InvalidDateError).
Proof.
  exact (proj2 (proj2 (setter_assigns_then_validates
                         [mkDateObj (PyInt 2021) (PyInt 2) (PyInt 28)] 0
                         (mkDateObj (PyInt 2021) (PyInt 2) (PyInt 28))
                         (PyInt 30) eq_refl))).
Defined.

(** ** Comparisons *)

(** C8: [a >= b] holds exactly when year, month and day of [a] are each
    [>=] those of [b], and [a <= b] exactly when each is [<=]; so the
    non-strict operators do not agree with the strict ones: 2021-01-01 is
    [>] 2020-12-31 but not [>=] it. *)
Theorem nonstrict_comparisons_are_fieldwise :
  (∀ (h : heap) (a b : loc) ya ma da yb mb db,
     is_date h a ya ma da → is_date h b yb mb db →
     Date.__ge__ a b h = (h, Ok (bool_decide (ya >= yb ∧ ma >= mb ∧ da >= db)))
     ∧ Date.__le__ a b h = (h, Ok (bool_decide (ya ≤ yb ∧ ma ≤ mb ∧ da ≤ db))))
  ∧ (let h := [mkDateObj (PyInt 2021) (PyInt 1) (PyInt 1);
               mkDateObj (PyInt 2020) (PyInt 12) (PyInt 31)] in
     Calendar.valid 2021 1 1 = true ∧ Calendar.valid 2020 12 31 = true
     ∧ Date.__gt__ 0 1 h = (h, Ok true) ∧ Date.__ge__ 0 1 h = (h, Ok false)).
Proof.
  split; [| by repeat split].
  intros h a b ya ma da yb mb db Ha Hb. unfold Date.__ge__, Date.__le__.
  rewrite !(run_bind_Ok _ _ _ _ _ (run_ymd _ _ _ _ _ Ha)). cbv beta iota.
  rewrite !(run_bind_Ok _ _ _ _ _ (run_ymd _ _ _ _ _ Hb)). cbv beta iota.
  split; unfold mret, M_ret; do 2 f_equal; symmetry.
  - destruct (Z.leb_spec yb ya), (Z.leb_spec mb ma), (Z.leb_spec db da);
      cbn [andb]; first [apply bool_decide_eq_true | apply bool_decide_eq_false];
      lia.
  - destruct (Z.leb_spec ya yb), (Z.leb_spec ma mb), (Z.leb_spec da db);
      cbn [andb]; first [apply bool_decide_eq_true | apply bool_decide_eq_false];
      lia.
Qed.

Lemma nonstrict_comparisons_are_fieldwise_witness :
  let h := [mkDateObj (PyInt 2020) (PyInt 5) (PyInt 10);
            mkDateObj (PyInt 2020) (PyInt 3) (PyInt 20)] in
  Date.__ge__ 0 1 h = (h, Ok false) ∧ Date.__le__ 0 1 h = (h, Ok false).
Proof.
  exact (proj1 nonstrict_comparisons_are_fieldwise
           [mkDateObj (PyInt 2020) (PyInt 5) (PyInt 10);
            mkDateObj (PyInt 2020) (PyInt 3) (PyInt 20)] 0%nat 1%nat
           2020 5 10 2020 3 20 eq_refl eq_refl).
Defined.

(** ** Day of the week *)

(** C4: for every valid date, [day_of_week] is the name of the weekday
    obtained by counting days from the anchor 2000-01-01 (a Saturday)
    modulo 7 in the proleptic Gregorian calendar; in particular
    [Date(2000, 1, 1).day_of_week] is ["Saturday"]. *)
Theorem day_of_week_matches_the_calendar :
  (∀ (h : heap) (self : loc) y m d,
     is_date h self y m d → Calendar.valid y m d = true →
     Date.day_of_week self h
     = (h, Ok (Calendar.weekday_name (Calendar.weekday y m d))))
  ∧ snd ((d ← Date.new 2000 1 1; Date.day_of_week d) []) = Ok "Saturday".
Proof.
  split; [| reflexivity].
  intros h self y m d Hself Hvalid. unfold Date.day_of_week.
  rewrite (run_bind_Ok _ _ _ _ _ (run_ymd _ _ _ _ _ Hself)). cbv beta iota.
  unfold lift. by rewrite get_day_of_week_correct.
Qed.

Lemma day_of_week_matches_the_calendar_witness :
  Date.day_of_week 0 [mkDateObj (PyInt 2000) (PyInt 1) (PyInt 1)]
  = ([mkDateObj (PyInt 2000) (PyInt 1) (PyInt 1)],
     Ok (Calendar.weekday_name (Calendar.weekday 2000 1 1))).
Proof.
  exact (proj1 day_of_week_matches_the_calendar
           [mkDateObj (PyInt 2000) (PyInt 1) (PyInt 1)] 0%nat 2000 1 1
           eq_refl eq_refl).
Defined.

(** ** Differences *)

(** C9: [Date(2014,8,1).difference(Date(2018,6,11))] is [-1410], and 1410
    is the number of single-day steps that lead from 2014-08-01 to
    2018-06-11 (any fuel of at least 5 is enough for the loop that lists
    the years). *)
Theorem difference_2014_08_01_to_2018_06_11 (fuel : nat) :
  Calendar.count_days 2000 (2014, 8, 1) (2018, 6, 11) 0 = Some 1410
  ∧ snd ((a ← Date.new 2014 8 1; b ← Date.new 2018 6 11;
          Date.difference (5 + fuel) a b) [])
    = Ok (-1410).
Proof. split; vm_compute; reflexivity. Qed.

(** C1 fails on the code: two dates of one year whose months and days
    are ordered in opposite ways are each [<] the other; the difference
    from the later one trips the assertion of
    [get_days_count_between_months], the other direction returns. *)
Theorem difference_raises_in_one_direction (fuel : nat) :
  snd ((a ← Date.new 2020 5 10; b ← Date.new 2020 3 20; Date.__lt__ a b) [])
  = Ok true
  ∧ snd ((a ← Date.new 2020 5 10; b ← Date.new 2020 3 20; Date.__lt__ b a) [])
    = Ok true
  ∧ snd ((a ← Date.new 2020 5 10; b ← Date.new 2020 3 20;
          Date.difference fuel a b) [])
    = Raise AssertionError
  ∧ snd ((a ← Date.new 2020 5 10; b ← Date.new 2020 3 20;
          Date.difference fuel b a) [])
    = Ok (-51).
Proof. repeat split; vm_compute; reflexivity. Qed.

(** ** Month shifts *)

(** C7: [Date(2020,1,31).add(months=1)] and
    [Date(2021,3,31).subtract(months=1)] raise [InvalidDateError]: the
    month shift keeps day 31 and the last object it builds is the
    rejected February 31st. *)
Theorem month_shift_keeps_the_day_and_may_raise (fuel : nat) :
  (let r := (d ← Date.new 2020 1 31; Date.add fuel d 0 1 0) [] in
   snd r = Raise InvalidDateError
   ∧ last (fst r) = Some (mkDateObj (PyInt 2020) (PyInt 2) (PyInt 31)))
  ∧ (let r := (d ← Date.new 2021 3 31; Date.subtract fuel d 0 1 0) [] in
     snd r = Raise InvalidDateError
     ∧ last (fst r) = Some (mkDateObj (PyInt 2021) (PyInt 2) (PyInt 31))).
Proof. repeat split; vm_compute; reflexivity. Qed.

(** ** The month-length lookup of the day shifts *)

Lemma elem_of_range_from s n y :
  y ∈ range_from s 1 n ↔ s ≤ y < s + Z.of_nat n.
Proof.
  revert s. induction n as [| k IH]; intros s; cbn [range_from].
  - rewrite elem_of_nil. lia.
  - rewrite elem_of_cons, IH. lia.
Qed.

Lemma elem_of_range a b y : y ∈ range a b 1 ↔ a ≤ y < b.
Proof.
  unfold range, range_len. change (0 <? 1) with true. cbv iota.
  rewrite elem_of_range_from, Z.div_1_r. lia.
Qed.

Lemma lookup_fold_years (l : list Z) : ∀ (full_mapper : gmap Z (gmap Z Z)) y,
  fold_left (λ full_mapper year, <[year := year_mapper year]> full_mapper)
    l full_mapper !! y
  = if decide (y ∈ l) then Some (year_mapper y) else full_mapper !! y.
Proof.
  induction l as [| x l IH]; intros full_mapper y; cbn [fold_left].
  - case_decide as H; [by apply elem_of_nil in H | done].
  - rewrite IH. destruct (decide (y ∈ l)) as [Hin | Hnin].
    + by rewrite decide_True by (by right).
    + destruct (decide (y = x)) as [-> | Hne].
      * rewrite decide_True by left. by rewrite lookup_insert_eq.
      * rewrite decide_False by (rewrite elem_of_cons; tauto).
        by rewrite lookup_insert_ne.
Qed.

Lemma mapper_get_listed years y m :
  y ∈ years → 1 ≤ m ≤ 12 →
  Date.mapper_get (get_days_per_month_mapper_for_multiple_years years) y m
  = Some (Calendar.days_in_month y m).
Proof.
  intros Hy Hm. unfold Date.mapper_get, get_days_per_month_mapper_for_multiple_years.
  change (fold_left _ (sorted years) ∅)
    with (fold_left (λ full_mapper year, <[year := year_mapper year]> full_mapper)
            (sorted years) (∅ : gmap Z (gmap Z Z))).
  rewrite lookup_fold_years.
  rewrite decide_True by (unfold sorted; by rewrite merge_sort_Permutation).
  cbn [default]. unfold year_mapper, Calendar.days_in_month.
  rewrite is_leap_year_spec.
  assert (m = 1 ∨ m = 2 ∨ m = 3 ∨ m = 4 ∨ m = 5 ∨ m = 6 ∨ m = 7 ∨ m = 8
          ∨ m = 9 ∨ m = 10 ∨ m = 11 ∨ m = 12)
    as [-> | [-> | [-> | [-> | [-> | [-> | [-> | [-> | [-> | [-> | [-> | ->]]]]]]]]]]]
    by lia;
    destruct (Calendar.leap_year y); reflexivity.
Qed.

(** ** The shifters on a validated instance *)

Lemma run_new h y m d :
  Date.new y m d h
  = (h ++ [mkDateObj (PyInt y) (PyInt m) (PyInt d)],
     if Calendar.valid y m d then Ok (length h) else Raise InvalidDateError).
Proof. apply run_init. Qed.

Lemma run_new_valid h y m d :
  Calendar.valid y m d = true →
  Date.new y m d h
  = (h ++ [mkDateObj (PyInt y) (PyInt m) (PyInt d)], Ok (length h)).
Proof. intros H. by rewrite run_new, H. Qed.

Lemma is_date_new (h : heap) y m d :
  is_date (h ++ [mkDateObj (PyInt y) (PyInt m) (PyInt d)]) (length h) y m d.
Proof. apply lookup_alloc. Qed.

Lemma is_date_app (h hs : heap) self y m d :
  is_date h self y m d → is_date (h ++ hs) self y m d.
Proof. apply lookup_app_l_Some. Qed.

Lemma run_assert {A} (f : unit → M A) (b : bool) (h : heap) :
  b = true → (lift (assert b) ≫= f) h = f () h.
Proof. by intros ->. Qed.

(** A valid February 29th lies in a leap year. *)
Lemma valid_feb29 y : Calendar.valid y 2 29 = true → is_leap_year y = true.
Proof.
  intros (_ & _ & Hd)%valid_iff. revert Hd. unfold Calendar.days_in_month.
  rewrite is_leap_year_spec. change (2 =? 2) with true. cbv iota.
  destruct (Calendar.leap_year y); [done | lia].
Qed.

Lemma run_add_years h self y m d n :
  is_date h self y m d → 0 ≤ n →
  Date._add_years self n h
  = (if (m =? 2) && (d =? 29)
     then if is_leap_year (y + n) then Date.new (y + n) 2 29
          else Date.new (y + n) 3 1
     else Date.new (y + n) m d) h.
Proof.
  intros Hself Hn. unfold Date._add_years.
  rewrite run_assert by lia.
  rewrite (run_bind_Ok _ _ _ _ _ (run_ymd _ _ _ _ _ Hself)). cbv beta iota.
  by destruct ((m =? 2) && (d =? 29)), (is_leap_year (y + n)).
Qed.

Lemma run_subtract_years h self y m d n :
  is_date h self y m d → 0 ≤ n →
  Date._subtract_years self n h
  = (if (m =? 2) && (d =? 29)
     then if is_leap_year (y - n) then Date.new (y - n) 2 29
          else Date.new (y - n) 2 28
     else Date.new (y - n) m d) h.
Proof.
  intros Hself Hn. unfold Date._subtract_years.
  rewrite run_assert by lia.
  rewrite (run_bind_Ok _ _ _ _ _ (run_ymd _ _ _ _ _ Hself)). cbv beta iota.
  by destruct ((m =? 2) && (d =? 29)), (is_leap_year (y - n)).
Qed.

Lemma while_true_stuck {S R} (body : S → result (ctl S R)) (s : S) :
  body s = Ok (Continue s) → ∀ fuel, while_true fuel body s = OutOfFuel.
Proof.
  intros Hbody fuel. induction fuel as [| fuel IH]; [reflexivity |].
  cbn [while_true]. by rewrite Hbody.
Qed.

Lemma days_in_month_bounds y m : 28 ≤ Calendar.days_in_month y m ≤ 31.
Proof.
  unfold Calendar.days_in_month.
  destruct (m =? 2), (Calendar.leap_year y),
    ((m =? 4) || (m =? 6) || (m =? 9) || (m =? 11)); lia.
Qed.

(** Shifting a valid date by nothing copies it. *)

Section ValidReceiver.

Context (h : heap) (self : loc) (y m d : Z).
Hypothesis Hself : is_date h self y m d.
Hypothesis Hvalid : Calendar.valid y m d = true.

Lemma run_add_years_0 :
  Date._add_years self 0 h
  = (h ++ [mkDateObj (PyInt y) (PyInt m) (PyInt d)], Ok (length h)).
Proof.
  rewrite (run_add_years _ _ _ _ _ _ Hself), Z.add_0_r by lia.
  destruct (Z.eqb_spec m 2) as [Hm | ?], (Z.eqb_spec d 29) as [Hd | ?];
    cbn [andb]; try by apply run_new_valid.
  pose proof Hvalid as Hfeb29. rewrite Hm, Hd in Hfeb29 |- *.
  rewrite (valid_feb29 _ Hfeb29). by apply run_new_valid.
Qed.

Lemma run_subtract_years_0 :
  Date._subtract_years self 0 h
  = (h ++ [mkDateObj (PyInt y) (PyInt m) (PyInt d)], Ok (length h)).
Proof.
  rewrite (run_subtract_years _ _ _ _ _ _ Hself), Z.sub_0_r by lia.
  destruct (Z.eqb_spec m 2) as [Hm | ?], (Z.eqb_spec d 29) as [Hd | ?];
    cbn [andb]; try by apply run_new_valid.
  pose proof Hvalid as Hfeb29. rewrite Hm, Hd in Hfeb29 |- *.
  rewrite (valid_feb29 _ Hfeb29). by apply run_new_valid.
Qed.

Lemma run_add_months_0 :
  Date._add_months self 0 h
  = (h ++ [mkDateObj (PyInt y) (PyInt m) (PyInt d);
           mkDateObj (PyInt y) (PyInt m) (PyInt d)],
     Ok (S (length h))).
Proof.
  unfold Date._add_months, NUM_MONTHS_IN_YEAR.
  rewrite run_assert by done.
  change (0 / 12) with 0. change (0 mod 12) with 0. cbv beta iota.
  rewrite (run_bind_Ok _ _ _ _ _ run_add_years_0).
  rewrite (run_bind_Ok _ _ _ _ _ (run_ymd _ _ _ _ _ (is_date_new _ _ _ _))).
  cbv beta iota zeta. rewrite Z.add_0_r.
  pose proof (proj1 (valid_iff _ _ _) Hvalid) as (_ & Hm & _).
  assert ((if m mod 12 =? 0 then 12 else m mod 12) = m) as ->.
  { destruct (Z.eqb_spec (m mod 12) 0); Z.div_mod_to_equations; lia. }
  assert ((12 <? m) = false) as -> by lia.
  rewrite run_new_valid by done.
  by rewrite length_app, Nat.add_1_r, <- app_assoc.
Qed.

Lemma run_subtract_months_0 :
  Date._subtract_months self 0 h
  = (h ++ [mkDateObj (PyInt y) (PyInt m) (PyInt d);
           mkDateObj (PyInt y) (PyInt m) (PyInt d)],
     Ok (S (length h))).
Proof.
  unfold Date._subtract_months, NUM_MONTHS_IN_YEAR.
  rewrite run_assert by done.
  change (0 / 12) with 0. change (0 mod 12) with 0. cbv beta iota.
  rewrite (run_bind_Ok _ _ _ _ _ run_subtract_years_0).
  rewrite (run_bind_Ok _ _ _ _ _ (run_ymd _ _ _ _ _ (is_date_new _ _ _ _))).
  cbv beta iota zeta. rewrite Z.sub_0_r.
  pose proof (proj1 (valid_iff _ _ _) Hvalid) as (_ & Hm & _).
  assert ((m <=? 0) = false) as -> by lia.
  rewrite (run_bind_Ok _ _ _ _ (y, m) eq_refl). cbv beta iota.
  rewrite run_new_valid by done.
  by rewrite length_app, Nat.add_1_r, <- app_assoc.
Qed.

Lemma run_add_days_0 fuel :
  Date._add_days fuel self 0 h
  = (h ++ [mkDateObj (PyInt y) (PyInt m) (PyInt d)], Ok (length h)).
Proof.
  unfold Date._add_days.
  rewrite run_assert by done.
  rewrite (run_bind_Ok _ _ _ _ _ (run_ymd _ _ _ _ _ Hself)). cbv beta iota zeta.
  pose proof (proj1 (valid_iff _ _ _) Hvalid) as (_ & Hm & Hd).
  change (0 / 366) with 0.
  rewrite mapper_get_listed by (try apply elem_of_range; lia).
  rewrite (run_bind_Ok _ _ _ _ _ eq_refl).
  assert ((0 <=? Calendar.days_in_month y m - d) = true) as -> by lia.
  rewrite Z.add_0_r. by apply run_new_valid.
Qed.

Lemma run_subtract_days_0 fuel :
  Date._subtract_days fuel self 0 h
  = (h ++ [mkDateObj (PyInt y) (PyInt m) (PyInt d)], Ok (length h)).
Proof.
  unfold Date._subtract_days.
  rewrite run_assert by done.
  rewrite (run_bind_Ok _ _ _ _ _ (run_ymd _ _ _ _ _ Hself)). cbv beta iota zeta.
  pose proof (proj1 (valid_iff _ _ _) Hvalid) as (_ & _ & Hd).
  assert ((0 <? d) = true) as -> by lia.
  rewrite Z.sub_0_r. by apply run_new_valid.
Qed.

(** Once the days of the receiver's own month are used up, a remaining
    count equal to the length of the month before is neither [>] nor [<]
    that length: the body changes nothing and the loop goes round again. *)
Lemma subtract_days_stuck fuel py pm :
  Date._decrement_year_and_month y m = (py, pm) →
  Date._subtract_days fuel self (d + Calendar.days_in_month py pm) h
  = (h, OutOfFuel).
Proof.
  intros Hdec.
  pose proof (proj1 (valid_iff _ _ _) Hvalid) as (Hy & Hm & Hd).
  pose proof (days_in_month_bounds py pm) as Hdim.
  pose proof (days_in_month_bounds y m) as Hdim'.
  assert (y - 1 ≤ py ≤ y ∧ 1 ≤ pm ≤ 12) as (Hpy & Hpm).
  { revert Hdec. unfold Date._decrement_year_and_month.
    destruct (Z.eqb_spec m 1); intros [= <- <-]; lia. }
  unfold Date._subtract_days.
  rewrite run_assert by lia.
  rewrite (run_bind_Ok _ _ _ _ _ (run_ymd _ _ _ _ _ Hself)). cbv beta iota zeta.
  assert ((d + Calendar.days_in_month py pm <? d) = false) as -> by lia.
  rewrite Hdec. cbv beta iota.
  replace (d + Calendar.days_in_month py pm - d)
    with (Calendar.days_in_month py pm) by lia.
  rewrite while_true_stuck; [reflexivity |].
  unfold Date._subtract_days_body.
  rewrite Z.div_small by lia.
  rewrite mapper_get_listed by (try apply elem_of_range; lia).
  assert ((Calendar.days_in_month py pm =? 0) = false) as -> by lia.
  cbn [Date.operand]. rewrite result_bind_Ok. by rewrite Z.ltb_irrefl.
Qed.

End ValidReceiver.

(** ** Year shifts from February 29th *)

(** C6 as stated fails for [subtract]: the year 4 is a leap year, and
    [Date(4,2,29).subtract(years=4)] raises [InvalidDateError], because
    the year 0 it would land in is not a year of the calendar. *)
Lemma feb29_subtract_years_can_leave_the_calendar :
  Calendar.valid 4 2 29 = true
  ∧ ∀ fuel, snd ((d ← Date.new 4 2 29; Date.subtract fuel d 4 0 0) [])
            = Raise InvalidDateError.
Proof. split; [reflexivity | intros fuel; vm_compute; reflexivity]. Qed.

Lemma is_date_second (h : heap) (o : DateObj) y m d :
  is_date (h ++ [o; mkDateObj (PyInt y) (PyInt m) (PyInt d)]) (S (length h)) y m d.
Proof.
  unfold is_date. rewrite lookup_app_r by lia.
  by replace (S (length h) - length h)%nat with 1%nat by lia.
Qed.

(** [_add_months(0)._add_days(0)] and [_subtract_months(0)._subtract_days(0)]
    on a valid date: three copies, the last one returned. *)
Lemma run_add_nothing fuel h self y m d :
  is_date h self y m d → Calendar.valid y m d = true →
  ∃ h' r, (d2 ← Date._add_months self 0; Date._add_days fuel d2 0) h = (h', Ok r)
          ∧ is_date h' r y m d.
Proof.
  intros Hself Hvalid. eexists _, _.
  rewrite (run_bind_Ok _ _ _ _ _ (run_add_months_0 _ _ _ _ _ Hself Hvalid)).
  rewrite (run_add_days_0 _ _ _ _ _ (is_date_second _ _ _ _ _) Hvalid).
  split; [reflexivity | apply is_date_new].
Qed.

Lemma run_subtract_nothing fuel h self y m d :
  is_date h self y m d → Calendar.valid y m d = true →
  ∃ h' r, (d2 ← Date._subtract_months self 0; Date._subtract_days fuel d2 0) h
          = (h', Ok r)
          ∧ is_date h' r y m d.
Proof.
  intros Hself Hvalid. eexists _, _.
  rewrite (run_bind_Ok _ _ _ _ _ (run_subtract_months_0 _ _ _ _ _ Hself Hvalid)).
  rewrite (run_subtract_days_0 _ _ _ _ _ (is_date_second _ _ _ _ _) Hvalid).
  split; [reflexivity | apply is_date_new].
Qed.

Lemma valid_feb y d :
  1 ≤ y → 1 ≤ d ≤ (if Calendar.leap_year y then 29 else 28) →
  Calendar.valid y 2 d = true.
Proof. intros Hy Hd. apply valid_iff. unfold Calendar.days_in_month. cbn. lia. Qed.

Lemma valid_mar1 y : 1 ≤ y → Calendar.valid y 3 1 = true.
Proof. intros Hy. apply valid_iff. unfold Calendar.days_in_month. cbn. lia. Qed.

(** C6, amended: from a valid February 29th and for every [n >= 0],
    [add(years=n)] returns February 29th of [year+n] when that is a leap
    year and March 1st of [year+n] otherwise; [subtract(years=n)] returns
    February 29th of [year-n] when that is a leap year and February 28th
    of [year-n] otherwise, provided [n < year], and raises
    [InvalidDateError] when [n >= year].  In particular
    [Date(2000,2,29).add(years=1) == Date(2001,3,1)] and
    [Date(2000,2,29).subtract(years=1) == Date(1999,2,28)]. *)
Theorem feb29_year_shift :
  (∀ (fuel : nat) (h : heap) (self : loc) y n,
     is_date h self y 2 29 → Calendar.valid y 2 29 = true → 0 ≤ n →
     (∃ h' r, Date.add fuel self n 0 0 h = (h', Ok r)
              ∧ if Calendar.leap_year (y + n) then is_date h' r (y + n) 2 29
                else is_date h' r (y + n) 3 1)
     ∧ (n < y →
        ∃ h' r, Date.subtract fuel self n 0 0 h = (h', Ok r)
                ∧ if Calendar.leap_year (y - n) then is_date h' r (y - n) 2 29
                  else is_date h' r (y - n) 2 28)
     ∧ (y ≤ n →
        ∃ h', Date.subtract fuel self n 0 0 h = (h', Raise InvalidDateError)))
  ∧ (∀ fuel : nat,
       snd ((d ← Date.new 2000 2 29; r ← Date.add fuel d 1 0 0;
             e ← Date.new 2001 3 1; Date.__eq__ r e) []) = Ok true
       ∧ snd ((d ← Date.new 2000 2 29; r ← Date.subtract fuel d 1 0 0;
               e ← Date.new 1999 2 28; Date.__eq__ r e) []) = Ok true).
Proof.
  split; [| intros fuel; split; vm_compute; reflexivity].
  intros fuel h self y n Hself Hvalid Hn.
  pose proof (proj1 (valid_iff _ _ _) Hvalid) as (Hy & _ & _).
  unfold Date.add, Date.subtract.
  rewrite !run_bind, (run_add_years _ _ _ _ _ _ Hself),
    (run_subtract_years _ _ _ _ _ _ Hself) by done.
  change ((2 =? 2) && (29 =? 29)) with true. cbv iota.
  rewrite !is_leap_year_spec. repeat split.
  - destruct (Calendar.leap_year (y + n)) eqn:Hleap.
    + rewrite run_new_valid by (apply valid_feb; [| rewrite Hleap]; lia).
      apply run_add_nothing; [apply is_date_new |].
      apply valid_feb; [| rewrite Hleap]; lia.
    + rewrite run_new_valid by (apply valid_mar1; lia).
      apply run_add_nothing; [apply is_date_new | apply valid_mar1; lia].
  - intros Hlt. destruct (Calendar.leap_year (y - n)) eqn:Hleap.
    + rewrite run_new_valid by (apply valid_feb; [| rewrite Hleap]; lia).
      apply run_subtract_nothing; [apply is_date_new |].
      apply valid_feb; [| rewrite Hleap]; lia.
    + rewrite run_new_valid by (apply valid_feb; [| rewrite Hleap]; lia).
      apply run_subtract_nothing; [apply is_date_new |].
      apply valid_feb; [| rewrite Hleap]; lia.
  - intros Hge.
    assert (∀ d, Calendar.valid (y - n) 2 d = false) as Hinvalid.
    { intros d. apply not_true_iff_false. rewrite valid_iff. lia. }
    destruct (Calendar.leap_year (y - n)); eexists; by rewrite run_new, Hinvalid.
Qed.

Lemma feb29_year_shift_witness :
  let h := [mkDateObj (PyInt 2000) (PyInt 2) (PyInt 29)] in
  (∃ h' r, Date.add 0 0 1 0 0 h = (h', Ok r)
           ∧ if Calendar.leap_year (2000 + 1) then is_date h' r (2000 + 1) 2 29
             else is_date h' r (2000 + 1) 3 1)
  ∧ (1 < 2000 →
     ∃ h' r, Date.subtract 0 0 1 0 0 h = (h', Ok r)
             ∧ if Calendar.leap_year (2000 - 1) then is_date h' r (2000 - 1) 2 29
               else is_date h' r (2000 - 1) 2 28)
  ∧ (2000 ≤ 1 →
     ∃ h', Date.subtract 0 0 1 0 0 h = (h', Raise InvalidDateError)).
Proof.
  exact (proj1 feb29_year_shift 0%nat
           [mkDateObj (PyInt 2000) (PyInt 2) (PyInt 29)] 0%nat 2000 1
           eq_refl eq_refl (Zle_0_pos 1)).
Defined.

(** ** The loop of [_subtract_days] *)

(** C3 fails on the code: from every valid date, [subtract(days=n)] with
    [n] the day of the month plus the length of the month before runs
    out of any fuel; the shortest instance is
    [Date(2021,2,1).subtract(days=32)], whose answer would be
    2020-12-31. *)
Theorem subtract_days_can_loop_forever :
  (∀ (fuel : nat) (h : heap) (self : loc) y m d py pm,
     is_date h self y m d → Calendar.valid y m d = true →
     Date._decrement_year_and_month y m = (py, pm) →
     ∃ h', Date.subtract fuel self 0 0 (d + Calendar.days_in_month py pm) h
           = (h', OutOfFuel))
  ∧ (∀ fuel : nat,
       snd ((d ← Date.new 2021 2 1; Date.subtract fuel d 0 0 32) []) = OutOfFuel).
Proof.
  assert (∀ (fuel : nat) (h : heap) (self : loc) y m d py pm,
     is_date h self y m d → Calendar.valid y m d = true →
     Date._decrement_year_and_month y m = (py, pm) →
     ∃ h', Date.subtract fuel self 0 0 (d + Calendar.days_in_month py pm) h
           = (h', OutOfFuel)) as Hgeneral.
  { intros fuel h self y m d py pm Hself Hvalid Hdec. eexists.
    unfold Date.subtract.
    rewrite (run_bind_Ok _ _ _ _ _ (run_subtract_years_0 _ _ _ _ _ Hself Hvalid)).
    rewrite (run_bind_Ok _ _ _ _ _
               (run_subtract_months_0 _ _ _ _ _ (is_date_new _ _ _ _) Hvalid)).
    by rewrite (subtract_days_stuck _ _ _ _ _ (is_date_second _ _ _ _ _)
                  Hvalid _ _ _ Hdec). }
  split; [exact Hgeneral |].
  intros fuel.
  change (snd (Date.subtract fuel 0 0 0 32
                 [mkDateObj (PyInt 2021) (PyInt 2) (PyInt 1)]) = OutOfFuel).
  destruct (Hgeneral fuel [mkDateObj (PyInt 2021) (PyInt 2) (PyInt 1)] O
              2021 2 1 2021 1 eq_refl eq_refl eq_refl) as [h' Hrun].
  change (1 + Calendar.days_in_month 2021 1) with 32 in Hrun.
  by rewrite Hrun.
Qed.

Lemma subtract_days_can_loop_forever_witness :
  ∃ h', Date.subtract 7 0 0 0 (5 + Calendar.days_in_month 2020 2)
          [mkDateObj (PyInt 2020) (PyInt 3) (PyInt 5)]
        = (h', OutOfFuel).
Proof.
  exact (proj1 subtract_days_can_loop_forever 7%nat
           [mkDateObj (PyInt 2020) (PyInt 3) (PyInt 5)] 0%nat 2020 3 5 2020 2
           eq_refl eq_refl eq_refl).
Defined.

(** ** What a call does to the heap *)

Lemma grows_ret {A} (a : A) : grows (mret a).
Proof. by intros h h' r [= <- <-]. Qed.

Lemma grows_lift {A} (x : result A) : grows (lift x).
Proof. by intros h h' r [= <- <-]. Qed.

Lemma grows_raise {A} (e : exn) : grows (raise (A:=A) e).
Proof. by intros h h' r [= <- <-]. Qed.

Lemma grows_load self : grows (load self).
Proof. intros h h' r. unfold load. by destruct (h !! self); intros [= <- <-]. Qed.

Lemma grows_alloc o : grows (alloc o).
Proof. intros h h' r [= <- <-]. by apply prefix_app_r. Qed.

Lemma grows_bind {A B} (m : M A) (f : A → M B) :
  grows m → (∀ a, grows (f a)) → grows (m ≫= f).
Proof.
  intros Hm Hf h h' r. rewrite run_bind.
  destruct (m h) as [h1 [a | e |]] eqn:Hrun.
  - intros Hrun'. etrans; [by eapply Hm | by eapply Hf].
  - intros [= <- <-]. by eapply Hm.
  - intros [= <- <-]. by eapply Hm.
Qed.

Lemma returns_new_bind {A} (m : M A) (f : A → M loc) :
  grows m → (∀ a, returns_new (f a)) → returns_new (m ≫= f).
Proof.
  intros Hm Hf h h' r. rewrite run_bind.
  destruct (m h) as [h1 [a | e |]] eqn:Hrun; [| done..].
  intros (h0 & o & -> & -> & Hpre & Hvalid)%Hf.
  exists h0, o. repeat split; [| done]. etrans; [by eapply Hm | done].
Qed.

Lemma returns_new_raise (e : exn) : returns_new (raise e).
Proof. by intros h h' r. Qed.

Lemma returns_new_init year month day :
  returns_new (Date.__init__ year month day).
Proof.
  intros h h' r. rewrite run_init.
  destruct (valid_fields year month day) eqn:Hvalid; [| done].
  intros [= <- <-]. by exists h, (mkDateObj year month day).
Qed.

#[local] Hint Resolve grows_ret grows_lift grows_raise grows_load grows_alloc
  grows_bind returns_new_bind returns_new_raise returns_new_init : frame.
#[local] Hint Extern 1 (grows (match ?x with _ => _ end)) => destruct x : frame.
#[local] Hint Extern 1 (returns_new (match ?x with _ => _ end)) =>
  destruct x : frame.

(** Walks through a method body: binds, branches and leaves. *)
Ltac frame := auto 40 with frame.

Lemma grows_ymd self : grows (Date.ymd self).
Proof. unfold Date.ymd, Date.year, Date.month, Date.day, int. frame. Qed.

Lemma grows_validate date_obj : grows (Date._validate_date date_obj).
Proof.
  unfold Date._validate_date, Date.year, Date.month, Date.day. frame.
Qed.

Lemma grows_init year month day : grows (Date.__init__ year month day).
Proof. unfold Date.__init__. pose proof grows_validate. frame. Qed.

#[local] Hint Resolve grows_ymd grows_init : frame.

Lemma grows_add_years self years : grows (Date._add_years self years).
Proof. unfold Date._add_years, Date.new. frame. Qed.

Lemma grows_subtract_years self years : grows (Date._subtract_years self years).
Proof. unfold Date._subtract_years, Date.new. frame. Qed.

#[local] Hint Resolve grows_add_years grows_subtract_years : frame.

Lemma grows_add_months self months : grows (Date._add_months self months).
Proof. unfold Date._add_months, Date.new. frame. Qed.

Lemma grows_subtract_months self months :
  grows (Date._subtract_months self months).
Proof. unfold Date._subtract_months, Date.new. frame. Qed.

#[local] Hint Resolve grows_add_months grows_subtract_months : frame.

Lemma returns_new_add_days fuel self days :
  returns_new (Date._add_days fuel self days).
Proof. unfold Date._add_days, Date.new. frame. Qed.

Lemma returns_new_subtract_days fuel self days :
  returns_new (Date._subtract_days fuel self days).
Proof. unfold Date._subtract_days, Date.new. frame. Qed.

#[local] Hint Resolve returns_new_add_days returns_new_subtract_days : frame.

Lemma returns_new_add fuel self years months days :
  returns_new (Date.add fuel self years months days).
Proof. unfold Date.add. frame. Qed.

Lemma returns_new_subtract fuel self years months days :
  returns_new (Date.subtract fuel self years months days).
Proof. unfold Date.subtract. frame. Qed.

(** A setter is not such a computation: it overwrites an object of the
    heap it finds. *)
Example setters_overwrite : ¬ grows (Date.set_month 0 (PyInt 2)).
Proof.
  intros Hgrows.
  destruct (Hgrows [mkDateObj (PyInt 2020) (PyInt 1) (PyInt 31)] _ _ eq_refl)
    as [k Hk].
  discriminate Hk.
Qed.

(** C10: whenever [add] or [subtract] returns, every instance that was
    in the heap before the call is still there with the fields it had,
    the receiver included, and the value returned is an instance that
    did not exist before the call and holds a validated date. *)
Theorem add_and_subtract_leave_the_receiver
    (fuel : nat) (h h' : heap) (self r : loc) y m d years months days :
  is_date h self y m d →
  Date.add fuel self years months days h = (h', Ok r)
  ∨ Date.subtract fuel self years months days h = (h', Ok r) →
  is_date h' self y m d
  ∧ h `prefix_of` h'
  ∧ (length h ≤ r)%nat
  ∧ ∃ o, h' !! r = Some o ∧ valid_fields (_year o) (_month o) (_day o) = true.
Proof.
  intros Hself Hrun.
  assert (∃ (h0 : heap) (o : DateObj),
            h' = h0 ++ [o] ∧ r = length h0 ∧ h `prefix_of` h0
            ∧ valid_fields (_year o) (_month o) (_day o) = true)
    as (h0 & o & -> & -> & [k ->] & Hvalid).
  { destruct Hrun as [Hrun | Hrun];
      [by eapply returns_new_add | by eapply returns_new_subtract]. }
  repeat split.
  - by do 2 apply is_date_app.
  - rewrite <- app_assoc. by apply prefix_app_r.
  - rewrite length_app. lia.
  - exists o. split; [apply lookup_alloc | done].
Qed.

Lemma add_and_subtract_leave_the_receiver_witness :
  let h := [mkDateObj (PyInt 2014) (PyInt 1) (PyInt 1)] in
  let h' := h ++ [mkDateObj (PyInt 2014) (PyInt 1) (PyInt 1);
                  mkDateObj (PyInt 2014) (PyInt 1) (PyInt 1);
                  mkDateObj (PyInt 2014) (PyInt 1) (PyInt 1);
                  mkDateObj (PyInt 2014) (PyInt 12) (PyInt 27)] in
  is_date h' 0 2014 1 1
  ∧ h `prefix_of` h'
  ∧ (length h ≤ 4)%nat
  ∧ ∃ o, h' !! 4%nat = Some o
         ∧ valid_fields (_year o) (_month o) (_day o) = true.
Proof.
  apply (add_and_subtract_leave_the_receiver 11
           [mkDateObj (PyInt 2014) (PyInt 1) (PyInt 1)] _ 0 4
           2014 1 1 0 0 360).
  - reflexivity.
  - left. vm_compute. reflexivity.
Defined.

(** * Further properties of the code *)

(** ** Month lengths *)

(** The first [n] entries of the month-length table add up to the days
    of the first [n] months. *)
Lemma days_in_months_table year n :
  (n ≤ 12)%nat →
  Calendar.days_in_months year n
  = sum (take n (if Calendar.leap_year year
                 then DAY_COUNTS_IN_LEAP_YEAR_BY_MONTH
                 else DAY_COUNTS_IN_NON_LEAP_YEAR_BY_MONTH)).
Proof.
  intros Hn.
  do 13 (destruct n as [| n];
         [cbn [Calendar.days_in_months]; unfold Calendar.days_in_month;
          repeat match goal with
                 | |- context [Z.of_nat ?k =? ?j] => eval_closed (Z.of_nat k =? j)
                 end;
          cbn [orb]; by destruct (Calendar.leap_year year) |]).
  lia.
Qed.

Lemma days_between_months_in_range year s e :
  1 ≤ s → s ≤ e → e ≤ 12 →
  get_days_count_between_months year s e
  = Ok (Calendar.days_in_months year (Z.to_nat e)
        - Calendar.days_in_months year (Z.to_nat (s - 1))).
Proof.
  intros Hs Hse He. rewrite !days_in_months_table by lia.
  unfold get_days_count_between_months. rewrite is_leap_year_spec.
  assert (s = 1 ∨ s = 2 ∨ s = 3 ∨ s = 4 ∨ s = 5 ∨ s = 6 ∨ s = 7 ∨ s = 8
          ∨ s = 9 ∨ s = 10 ∨ s = 11 ∨ s = 12)
    as [-> | [-> | [-> | [-> | [-> | [-> | [-> | [-> | [-> | [-> | [-> | ->]]]]]]]]]]]
    by lia;
    (assert (e = 1 ∨ e = 2 ∨ e = 3 ∨ e = 4 ∨ e = 5 ∨ e = 6 ∨ e = 7 ∨ e = 8
             ∨ e = 9 ∨ e = 10 ∨ e = 11 ∨ e = 12)
      as [-> | [-> | [-> | [-> | [-> | [-> | [-> | [-> | [-> | [-> | [-> | ->]]]]]]]]]]]
      by lia);
    try lia; by destruct (Calendar.leap_year year).
Qed.

Lemma days_between_months_out_of_range year s e :
  ¬ (1 ≤ s ∧ s ≤ e ∧ e ≤ 12) →
  get_days_count_between_months year s e = Raise AssertionError.
Proof.
  intros Hrange. unfold get_days_count_between_months.
  destruct (Z.leb_spec 1 s), (Z.leb_spec s 12), (Z.leb_spec 1 e),
    (Z.leb_spec e 12), (Z.leb_spec s e);
    cbn [andb]; first [lia | reflexivity].
Qed.

(** X1: [get_days_count_between_months] returns the sum of the lengths
    of the months [start_month .. end_month] of the year when
    [1 <= start_month <= end_month <= 12], and fails an assertion for every
    other pair of months. *)
Theorem days_count_between_months_spec year start_month end_month :
  get_days_count_between_months year start_month end_month
  = if (1 <=? start_month) && (start_month <=? end_month) && (end_month <=? 12)
    then Ok (Calendar.days_in_months year (Z.to_nat end_month)
             - Calendar.days_in_months year (Z.to_nat (start_month - 1)))
    else Raise AssertionError.
Proof.
  destruct (Z.leb_spec 1 start_month), (Z.leb_spec start_month end_month),
    (Z.leb_spec end_month 12); cbn [andb];
    first [by apply days_between_months_in_range
          | apply days_between_months_out_of_range; lia].
Qed.

Lemma get_days_in_month_spec year month :
  1 ≤ month ≤ 12 →
  get_days_in_month year month = Ok (Calendar.days_in_month year month).
Proof.
  intros Hm. unfold get_days_in_month.
  rewrite days_between_months_in_range by lia. f_equal.
  replace (Z.to_nat month) with (S (Z.to_nat (month - 1))) by lia.
  cbn [Calendar.days_in_months]. rewrite Nat2Z.inj_succ, Z2Nat.id by lia.
  replace (Z.succ (month - 1)) with month by lia. lia.
Qed.

Lemma odict_get_days_per_month year month :
  odict_get (get_days_per_month_mapper year) month
  = if (1 <=? month) && (month <=? 12)
    then Some (Calendar.days_in_month year month) else None.
Proof.
  unfold get_days_per_month_mapper, Calendar.days_in_month.
  rewrite is_leap_year_spec. cbn [odict_get].
  destruct (Z.leb_spec 1 month), (Z.leb_spec month 12); cbn [andb].
  - assert (month = 1 ∨ month = 2 ∨ month = 3 ∨ month = 4 ∨ month = 5
            ∨ month = 6 ∨ month = 7 ∨ month = 8 ∨ month = 9 ∨ month = 10
            ∨ month = 11 ∨ month = 12)
      as [-> | [-> | [-> | [-> | [-> | [-> | [-> | [-> | [-> | [-> | [-> | ->]]]]]]]]]]]
      by lia; reflexivity.
  - repeat match goal with
           | |- context [?k =? month] => destruct (Z.eqb_spec k month); [lia |]
           end.
    reflexivity.
  - repeat match goal with
           | |- context [?k =? month] => destruct (Z.eqb_spec k month); [lia |]
           end.
    reflexivity.
  - lia.
Qed.

Lemma year_mapper_lookup year month :
  year_mapper year !! month
  = if (1 <=? month) && (month <=? 12)
    then Some (Calendar.days_in_month year month) else None.
Proof.
  unfold year_mapper, Calendar.days_in_month. rewrite is_leap_year_spec.
  destruct (Z.leb_spec 1 month), (Z.leb_spec month 12); cbn [andb].
  - assert (month = 1 ∨ month = 2 ∨ month = 3 ∨ month = 4 ∨ month = 5
            ∨ month = 6 ∨ month = 7 ∨ month = 8 ∨ month = 9 ∨ month = 10
            ∨ month = 11 ∨ month = 12)
      as [-> | [-> | [-> | [-> | [-> | [-> | [-> | [-> | [-> | [-> | [-> | ->]]]]]]]]]]]
      by lia; by destruct (Calendar.leap_year year).
  - unfold BASE_MAPPER. cbn [list_to_map foldr fst snd].
    destruct (Calendar.leap_year year);
      rewrite !lookup_insert_ne by lia; apply lookup_empty.
  - unfold BASE_MAPPER. cbn [list_to_map foldr fst snd].
    destruct (Calendar.leap_year year);
      rewrite !lookup_insert_ne by lia; apply lookup_empty.
  - lia.
Qed.

Lemma mapper_get_spec years year month :
  Date.mapper_get (get_days_per_month_mapper_for_multiple_years years) year month
  = if bool_decide (year ∈ years) && ((1 <=? month) && (month <=? 12))
    then Some (Calendar.days_in_month year month) else None.
Proof.
  unfold Date.mapper_get, get_days_per_month_mapper_for_multiple_years.
  change (fold_left _ (sorted years) ∅)
    with (fold_left (λ full_mapper year, <[year := year_mapper year]> full_mapper)
            (sorted years) (∅ : gmap Z (gmap Z Z))).
  rewrite lookup_fold_years. unfold sorted.
  case_bool_decide as Hin.
  - rewrite decide_True by (by rewrite merge_sort_Permutation).
    cbn [default andb]. apply year_mapper_lookup.
  - rewrite decide_False by (by rewrite merge_sort_Permutation).
    rewrite lookup_empty. cbn [default andb]. apply lookup_empty.
Qed.

(** X2: the three month-length lookups agree: for a month in 1-12,
    [get_days_in_month], the per-year mapper and the multi-year mapper (for
    a year it was built for) all give the length of that month in that
    year; for any other month the first fails its assertion, the second
    has no such key, and the multi-year mapper gives [None], as it does
    for every year it was not built for. *)
Theorem month_length_lookups_agree (years : list Z) (year month : Z) :
  (if (1 <=? month) && (month <=? 12)
   then get_days_in_month year month = Ok (Calendar.days_in_month year month)
        ∧ odict_getitem (get_days_per_month_mapper year) month
          = Ok (Calendar.days_in_month year month)
   else get_days_in_month year month = Raise AssertionError
        ∧ odict_getitem (get_days_per_month_mapper year) month = Raise KeyError)
  ∧ Date.mapper_get (get_days_per_month_mapper_for_multiple_years years)
      year month
    = if bool_decide (year ∈ years) && ((1 <=? month) && (month <=? 12))
      then Some (Calendar.days_in_month year month) else None.
Proof.
  split; [| apply mapper_get_spec].
  unfold odict_getitem. rewrite odict_get_days_per_month.
  destruct (Z.leb_spec 1 month), (Z.leb_spec month 12); cbn [andb];
    (split; [| reflexivity]);
    first [by apply get_days_in_month_spec
          | apply days_between_months_out_of_range; lia].
Qed.

(** ** [argmin] and the choice of the reference year *)

(** The loop of [argmin] after the items of [pre]: the state holds the
    first minimum of [pre]; the items of [rest] are still to come. *)
Lemma argmin_loop (rest : list Z) : ∀ (pre : list Z) (off low_idx : nat) low_item,
  length pre = S off →
  pre !! low_idx = Some low_item →
  (∀ j y, pre !! j = Some y → low_item ≤ y) →
  (∀ j y, (j < low_idx)%nat → pre !! j = Some y → low_item < y) →
  ∃ i x,
    fold_left argmin_body (imap (λ idx item, ((off + idx)%nat, item)) rest)
      (low_idx, low_item) = (i, x)
    ∧ (pre ++ rest) !! i = Some x
    ∧ (∀ j y, (pre ++ rest) !! j = Some y → x ≤ y)
    ∧ (∀ j y, (j < i)%nat → (pre ++ rest) !! j = Some y → x < y).
Proof.
  induction rest as [| z rest IH]; intros pre off low_idx low_item Hlen Hlow Hmin Hfirst.
  - exists low_idx, low_item. rewrite app_nil_r. by repeat split.
  - cbn [imap fold_left argmin_body].
    rewrite (imap_ext _ (λ idx item, ((S off + idx)%nat, item)))
      by (intros; cbn; f_equal; lia).
    rewrite (cons_middle z pre rest), app_assoc.
    assert (∀ j y, (pre ++ [z]) !! j = Some y →
                   pre !! j = Some y ∨ (j = length pre ∧ y = z)) as Hsplit.
    { intros j y [? | [Hj Hz]]%lookup_app_Some; [by left | right].
      apply list_lookup_singleton_Some in Hz as [Hz ->]. split; [lia | done]. }
    destruct (Z.ltb_spec z low_item) as [Hlt | Hge].
    + apply IH.
      * rewrite length_app. cbn. lia.
      * replace (S (off + 0)) with (length pre) by lia. by apply list_lookup_middle.
      * intros j y [Hj | [_ ->]]%Hsplit; [| lia]. specialize (Hmin _ _ Hj). lia.
      * intros j y Hji [Hj | [-> ->]]%Hsplit; [| lia]. specialize (Hmin _ _ Hj). lia.
    + apply IH.
      * rewrite length_app. cbn. lia.
      * by apply lookup_app_l_Some.
      * intros j y [Hj | [_ ->]]%Hsplit; [by eapply Hmin | done].
      * intros j y Hlt [Hj | [-> _]]%Hsplit; [by eapply Hfirst |].
        apply lookup_lt_Some in Hlow. lia.
Qed.

Lemma argmin_spec (iterable : list Z) :
  match argmin iterable with
  | Ok i =>
      ∃ x, iterable !! i = Some x
           ∧ (∀ j y, iterable !! j = Some y → x ≤ y)
           ∧ (∀ j y, (j < i)%nat → iterable !! j = Some y → x < y)
  | Raise e => e = IndexError ∧ iterable = []
  | OutOfFuel => False
  end.
Proof.
  destruct iterable as [| first rest]; [done |]. cbn [argmin].
  destruct (argmin_loop rest [first] 0 0 first) as (i & x & Hrun & Hi & Hmin & Hfirst).
  - done.
  - done.
  - by intros [| j] y [= <-].
  - lia.
  - cbn in Hrun. rewrite Hrun. by exists x.
Qed.

(** X3: on a non-empty list [argmin] returns the index of the first
    occurrence of the least item: no item is smaller and every item in
    front of it is larger; on the empty list it raises [IndexError]. *)
Theorem argmin_is_the_first_minimum (iterable : list Z) :
  match argmin iterable with
  | Ok i =>
      ∃ x, iterable !! i = Some x
           ∧ (∀ j y, iterable !! j = Some y → x ≤ y)
           ∧ (∀ j y, (j < i)%nat → iterable !! j = Some y → x < y)
  | Raise e => e = IndexError ∧ iterable = []
  | OutOfFuel => False
  end.
Proof.
  pose proof (argmin_spec iterable) as H.
  destruct (argmin iterable) as [i | e |]; [| done..].
  destruct H as (x & Hi & Hmin & Hfirst). exists x. split; [done |].
  split; [exact Hmin | exact Hfirst].
Qed.

(** X4: the reference year picked for [year] is a leap year of the list
    that is nearest to [year]: no listed year is nearer, and every year
    listed in front of it is farther away. *)
Theorem reference_year_is_the_nearest (year : Z) :
  ∃ (i : nat) (reference_year : Z),
    _get_reference_date_details year
    = Ok (reference_year, 6, DayOfWeek.SATURDAY)
    ∧ YEARS_HAVING_JANUARY_1ST_AS_SATURDAY !! i = Some reference_year
    ∧ is_leap_year reference_year = true
    ∧ (∀ j r, YEARS_HAVING_JANUARY_1ST_AS_SATURDAY !! j = Some r →
              Z.abs (year - reference_year) ≤ Z.abs (year - r))
    ∧ (∀ j r, (j < i)%nat → YEARS_HAVING_JANUARY_1ST_AS_SATURDAY !! j = Some r →
              Z.abs (year - reference_year) < Z.abs (year - r)).
Proof.
  unfold _get_reference_date_details.
  pose proof (argmin_spec ((λ year_, Z.abs (year - year_))
                             <$> YEARS_HAVING_JANUARY_1ST_AS_SATURDAY)) as H.
  destruct (argmin _) as [i | e |]; [| by destruct H | done].
  destruct H as (x & Hi & Hmin & Hfirst).
  rewrite list_lookup_fmap in Hi.
  destruct (YEARS_HAVING_JANUARY_1ST_AS_SATURDAY !! i) as [r |] eqn:Hr;
    [| done].
  injection Hi as <-. exists i, r.
  assert (is_leap_year r = true) as Hleap.
  { pose proof reference_years_ok as Hall. rewrite Forall_lookup in Hall.
    by destruct (Hall _ _ Hr) as (_ & ? & _). }
  rewrite result_bind_Ok, Hr, result_bind_Ok, Hleap.
  split; [reflexivity |]. split; [done |]. split; [done |]. split.
  - intros j r' Hj. apply (Hmin j). by rewrite list_lookup_fmap, Hj.
  - intros j r' Hlt Hj. apply (Hfirst j); [done |].
    by rewrite list_lookup_fmap, Hj.
Qed.

(** ** Day numbers *)

Lemma ordinal_split y m d :
  Calendar.ordinal y m d
  = Calendar.days_in_years (Z.to_nat (y - 1)) + day_of_year y m d.
Proof. unfold Calendar.ordinal, day_of_year. lia. Qed.

Lemma days_in_month_of_nat y k :
  28 ≤ Calendar.days_in_month y (Z.of_nat k) ≤ 31.
Proof. apply days_in_month_bounds. Qed.

Lemma days_in_months_mono y n k :
  Calendar.days_in_months y n + 28 * Z.of_nat k
  ≤ Calendar.days_in_months y (n + k).
Proof.
  induction k as [| k IH]; [rewrite Nat.add_0_r; lia |].
  rewrite Nat.add_succ_r. cbn [Calendar.days_in_months].
  pose proof (days_in_month_bounds y (Z.of_nat (S (n + k)))). lia.
Qed.

Lemma days_in_months_12 y :
  Calendar.days_in_months y 12 = Calendar.days_in_year y.
Proof.
  rewrite days_in_months_table by lia. unfold Calendar.days_in_year.
  by destruct (Calendar.leap_year y).
Qed.

Lemma days_in_months_step y m :
  1 ≤ m →
  Calendar.days_in_months y (Z.to_nat m)
  = Calendar.days_in_months y (Z.to_nat (m - 1)) + Calendar.days_in_month y m.
Proof.
  intros Hm. replace (Z.to_nat m) with (S (Z.to_nat (m - 1))) by lia.
  cbn [Calendar.days_in_months]. do 2 f_equal. lia.
Qed.

Lemma day_of_year_bounds y m d :
  Calendar.valid y m d = true → 1 ≤ day_of_year y m d ≤ Calendar.days_in_year y.
Proof.
  intros (Hy & Hm & Hd)%valid_iff. unfold day_of_year.
  rewrite <- days_in_months_12.
  pose proof (days_in_months_mono y 0 (Z.to_nat (m - 1))) as Hlow.
  pose proof (days_in_months_mono y (Z.to_nat m) (12 - Z.to_nat m)) as Hhigh.
  replace (Z.to_nat m + (12 - Z.to_nat m))%nat with 12%nat in Hhigh by lia.
  rewrite days_in_months_step in Hhigh by lia.
  cbn [Calendar.days_in_months Nat.add] in Hlow. lia.
Qed.

(** Within one year, dates are numbered in the order of (month, day). *)
Lemma day_of_year_lt y m d m' d' :
  Calendar.valid y m d = true → Calendar.valid y m' d' = true →
  (day_of_year y m d < day_of_year y m' d' ↔ m < m' ∨ (m = m' ∧ d < d')).
Proof.
  intros (Hy & Hm & Hd)%valid_iff (_ & Hm' & Hd')%valid_iff. unfold day_of_year.
  assert (∀ a b da db, 1 ≤ a → a < b → 1 ≤ da ≤ Calendar.days_in_month y a →
            1 ≤ db →
            Calendar.days_in_months y (Z.to_nat (a - 1)) + da
            < Calendar.days_in_months y (Z.to_nat (b - 1)) + db) as Hmono.
  { intros a b da db Ha Hab Hda Hdb.
    pose proof (days_in_months_mono y (Z.to_nat a) (Z.to_nat (b - 1 - a))) as H.
    replace (Z.to_nat a + Z.to_nat (b - 1 - a))%nat with (Z.to_nat (b - 1))
      in H by lia.
    rewrite days_in_months_step in H by lia. lia. }
  destruct (Z.lt_trichotomy m m') as [Hlt | [<- | Hgt]].
  - specialize (Hmono m m' d d'). lia.
  - lia.
  - specialize (Hmono m' m d' d). lia.
Qed.

Lemma days_in_years_mono n k :
  Calendar.days_in_years n + 365 * Z.of_nat k ≤ Calendar.days_in_years (n + k).
Proof.
  induction k as [| k IH]; [rewrite Nat.add_0_r; lia |].
  rewrite Nat.add_succ_r. cbn [Calendar.days_in_years].
  unfold Calendar.days_in_year. destruct (Calendar.leap_year _); lia.
Qed.

Lemma days_in_years_step y :
  1 ≤ y →
  Calendar.days_in_years (Z.to_nat y)
  = Calendar.days_in_years (Z.to_nat (y - 1)) + Calendar.days_in_year y.
Proof.
  intros Hy. replace (Z.to_nat y) with (S (Z.to_nat (y - 1))) by lia.
  cbn [Calendar.days_in_years]. do 2 f_equal. lia.
Qed.

(** Valid dates are numbered in the order of (year, month, day). *)
Lemma ordinal_lt y m d y' m' d' :
  Calendar.valid y m d = true → Calendar.valid y' m' d' = true →
  (Calendar.ordinal y m d < Calendar.ordinal y' m' d'
   ↔ y < y' ∨ (y = y' ∧ (m < m' ∨ (m = m' ∧ d < d')))).
Proof.
  intros Hv Hv'. rewrite !ordinal_split.
  pose proof (day_of_year_bounds _ _ _ Hv) as Hb.
  pose proof (day_of_year_bounds _ _ _ Hv') as Hb'.
  pose proof (proj1 (valid_iff _ _ _) Hv) as (Hy & _ & _).
  pose proof (proj1 (valid_iff _ _ _) Hv') as (Hy' & _ & _).
  assert (∀ a b, 1 ≤ a → a < b →
            Calendar.days_in_years (Z.to_nat (a - 1)) + Calendar.days_in_year a
            ≤ Calendar.days_in_years (Z.to_nat (b - 1))) as Hmono.
  { intros a b Ha Hab.
    pose proof (days_in_years_mono (Z.to_nat a) (Z.to_nat (b - 1 - a))) as H.
    replace (Z.to_nat a + Z.to_nat (b - 1 - a))%nat with (Z.to_nat (b - 1))
      in H by lia.
    rewrite days_in_years_step in H by lia. lia. }
  destruct (Z.lt_trichotomy y y') as [Hlt | [<- | Hgt]].
  - specialize (Hmono y y'). lia.
  - pose proof (day_of_year_lt _ _ _ _ _ Hv Hv'). lia.
  - specialize (Hmono y' y). lia.
Qed.

Lemma ordinal_inj y m d y' m' d' :
  Calendar.valid y m d = true → Calendar.valid y' m' d' = true →
  (Calendar.ordinal y m d = Calendar.ordinal y' m' d' ↔ y = y' ∧ m = m' ∧ d = d').
Proof.
  intros Hv Hv'.
  pose proof (ordinal_lt _ _ _ _ _ _ Hv Hv').
  pose proof (ordinal_lt _ _ _ _ _ _ Hv' Hv).
  split; [lia | by intros (-> & -> & ->)].
Qed.

(** ** Reading a validated instance *)

Lemma run_ymd_bind {B} (f : Z * Z * Z → M B) h self y m d :
  is_date h self y m d → (Date.ymd self ≫= f) h = f (y, m, d) h.
Proof. intros H. by rewrite (run_bind_Ok _ _ _ _ _ (run_ymd _ _ _ _ _ H)). Qed.

Lemma run_year_bind {B} (f : Z → M B) h self y m d :
  is_date h self y m d → ((Date.year self ≫= int) ≫= f) h = f y h.
Proof.
  intros H. apply run_bind_Ok.
  by rewrite (run_bind_Ok _ _ _ _ _ (run_year _ _ _ H)).
Qed.

Lemma run_month_bind {B} (f : Z → M B) h self y m d :
  is_date h self y m d → ((Date.month self ≫= int) ≫= f) h = f m h.
Proof.
  intros H. apply run_bind_Ok.
  by rewrite (run_bind_Ok _ _ _ _ _ (run_month _ _ _ H)).
Qed.

Lemma run_day_bind {B} (f : Z → M B) h self y m d :
  is_date h self y m d → ((Date.day self ≫= int) ≫= f) h = f d h.
Proof.
  intros H. apply run_bind_Ok.
  by rewrite (run_bind_Ok _ _ _ _ _ (run_day _ _ _ H)).
Qed.

Lemma run_lift_bind {A B} (r : result A) (f : A → M B) (h : heap) :
  (lift r ≫= f) h
  = match r with
    | Ok a => f a h
    | Raise e => (h, Raise e)
    | OutOfFuel => (h, OutOfFuel)
    end.
Proof. by destruct r. Qed.

Lemma run_lift_Ok {A B} (a : A) (f : A → M B) (h : heap) :
  (lift (Ok a) ≫= f) h = f a h.
Proof. reflexivity. Qed.

Lemma run_ret_bind {A B} (a : A) (f : A → M B) (h : heap) :
  (mret a ≫= f) h = f a h.
Proof. reflexivity. Qed.

(** ** Days since the start and till the end of the year *)

Lemma run_days_since_start_of_year h self y m d :
  is_date h self y m d → Calendar.valid y m d = true →
  Date.days_since_start_of_year self h = (h, Ok (day_of_year y m d)).
Proof.
  intros Hself (Hy & Hm & Hd)%valid_iff. unfold Date.days_since_start_of_year.
  rewrite (run_ymd_bind _ _ _ _ _ _ Hself). cbv beta iota. unfold day_of_year.
  destruct (Z.eqb_spec m 1) as [-> | Hne]; [reflexivity |].
  rewrite days_between_months_in_range by lia. rewrite run_lift_Ok.
  change (Z.to_nat (1 - 1)) with O. cbn [Calendar.days_in_months].
  unfold mret, M_ret. do 2 f_equal. lia.
Qed.

Lemma run_days_till_end_of_year h self y m d :
  is_date h self y m d → Calendar.valid y m d = true →
  Date.days_till_end_of_year self h
  = (h, Ok (Calendar.days_in_year y - day_of_year y m d)).
Proof.
  intros Hself (Hy & Hm & Hd)%valid_iff. unfold Date.days_till_end_of_year.
  rewrite (run_ymd_bind _ _ _ _ _ _ Hself). cbv beta iota.
  unfold mret, M_ret. do 2 f_equal.
  unfold day_of_year. rewrite days_in_months_table by lia.
  unfold get_days_per_month_mapper, Calendar.days_in_year.
  rewrite is_leap_year_spec. clear Hd Hself.
  assert (m = 1 ∨ m = 2 ∨ m = 3 ∨ m = 4 ∨ m = 5 ∨ m = 6 ∨ m = 7 ∨ m = 8
          ∨ m = 9 ∨ m = 10 ∨ m = 11 ∨ m = 12)
    as [-> | [-> | [-> | [-> | [-> | [-> | [-> | [-> | [-> | [-> | [-> | ->]]]]]]]]]]]
    by lia;
    destruct (Calendar.leap_year y);
    match goal with
    | |- Date.days_till_end_of_year_loop ?items ?k d 0 = ?a - (sum ?l + d) =>
        let items' := eval vm_compute in items in
        let s := eval vm_compute in (sum l) in
        change (Date.days_till_end_of_year_loop items' k d 0 = a - (s + d))
    end;
    cbn [Date.days_till_end_of_year_loop];
    repeat match goal with
           | |- context [?a =? ?b] => eval_closed (a =? b)
           end;
    cbv iota; lia.
Qed.

(** X5: on every valid date, [days_since_start_of_year] is the number of
    the day within its year (counted from January 1st as day 1) and
    [days_till_end_of_year] is the number of days left after it up to
    December 31st, so the two add up to the length of the year, 365 or
    366. *)
Theorem days_since_start_and_till_end_of_year h self y m d :
  is_date h self y m d → Calendar.valid y m d = true →
  ∃ since_start till_end,
    Date.days_since_start_of_year self h = (h, Ok since_start)
    ∧ Date.days_till_end_of_year self h = (h, Ok till_end)
    ∧ since_start = Calendar.ordinal y m d - Calendar.ordinal y 1 1 + 1
    ∧ till_end = Calendar.ordinal y 12 31 - Calendar.ordinal y m d
    ∧ since_start + till_end = get_days_count_in_year y.
Proof.
  intros Hself Hvalid.
  exists (day_of_year y m d), (Calendar.days_in_year y - day_of_year y m d).
  split; [by apply run_days_since_start_of_year |].
  split; [by apply run_days_till_end_of_year |].
  rewrite !ordinal_split.
  assert (day_of_year y 1 1 = 1) as -> by reflexivity.
  assert (day_of_year y 12 31 = Calendar.days_in_year y) as ->.
  { unfold day_of_year. change (Z.to_nat (12 - 1)) with 11%nat.
    rewrite <- days_in_months_12. cbn [Calendar.days_in_months].
    unfold Calendar.days_in_month at 1. change (Z.of_nat 12 =? 2) with false.
    cbv iota. reflexivity. }
  unfold get_days_count_in_year, Calendar.days_in_year,
    NUM_DAYS_IN_LEAP_YEAR, NUM_DAYS_IN_NON_LEAP_YEAR.
  rewrite is_leap_year_spec. destruct (Calendar.leap_year y); lia.
Qed.

Lemma days_since_start_and_till_end_of_year_witness :
  ∃ since_start till_end,
    Date.days_since_start_of_year 0 [mkDateObj (PyInt 2020) (PyInt 3) (PyInt 1)]
    = ([mkDateObj (PyInt 2020) (PyInt 3) (PyInt 1)], Ok since_start)
    ∧ Date.days_till_end_of_year 0 [mkDateObj (PyInt 2020) (PyInt 3) (PyInt 1)]
      = ([mkDateObj (PyInt 2020) (PyInt 3) (PyInt 1)], Ok till_end)
    ∧ since_start = Calendar.ordinal 2020 3 1 - Calendar.ordinal 2020 1 1 + 1
    ∧ till_end = Calendar.ordinal 2020 12 31 - Calendar.ordinal 2020 3 1
    ∧ since_start + till_end = get_days_count_in_year 2020.
Proof.
  exact (days_since_start_and_till_end_of_year
           [mkDateObj (PyInt 2020) (PyInt 3) (PyInt 1)] 0%nat 2020 3 1
           eq_refl eq_refl).
Defined.

(** ** The comparisons against the calendar *)

Section TwoDates.

Context (h : heap) (a b : loc) (ya ma da yb mb db : Z).
Hypothesis Ha : is_date h a ya ma da.
Hypothesis Hb : is_date h b yb mb db.

Lemma run_lt :
  Date.__lt__ a b h
  = (h, Ok ((ya <? yb) || ((ya =? yb) && ((ma <? mb) || (da <? db))))).
Proof.
  unfold Date.__lt__. rewrite (run_ymd_bind _ _ _ _ _ _ Ha). cbv beta iota.
  by rewrite (run_ymd_bind _ _ _ _ _ _ Hb).
Qed.

Lemma run_gt :
  Date.__gt__ a b h
  = (h, Ok ((yb <? ya) || ((ya =? yb) && ((mb <? ma) || (db <? da))))).
Proof.
  unfold Date.__gt__. rewrite (run_ymd_bind _ _ _ _ _ _ Ha). cbv beta iota.
  by rewrite (run_ymd_bind _ _ _ _ _ _ Hb).
Qed.

Lemma run_eq :
  Date.__eq__ a b h = (h, Ok ((ya =? yb) && (ma =? mb) && (da =? db))).
Proof.
  unfold Date.__eq__. rewrite (run_ymd_bind _ _ _ _ _ _ Ha). cbv beta iota.
  by rewrite (run_ymd_bind _ _ _ _ _ _ Hb).
Qed.

Lemma run_ne :
  Date.__ne__ a b h
  = (h, Ok (negb (ya =? yb) || negb (ma =? mb) || negb (da =? db))).
Proof.
  unfold Date.__ne__. rewrite (run_ymd_bind _ _ _ _ _ _ Ha). cbv beta iota.
  by rewrite (run_ymd_bind _ _ _ _ _ _ Hb).
Qed.

End TwoDates.

(** X6: [a < b] holds when [a] is an earlier day of the calendar than
    [b], and also when both lie in the same year, [a] in a later month
    than [b] but on a smaller day of the month; in no other case.
    [a > b] is the same with the two dates exchanged. *)
Theorem strict_comparisons_against_the_calendar
    (h : heap) (a b : loc) ya ma da yb mb db :
  is_date h a ya ma da → is_date h b yb mb db →
  Calendar.valid ya ma da = true → Calendar.valid yb mb db = true →
  Date.__lt__ a b h
  = (h, Ok (bool_decide
              (Calendar.ordinal ya ma da < Calendar.ordinal yb mb db
               ∨ (ya = yb ∧ mb < ma ∧ da < db))))
  ∧ Date.__gt__ a b h
    = (h, Ok (bool_decide
                (Calendar.ordinal yb mb db < Calendar.ordinal ya ma da
                 ∨ (ya = yb ∧ ma < mb ∧ db < da)))).
Proof.
  intros Ha Hb Hva Hvb.
  rewrite (run_lt _ _ _ _ _ _ _ _ _ Ha Hb), (run_gt _ _ _ _ _ _ _ _ _ Ha Hb).
  pose proof (ordinal_lt _ _ _ _ _ _ Hva Hvb) as Hab.
  pose proof (ordinal_lt _ _ _ _ _ _ Hvb Hva) as Hba.
  split; do 2 f_equal; symmetry.
  - destruct (Z.ltb_spec ya yb), (Z.eqb_spec ya yb), (Z.ltb_spec ma mb),
      (Z.ltb_spec da db); cbn [orb andb];
      first [apply bool_decide_eq_true | apply bool_decide_eq_false]; lia.
  - destruct (Z.ltb_spec yb ya), (Z.eqb_spec ya yb), (Z.ltb_spec mb ma),
      (Z.ltb_spec db da); cbn [orb andb];
      first [apply bool_decide_eq_true | apply bool_decide_eq_false]; lia.
Qed.

Lemma strict_comparisons_against_the_calendar_witness :
  let h := [mkDateObj (PyInt 2020) (PyInt 5) (PyInt 10);
            mkDateObj (PyInt 2020) (PyInt 3) (PyInt 20)] in
  Date.__lt__ 0 1 h
  = (h, Ok (bool_decide
              (Calendar.ordinal 2020 5 10 < Calendar.ordinal 2020 3 20
               ∨ (2020 = 2020 ∧ 3 < 5 ∧ 10 < 20))))
  ∧ Date.__gt__ 0 1 h
    = (h, Ok (bool_decide
                (Calendar.ordinal 2020 3 20 < Calendar.ordinal 2020 5 10
                 ∨ (2020 = 2020 ∧ 5 < 3 ∧ 20 < 10)))).
Proof.
  exact (strict_comparisons_against_the_calendar
           [mkDateObj (PyInt 2020) (PyInt 5) (PyInt 10);
            mkDateObj (PyInt 2020) (PyInt 3) (PyInt 20)] 0%nat 1%nat
           2020 5 10 2020 3 20 eq_refl eq_refl eq_refl eq_refl).
Defined.

(** X7: [a == b] holds exactly when [a] and [b] are the same day of the
    calendar, and [a != b] exactly when they are not. *)
Theorem equality_against_the_calendar (h : heap) (a b : loc) ya ma da yb mb db :
  is_date h a ya ma da → is_date h b yb mb db →
  Calendar.valid ya ma da = true → Calendar.valid yb mb db = true →
  Date.__eq__ a b h
  = (h, Ok (bool_decide
              (Calendar.ordinal ya ma da = Calendar.ordinal yb mb db)))
  ∧ Date.__ne__ a b h
    = (h, Ok (bool_decide
                (Calendar.ordinal ya ma da ≠ Calendar.ordinal yb mb db))).
Proof.
  intros Ha Hb Hva Hvb.
  rewrite (run_eq _ _ _ _ _ _ _ _ _ Ha Hb), (run_ne _ _ _ _ _ _ _ _ _ Ha Hb).
  pose proof (ordinal_inj _ _ _ _ _ _ Hva Hvb) as Hab.
  split; do 2 f_equal; symmetry;
    destruct (Z.eqb_spec ya yb), (Z.eqb_spec ma mb), (Z.eqb_spec da db);
    cbn [orb andb negb];
    first [apply bool_decide_eq_true | apply bool_decide_eq_false]; tauto.
Qed.

Lemma equality_against_the_calendar_witness :
  let h := [mkDateObj (PyInt 2020) (PyInt 5) (PyInt 10);
            mkDateObj (PyInt 2020) (PyInt 5) (PyInt 10)] in
  Date.__eq__ 0 1 h
  = (h, Ok (bool_decide
              (Calendar.ordinal 2020 5 10 = Calendar.ordinal 2020 5 10)))
  ∧ Date.__ne__ 0 1 h
    = (h, Ok (bool_decide
                (Calendar.ordinal 2020 5 10 ≠ Calendar.ordinal 2020 5 10))).
Proof.
  exact (equality_against_the_calendar
           [mkDateObj (PyInt 2020) (PyInt 5) (PyInt 10);
            mkDateObj (PyInt 2020) (PyInt 5) (PyInt 10)] 0%nat 1%nat
           2020 5 10 2020 5 10 eq_refl eq_refl eq_refl eq_refl).
Defined.

(** ** [difference] *)

Lemma fold_left_add_acc (l : list Z) : ∀ acc,
  fold_left Z.add l acc = acc + fold_left Z.add l 0.
Proof.
  induction l as [| x l IH]; intros acc; cbn [fold_left]; [lia |].
  rewrite (IH (acc + x)), (IH (0 + x)). lia.
Qed.

Lemma sum_cons x l : sum (x :: l) = x + sum l.
Proof. unfold sum. cbn [fold_left]. rewrite fold_left_add_acc. lia. Qed.

Lemma get_days_count_in_year_spec year :
  get_days_count_in_year year = Calendar.days_in_year year.
Proof.
  unfold get_days_count_in_year, Calendar.days_in_year. by rewrite is_leap_year_spec.
Qed.

(** The whole years [s .. s+k-1]. *)
Lemma sum_days_of_years k : ∀ s,
  1 ≤ s →
  sum (get_days_count_in_year <$> range_from s 1 k)
  = Calendar.days_in_years (Z.to_nat (s - 1) + k)
    - Calendar.days_in_years (Z.to_nat (s - 1)).
Proof.
  induction k as [| k IH]; intros s Hs.
  - rewrite Nat.add_0_r. cbn. lia.
  - cbn [range_from fmap list_fmap]. rewrite sum_cons, IH by lia.
    replace (s + 1 - 1) with s by lia.
    replace (Z.to_nat (s - 1) + S k)%nat with (Z.to_nat s + k)%nat by lia.
    rewrite (days_in_years_step s), get_days_count_in_year_spec by lia. lia.
Qed.

Lemma removelast_range_from k : ∀ s,
  removelast (range_from s 1 (S k)) = range_from s 1 k.
Proof.
  induction k as [| k IH]; intros s; [reflexivity |].
  change (range_from s 1 (S (S k))) with (s :: range_from (s + 1) 1 (S k)).
  cbn [removelast]. rewrite IH. reflexivity.
Qed.

(** The loop of [_get_years_between_dates]: from a list that ends in
    [l], it appends the years up to [big_year] and stops. *)
Lemma years_loop (big_year : Z) (n : nat) : ∀ (fuel : nat) (years : list Z) l,
  last years = Some l → l + Z.of_nat n = big_year → (n < fuel)%nat →
  while_true fuel
    (λ years : list Z,
       match last years with
       | Some last_year =>
           if last_year + 1 <=? big_year
           then Ok (Continue (years ++ [last_year + 1]))
           else Ok (Return years)
       | None => Raise IndexError
       end)
    years
  = Ok (years ++ range_from (l + 1) 1 n).
Proof.
  induction n as [| n IH]; intros fuel years l Hlast Hl Hfuel;
    (destruct fuel as [| fuel]; [lia |]); cbn [while_true]; rewrite Hlast.
  - destruct (Z.leb_spec (l + 1) big_year); [lia |].
    by rewrite app_nil_r.
  - destruct (Z.leb_spec (l + 1) big_year); [| lia].
    rewrite (IH fuel (years ++ [l + 1]) (l + 1)) by (try apply last_snoc; lia).
    by rewrite <- app_assoc.
Qed.

Section Difference.

Context (h : heap) (self small big : loc).
Context (y0 m0 d0 sy sm sd by_ bm bd : Z).
Hypothesis Hself : is_date h self y0 m0 d0.
Hypothesis Hsmall : is_date h small sy sm sd.
Hypothesis Hbig : is_date h big by_ bm bd.
Hypothesis Hvs : Calendar.valid sy sm sd = true.
Hypothesis Hvb : Calendar.valid by_ bm bd = true.

Lemma run_get_years_between_dates fuel :
  sy < by_ → (Z.to_nat (by_ - sy) < fuel)%nat →
  Date._get_years_between_dates fuel small big h
  = (h, Ok (sy :: range_from (sy + 1) 1 (Z.to_nat (by_ - sy)))).
Proof.
  intros Hlt Hfuel. unfold Date._get_years_between_dates.
  rewrite (run_bind_Ok _ _ _ _ _ (run_lt _ _ _ _ _ _ _ _ _ Hsmall Hbig)).
  replace (sy <? by_) with true by lia. cbn [orb]. rewrite run_assert by done.
  rewrite (run_year_bind _ _ _ _ _ _ Hsmall), (run_year_bind _ _ _ _ _ _ Hbig).
  replace (sy =? by_) with false by lia.
  unfold lift. by rewrite (years_loop by_ (Z.to_nat (by_ - sy)) fuel [sy] sy) by (done || lia).
Qed.

Lemma run_difference_in_different_years fuel :
  sy < by_ → (Z.to_nat (by_ - sy) < fuel)%nat →
  Date._difference_between_dates_in_different_years fuel self small big h
  = (h, Ok (Calendar.ordinal by_ bm bd - Calendar.ordinal sy sm sd)).
Proof.
  intros Hlt Hfuel. unfold Date._difference_between_dates_in_different_years.
  pose proof (proj1 (valid_iff _ _ _) Hvs) as (Hsy & _ & _).
  rewrite (run_bind_Ok _ _ _ _ _ (run_lt _ _ _ _ _ _ _ _ _ Hsmall Hbig)).
  replace (sy <? by_) with true by lia. cbn [orb]. rewrite run_assert by done.
  rewrite (run_year_bind _ _ _ _ _ _ Hsmall), (run_year_bind _ _ _ _ _ _ Hbig).
  replace (sy =? by_) with false by lia. cbn [negb]. rewrite run_assert by done.
  cbv zeta.
  rewrite (run_bind_Ok _ _ _ _ _ (run_get_years_between_dates fuel Hlt Hfuel)).
  replace (Z.to_nat (by_ - sy)) with (S (Z.to_nat (by_ - sy - 1))) by lia.
  cbn [Date.years_in_between range_from]. rewrite run_lift_Ok.
  change (sy + 1 :: range_from (sy + 1 + 1) 1 (Z.to_nat (by_ - sy - 1)))
    with (range_from (sy + 1) 1 (S (Z.to_nat (by_ - sy - 1)))).
  rewrite removelast_range_from.
  rewrite (run_bind_Ok _ _ _ _ _ (run_days_till_end_of_year _ _ _ _ _ Hsmall Hvs)).
  rewrite (run_bind_Ok _ _ _ _ _ (run_days_since_start_of_year _ _ _ _ _ Hbig Hvb)).
  unfold mret, M_ret. do 2 f_equal.
  assert ((match range_from (sy + 1) 1 (Z.to_nat (by_ - sy - 1)) with
           | [] => 0
           | _ :: _ =>
               sum (get_days_count_in_year
                      <$> range_from (sy + 1) 1 (Z.to_nat (by_ - sy - 1)))
           end)
          = sum (get_days_count_in_year
                   <$> range_from (sy + 1) 1 (Z.to_nat (by_ - sy - 1)))) as ->.
  { by destruct (range_from _ _ _). }
  rewrite sum_days_of_years, !ordinal_split by lia.
  replace (sy + 1 - 1) with sy by lia.
  replace (Z.to_nat sy + Z.to_nat (by_ - sy - 1))%nat with (Z.to_nat (by_ - 1))
    by lia.
  rewrite (days_in_years_step sy) by lia. lia.
Qed.

Lemma run_difference_in_same_year :
  y0 = sy → sy = by_ →
  Date._difference_between_dates_in_same_year self small big h
  = (h, if (sm <? bm) || (sm =? bm) && (sd <? bd)
        then Ok (Calendar.ordinal by_ bm bd - Calendar.ordinal sy sm sd)
        else Raise AssertionError).
Proof.
  intros -> <-. unfold Date._difference_between_dates_in_same_year.
  pose proof (proj1 (valid_iff _ _ _) Hvs) as (Hsy & Hsm & Hsd).
  pose proof (proj1 (valid_iff _ _ _) Hvb) as (_ & Hbm & Hbd).
  rewrite (run_bind_Ok _ _ _ _ _ (run_lt _ _ _ _ _ _ _ _ _ Hsmall Hbig)).
  rewrite Z.ltb_irrefl, Z.eqb_refl. cbn [orb andb].
  destruct (Z.ltb_spec sm bm) as [Hm | Hm]; cbn [orb].
  - rewrite run_assert, (run_ymd_bind _ _ _ _ _ _ Hsmall) by done.
    cbv beta iota.
    rewrite (run_ymd_bind _ _ _ _ _ _ Hbig). cbv beta iota.
    rewrite run_assert, (run_year_bind _ _ _ _ _ _ Hself) by apply Z.eqb_refl.
    cbv zeta. replace (sm =? bm) with false by lia.
    unfold get_days_remaining_in_month.
    rewrite !get_days_in_month_spec, !result_bind_Ok by lia.
    rewrite !ordinal_split. unfold day_of_year.
    pose proof (days_in_months_step sy sm) as Hstep.
    destruct (Z.eqb_spec (sm + 1) bm) as [<- | Hne]; rewrite run_lift_Ok.
    + unfold mret, M_ret. do 2 f_equal.
      replace (sm + 1 - 1) with sm by lia. lia.
    + rewrite days_between_months_in_range, run_lift_Ok by lia.
      unfold mret, M_ret. do 2 f_equal.
      replace (sm + 1 - 1) with sm by lia. lia.
  - destruct (Z.eqb_spec sm bm) as [<- | Hne]; cbn [andb].
    + destruct (Z.ltb_spec sd bd) as [Hd | Hd]; [| reflexivity].
      rewrite run_assert, (run_ymd_bind _ _ _ _ _ _ Hsmall) by done.
      cbv beta iota.
      rewrite (run_ymd_bind _ _ _ _ _ _ Hbig). cbv beta iota.
      rewrite run_assert, (run_year_bind _ _ _ _ _ _ Hself) by apply Z.eqb_refl.
      cbv zeta. rewrite Z.eqb_refl.
      unfold mret, M_ret. do 2 f_equal. rewrite !ordinal_split.
      unfold day_of_year. lia.
    + destruct (Z.ltb_spec sd bd) as [Hd | Hd]; [| reflexivity].
      rewrite run_assert, (run_ymd_bind _ _ _ _ _ _ Hsmall) by done.
      cbv beta iota.
      rewrite (run_ymd_bind _ _ _ _ _ _ Hbig). cbv beta iota.
      rewrite run_assert, (run_year_bind _ _ _ _ _ _ Hself) by apply Z.eqb_refl.
      cbv zeta. replace (sm =? bm) with false by lia.
      replace (sm + 1 =? bm) with false by lia.
      unfold get_days_remaining_in_month.
      rewrite get_days_in_month_spec, result_bind_Ok, run_lift_Ok by lia.
      by rewrite days_between_months_out_of_range by lia.
Qed.

End Difference.

Lemma run_copy h self y m d :
  is_date h self y m d → Calendar.valid y m d = true →
  Date.copy self h
  = (h ++ [mkDateObj (PyInt y) (PyInt m) (PyInt d)], Ok (length h)).
Proof.
  intros Hself Hvalid. unfold Date.copy.
  rewrite (run_bind_Ok _ _ _ _ _ (run_year _ _ _ Hself)).
  rewrite (run_bind_Ok _ _ _ _ _ (run_month _ _ _ Hself)).
  rewrite (run_bind_Ok _ _ _ _ _ (run_day _ _ _ Hself)).
  cbn [_year _month _day]. rewrite run_init. cbn [valid_fields].
  by rewrite Hvalid.
Qed.

(** The two copies [difference] makes, and where they are. *)
Lemma run_copies {B} (f : loc * loc → M B) h s g ys ms ds yg mg dg :
  is_date h s ys ms ds → is_date h g yg mg dg →
  Calendar.valid ys ms ds = true → Calendar.valid yg mg dg = true →
  ((s' ← Date.copy s; g' ← Date.copy g; mret (s', g')) ≫= f) h
  = f (length h, S (length h))
      (h ++ [mkDateObj (PyInt ys) (PyInt ms) (PyInt ds);
             mkDateObj (PyInt yg) (PyInt mg) (PyInt dg)]).
Proof.
  intros Hs Hg Hvs Hvg. apply run_bind_Ok.
  rewrite (run_bind_Ok _ _ _ _ _ (run_copy _ _ _ _ _ Hs Hvs)).
  rewrite (run_bind_Ok _ _ _ _ _
             (run_copy _ _ _ _ _ (is_date_app _ [_] _ _ _ _ Hg) Hvg)).
  by rewrite length_app, Nat.add_1_r, <- app_assoc.
Qed.

Lemma is_date_first (h : heap) (o : DateObj) y m d :
  is_date (h ++ [mkDateObj (PyInt y) (PyInt m) (PyInt d); o]) (length h) y m d.
Proof. unfold is_date. by apply list_lookup_middle. Qed.

Lemma if_eqb_eq {A} (x y : Z) (u v : A) :
  x = y → (if x =? y then u else v) = u.
Proof. intros ->. by rewrite Z.eqb_refl. Qed.

Lemma if_eqb_ne {A} (x y : Z) (u v : A) :
  x ≠ y → (if x =? y then u else v) = v.
Proof. intros H. by destruct (Z.eqb_spec x y). Qed.

Lemma run_difference fuel h a b ya ma da yb mb db :
  is_date h a ya ma da → is_date h b yb mb db →
  Calendar.valid ya ma da = true → Calendar.valid yb mb db = true →
  (Z.to_nat (Z.abs (ya - yb)) < fuel)%nat →
  snd (Date.difference fuel a b h)
  = if (ya =? yb) && (mb <? ma) && (da <? db) then Raise AssertionError
    else Ok (Calendar.ordinal ya ma da - Calendar.ordinal yb mb db).
Proof.
  intros Ha Hb Hva Hvb Hfuel. unfold Date.difference.
  rewrite (run_bind_Ok _ _ _ _ _ (run_eq _ _ _ _ _ _ _ _ _ Ha Hb)).
  destruct ((ya =? yb) && (ma =? mb) && (da =? db)) eqn:Hequal.
  { assert (ya = yb ∧ ma = mb ∧ da = db) as (-> & -> & ->) by lia.
    rewrite Z.ltb_irrefl, andb_false_r, Z.sub_diag. reflexivity. }
  rewrite (run_bind_Ok _ _ _ _ _ (run_lt _ _ _ _ _ _ _ _ _ Ha Hb)).
  destruct ((ya <? yb) || (ya =? yb) && ((ma <? mb) || (da <? db))) eqn:Hlt.
  - rewrite (run_copies _ _ _ _ _ _ _ _ _ _ Ha Hb Hva Hvb).
    set (h2 := h ++ _).
    assert (is_date h2 a ya ma da) as Ha2 by by apply is_date_app.
    assert (is_date h2 b yb mb db) as Hb2 by by apply is_date_app.
    assert (is_date h2 (length h) ya ma da) as Hs by apply is_date_first.
    assert (is_date h2 (S (length h)) yb mb db) as Hg by apply is_date_second.
    rewrite (run_year_bind _ _ _ _ _ _ Hs), (run_year_bind _ _ _ _ _ _ Hg).
    destruct (decide (ya = yb)) as [Hy | Hy].
    + rewrite (if_eqb_eq _ _ _ _ Hy), run_bind.
      rewrite (run_difference_in_same_year _ _ _ _ _ _ _ _ _ _ _ _ _
                 Ha2 Hs Hg Hva Hvb eq_refl Hy).
      destruct ((ma <? mb) || (ma =? mb) && (da <? db)) eqn:Hok.
      * rewrite (run_bind_Ok _ _ _ _ _ (run_lt _ _ _ _ _ _ _ _ _ Ha2 Hb2)), Hlt.
        replace ((ya =? yb) && (mb <? ma) && (da <? db)) with false by lia.
        cbn [snd mret M_ret]. f_equal. lia.
      * replace ((ya =? yb) && (mb <? ma) && (da <? db)) with true by lia.
        reflexivity.
    + rewrite (if_eqb_ne _ _ _ _ Hy), run_bind.
      rewrite (run_difference_in_different_years _ _ _ _ _ _ _ _ _ _
                 Hs Hg Hva Hvb) by lia.
      rewrite (run_bind_Ok _ _ _ _ _ (run_lt _ _ _ _ _ _ _ _ _ Ha2 Hb2)), Hlt.
      replace ((ya =? yb) && (mb <? ma) && (da <? db)) with false by lia.
      cbn [snd mret M_ret]. f_equal. lia.
  - rewrite (run_copies _ _ _ _ _ _ _ _ _ _ Hb Ha Hvb Hva).
    set (h2 := h ++ _).
    assert (is_date h2 a ya ma da) as Ha2 by by apply is_date_app.
    assert (is_date h2 b yb mb db) as Hb2 by by apply is_date_app.
    assert (is_date h2 (length h) yb mb db) as Hs by apply is_date_first.
    assert (is_date h2 (S (length h)) ya ma da) as Hg by apply is_date_second.
    rewrite (run_year_bind _ _ _ _ _ _ Hs), (run_year_bind _ _ _ _ _ _ Hg).
    destruct (decide (yb = ya)) as [Hy | Hy].
    + rewrite (if_eqb_eq _ _ _ _ Hy), run_bind.
      rewrite (run_difference_in_same_year _ _ _ _ _ _ _ _ _ _ _ _ _
                 Ha2 Hs Hg Hvb Hva (eq_sym Hy) Hy).
      replace ((mb <? ma) || (mb =? ma) && (db <? da)) with true by lia.
      rewrite (run_bind_Ok _ _ _ _ _ (run_lt _ _ _ _ _ _ _ _ _ Ha2 Hb2)), Hlt.
      replace ((ya =? yb) && (mb <? ma) && (da <? db)) with false by lia.
      reflexivity.
    + rewrite (if_eqb_ne _ _ _ _ Hy), run_bind.
      rewrite (run_difference_in_different_years _ _ _ _ _ _ _ _ _ _
                 Hs Hg Hvb Hva) by lia.
      rewrite (run_bind_Ok _ _ _ _ _ (run_lt _ _ _ _ _ _ _ _ _ Ha2 Hb2)), Hlt.
      replace ((ya =? yb) && (mb <? ma) && (da <? db)) with false by lia.
      reflexivity.
Qed.

(** X8: for two valid dates and enough fuel to list the years between
    them, [a.difference(b)] is the number of days from [b] to [a] in the
    calendar (negative when [a] is the earlier one), except when both lie
    in the same year with [a] in a later month than [b] but on a smaller
    day of the month: then it fails an assertion. *)
Theorem difference_against_the_calendar
    (fuel : nat) (h : heap) (a b : loc) ya ma da yb mb db :
  is_date h a ya ma da → is_date h b yb mb db →
  Calendar.valid ya ma da = true → Calendar.valid yb mb db = true →
  (Z.to_nat (Z.abs (ya - yb)) < fuel)%nat →
  snd (Date.difference fuel a b h)
  = if (ya =? yb) && (mb <? ma) && (da <? db) then Raise AssertionError
    else Ok (Calendar.ordinal ya ma da - Calendar.ordinal yb mb db).
Proof. intros Ha Hb Hva Hvb Hfuel. by apply run_difference. Qed.

Lemma difference_against_the_calendar_witness :
  let h := [mkDateObj (PyInt 1890) (PyInt 6) (PyInt 28);
            mkDateObj (PyInt 1717) (PyInt 4) (PyInt 13)] in
  snd (Date.difference 200 0 1 h)
  = if (1890 =? 1717) && (4 <? 6) && (28 <? 13) then Raise AssertionError
    else Ok (Calendar.ordinal 1890 6 28 - Calendar.ordinal 1717 4 13).
Proof.
  apply (difference_against_the_calendar 200
           [mkDateObj (PyInt 1890) (PyInt 6) (PyInt 28);
            mkDateObj (PyInt 1717) (PyInt 4) (PyInt 13)] 0%nat 1%nat
           1890 6 28 1717 4 13); [reflexivity.. | vm_compute; lia].
Defined.

(** X9: [abs_difference] is the distance between the two dates in days,
    the same in both directions, with the one exception of X8: it fails
    an assertion in the direction from the date with the later month and
    smaller day of the month, within one year. *)
Theorem abs_difference_against_the_calendar
    (fuel : nat) (h : heap) (a b : loc) ya ma da yb mb db :
  is_date h a ya ma da → is_date h b yb mb db →
  Calendar.valid ya ma da = true → Calendar.valid yb mb db = true →
  (Z.to_nat (Z.abs (ya - yb)) < fuel)%nat →
  snd (Date.abs_difference fuel a b h)
  = (if (ya =? yb) && (mb <? ma) && (da <? db) then Raise AssertionError
     else Ok (Z.abs (Calendar.ordinal ya ma da - Calendar.ordinal yb mb db)))
  ∧ snd (Date.abs_difference fuel b a h)
    = (if (ya =? yb) && (ma <? mb) && (db <? da) then Raise AssertionError
       else Ok (Z.abs (Calendar.ordinal ya ma da - Calendar.ordinal yb mb db))).
Proof.
  intros Ha Hb Hva Hvb Hfuel. unfold Date.abs_difference. rewrite !run_bind.
  pose proof (run_difference fuel h a b _ _ _ _ _ _ Ha Hb Hva Hvb Hfuel) as Hab.
  pose proof (run_difference fuel h b a _ _ _ _ _ _ Hb Ha Hvb Hva) as Hba.
  rewrite (Z.eqb_sym yb ya) in Hba.
  replace (Z.abs (yb - ya)) with (Z.abs (ya - yb)) in Hba by lia.
  specialize (Hba Hfuel).
  destruct (Date.difference fuel a b h) as [h1 r1],
    (Date.difference fuel b a h) as [h2 r2].
  cbn [snd] in Hab, Hba. subst r1 r2. split.
  - by destruct ((ya =? yb) && (mb <? ma) && (da <? db)).
  - destruct ((ya =? yb) && (ma <? mb) && (db <? da)); [done |].
    cbn [snd mret M_ret]. f_equal. lia.
Qed.

Lemma abs_difference_against_the_calendar_witness :
  let h := [mkDateObj (PyInt 2020) (PyInt 5) (PyInt 10);
            mkDateObj (PyInt 2020) (PyInt 3) (PyInt 20)] in
  snd (Date.abs_difference 1 0 1 h)
  = (if (2020 =? 2020) && (3 <? 5) && (10 <? 20) then Raise AssertionError
     else Ok (Z.abs (Calendar.ordinal 2020 5 10 - Calendar.ordinal 2020 3 20)))
  ∧ snd (Date.abs_difference 1 1 0 h)
    = (if (2020 =? 2020) && (5 <? 3) && (20 <? 10) then Raise AssertionError
       else Ok (Z.abs (Calendar.ordinal 2020 5 10 - Calendar.ordinal 2020 3 20))).
Proof.
  apply (abs_difference_against_the_calendar 1
           [mkDateObj (PyInt 2020) (PyInt 5) (PyInt 10);
            mkDateObj (PyInt 2020) (PyInt 3) (PyInt 20)] 0%nat 1%nat
           2020 5 10 2020 3 20); [reflexivity.. | vm_compute; lia].
Defined.

(** ** Year and month shifts *)

(** A date other than February 29th is valid in every year. *)
Lemma valid_other_year y y' m d :
  Calendar.valid y m d = true → ¬ (m = 2 ∧ d = 29) → 1 ≤ y' →
  Calendar.valid y' m d = true.
Proof.
  intros (Hy & Hm & Hd)%valid_iff Hfeb Hy'. apply valid_iff.
  revert Hd. unfold Calendar.days_in_month.
  destruct (Z.eqb_spec m 2), (Calendar.leap_year y), (Calendar.leap_year y');
    lia.
Qed.

Lemma subtract_months_mapper_lookup k :
  -11 ≤ k ≤ 0 → getitem Date._subtract_months_mapper k = Ok (k + 12).
Proof.
  intros Hk.
  assert (k = 0 ∨ k = -1 ∨ k = -2 ∨ k = -3 ∨ k = -4 ∨ k = -5 ∨ k = -6
          ∨ k = -7 ∨ k = -8 ∨ k = -9 ∨ k = -10 ∨ k = -11)
    as [-> | [-> | [-> | [-> | [-> | [-> | [-> | [-> | [-> | [-> | [-> | ->]]]]]]]]]]]
    by lia; reflexivity.
Qed.

Section MonthShift.

Context (h : heap) (self : loc) (y m d : Z).
Hypothesis Hself : is_date h self y m d.
Hypothesis Hvalid : Calendar.valid y m d = true.
Hypothesis Hfeb29 : ¬ (m = 2 ∧ d = 29).

Lemma run_add_years_plain n :
  0 ≤ n →
  Date._add_years self n h
  = (h ++ [mkDateObj (PyInt (y + n)) (PyInt m) (PyInt d)], Ok (length h)).
Proof.
  intros Hn. pose proof (proj1 (valid_iff _ _ _) Hvalid) as (Hy & _ & _).
  rewrite (run_add_years _ _ _ _ _ _ Hself) by done.
  replace ((m =? 2) && (d =? 29)) with false by lia.
  apply run_new_valid. eapply valid_other_year; [done.. | lia].
Qed.

Lemma run_subtract_years_plain n :
  0 ≤ n →
  Date._subtract_years self n h
  = (h ++ [mkDateObj (PyInt (y - n)) (PyInt m) (PyInt d)],
     if 1 <=? y - n then Ok (length h) else Raise InvalidDateError).
Proof.
  intros Hn. rewrite (run_subtract_years _ _ _ _ _ _ Hself) by done.
  replace ((m =? 2) && (d =? 29)) with false by lia. rewrite run_new.
  destruct (Z.leb_spec 1 (y - n)).
  - by erewrite valid_other_year.
  - replace (Calendar.valid (y - n) m d) with false; [done |].
    symmetry. apply not_true_iff_false. rewrite valid_iff. lia.
Qed.

Lemma run_add_months n :
  0 ≤ n →
  Date._add_months self n h
  = Date.new ((12 * y + (m - 1) + n) / 12) ((12 * y + (m - 1) + n) mod 12 + 1) d
      (h ++ [mkDateObj (PyInt (y + n / 12)) (PyInt m) (PyInt d)]).
Proof.
  intros Hn. pose proof (proj1 (valid_iff _ _ _) Hvalid) as (Hy & Hm & _).
  unfold Date._add_months, NUM_MONTHS_IN_YEAR.
  rewrite run_assert by lia. cbv beta iota.
  rewrite (run_bind_Ok _ _ _ _ _ (run_add_years_plain (n / 12)
                                   ltac:(Z.div_mod_to_equations; lia))).
  rewrite (run_ymd_bind _ _ _ _ _ _ (is_date_new _ _ _ _)). cbv beta iota zeta.
  f_equal.
  - destruct (Z.ltb_spec 12 (m + n mod 12)); Z.div_mod_to_equations; lia.
  - destruct (Z.eqb_spec ((m + n mod 12) mod 12) 0);
      Z.div_mod_to_equations; lia.
Qed.

Lemma run_subtract_months n :
  0 ≤ n →
  Date._subtract_months self n h
  = if 1 <=? y - n / 12
    then Date.new ((12 * y + (m - 1) - n) / 12)
           ((12 * y + (m - 1) - n) mod 12 + 1) d
           (h ++ [mkDateObj (PyInt (y - n / 12)) (PyInt m) (PyInt d)])
    else (h ++ [mkDateObj (PyInt (y - n / 12)) (PyInt m) (PyInt d)],
          Raise InvalidDateError).
Proof.
  intros Hn. pose proof (proj1 (valid_iff _ _ _) Hvalid) as (Hy & Hm & _).
  unfold Date._subtract_months, NUM_MONTHS_IN_YEAR.
  rewrite run_assert by lia. cbv beta iota.
  rewrite run_bind, (run_subtract_years_plain (n / 12))
    by (Z.div_mod_to_equations; lia).
  destruct (Z.leb_spec 1 (y - n / 12)); [| reflexivity].
  rewrite (run_ymd_bind _ _ _ _ _ _ (is_date_new _ _ _ _)). cbv beta iota zeta.
  destruct (Z.leb_spec (m - n mod 12) 0).
  - rewrite subtract_months_mapper_lookup by (Z.div_mod_to_equations; lia).
    rewrite (run_bind_Ok _ _ _ _ _ eq_refl). cbv beta iota.
    f_equal; Z.div_mod_to_equations; lia.
  - rewrite run_ret_bind. cbv beta iota.
    f_equal; Z.div_mod_to_equations; lia.
Qed.

End MonthShift.

Lemma run_add_years_months fuel h self y m d years months :
  is_date h self y m d → Calendar.valid y m d = true → ¬ (m = 2 ∧ d = 29) →
  0 ≤ years → 0 ≤ months →
  ∃ h' r,
    Date.add fuel self years months 0 h
    = (h', if Calendar.valid ((12 * (y + years) + (m - 1) + months) / 12)
                ((12 * (y + years) + (m - 1) + months) mod 12 + 1) d
           then Ok r else Raise InvalidDateError)
    ∧ (Calendar.valid ((12 * (y + years) + (m - 1) + months) / 12)
         ((12 * (y + years) + (m - 1) + months) mod 12 + 1) d = true →
       is_date h' r ((12 * (y + years) + (m - 1) + months) / 12)
         ((12 * (y + years) + (m - 1) + months) mod 12 + 1) d).
Proof.
  intros Hself Hvalid Hfeb Hyears Hmonths.
  pose proof (proj1 (valid_iff _ _ _) Hvalid) as (Hy & _ & _).
  assert (Calendar.valid (y + years) m d = true) as Hvalid1
    by (eapply valid_other_year; [done.. | lia]).
  unfold Date.add.
  rewrite (run_bind_Ok _ _ _ _ _
             (run_add_years_plain _ _ _ _ _ Hself Hvalid Hfeb _ Hyears)).
  rewrite run_bind.
  rewrite (run_add_months _ _ _ _ _ (is_date_new _ _ _ _) Hvalid1 Hfeb _ Hmonths).
  rewrite run_new.
  destruct (Calendar.valid (_ / 12) _ d) eqn:Htarget.
  - rewrite (run_add_days_0 _ _ _ _ _ (is_date_new _ _ _ _) Htarget).
    eexists _, _. split; [reflexivity |]. intros _. apply is_date_new.
  - eexists _, O. split; [reflexivity | done].
Qed.

Lemma run_subtract_years_months fuel h self y m d years months :
  is_date h self y m d → Calendar.valid y m d = true → ¬ (m = 2 ∧ d = 29) →
  0 ≤ years → 0 ≤ months →
  ∃ h' r,
    Date.subtract fuel self years months 0 h
    = (h', if Calendar.valid ((12 * (y - years) + (m - 1) - months) / 12)
                ((12 * (y - years) + (m - 1) - months) mod 12 + 1) d
           then Ok r else Raise InvalidDateError)
    ∧ (Calendar.valid ((12 * (y - years) + (m - 1) - months) / 12)
         ((12 * (y - years) + (m - 1) - months) mod 12 + 1) d = true →
       is_date h' r ((12 * (y - years) + (m - 1) - months) / 12)
         ((12 * (y - years) + (m - 1) - months) mod 12 + 1) d).
Proof.
  intros Hself Hvalid Hfeb Hyears Hmonths.
  pose proof (proj1 (valid_iff _ _ _) Hvalid) as (Hy & Hm & _).
  assert (∀ Y M, Y ≤ 0 → Calendar.valid Y M d = false) as Hbefore.
  { intros Y M HY. apply not_true_iff_false. rewrite valid_iff. lia. }
  unfold Date.subtract.
  rewrite run_bind,
    (run_subtract_years_plain _ _ _ _ _ Hself Hvalid Hfeb _ Hyears).
  destruct (Z.leb_spec 1 (y - years)) as [Hy1 | Hy1].
  - assert (Calendar.valid (y - years) m d = true) as Hvalid1
      by (eapply valid_other_year; [done.. | lia]).
    rewrite run_bind.
    rewrite (run_subtract_months _ _ _ _ _ (is_date_new _ _ _ _) Hvalid1 Hfeb
               _ Hmonths).
    destruct (Z.leb_spec 1 (y - years - months / 12)).
    + rewrite run_new. destruct (Calendar.valid (_ / 12) _ d) eqn:Htarget.
      * rewrite (run_subtract_days_0 _ _ _ _ _ (is_date_new _ _ _ _) Htarget).
        eexists _, _. split; [reflexivity |]. intros _. apply is_date_new.
      * eexists _, O. split; [reflexivity | done].
    + rewrite Hbefore by (Z.div_mod_to_equations; lia).
      eexists _, O. split; [reflexivity | done].
  - rewrite Hbefore by (Z.div_mod_to_equations; lia).
    eexists _, O. split; [reflexivity | done].
Qed.

(** X10: on a valid date other than February 29th, [add(years=a,
    months=b)] moves the (year, month) pair forward by [12a + b] months
    and keeps the day of the month: it returns that date when the day
    exists in the target month and raises [InvalidDateError] when it does
    not. *)
Theorem add_years_and_months fuel h self y m d years months :
  is_date h self y m d → Calendar.valid y m d = true → ¬ (m = 2 ∧ d = 29) →
  0 ≤ years → 0 ≤ months →
  ∃ h' r,
    Date.add fuel self years months 0 h
    = (h', if Calendar.valid ((12 * (y + years) + (m - 1) + months) / 12)
                ((12 * (y + years) + (m - 1) + months) mod 12 + 1) d
           then Ok r else Raise InvalidDateError)
    ∧ (Calendar.valid ((12 * (y + years) + (m - 1) + months) / 12)
         ((12 * (y + years) + (m - 1) + months) mod 12 + 1) d = true →
       is_date h' r ((12 * (y + years) + (m - 1) + months) / 12)
         ((12 * (y + years) + (m - 1) + months) mod 12 + 1) d).
Proof. intros. by apply run_add_years_months. Qed.

Lemma add_years_and_months_witness :
  ∃ h' r,
    Date.add 0 0 1 14 0 [mkDateObj (PyInt 2020) (PyInt 1) (PyInt 31)]
    = (h', if Calendar.valid ((12 * (2020 + 1) + (1 - 1) + 14) / 12)
                ((12 * (2020 + 1) + (1 - 1) + 14) mod 12 + 1) 31
           then Ok r else Raise InvalidDateError)
    ∧ (Calendar.valid ((12 * (2020 + 1) + (1 - 1) + 14) / 12)
         ((12 * (2020 + 1) + (1 - 1) + 14) mod 12 + 1) 31 = true →
       is_date h' r ((12 * (2020 + 1) + (1 - 1) + 14) / 12)
         ((12 * (2020 + 1) + (1 - 1) + 14) mod 12 + 1) 31).
Proof.
  apply (add_years_and_months 0 [mkDateObj (PyInt 2020) (PyInt 1) (PyInt 31)]
           0%nat 2020 1 31 1 14); [reflexivity | reflexivity | lia | lia | lia].
Defined.

(** X11: on a valid date other than February 29th, [subtract(years=a,
    months=b)] moves the (year, month) pair back by [12a + b] months and
    keeps the day of the month: it returns that date when it is a date
    of the calendar, and raises [InvalidDateError] when the day does not
    exist in the target month or the target lies before year 1. *)
Theorem subtract_years_and_months fuel h self y m d years months :
  is_date h self y m d → Calendar.valid y m d = true → ¬ (m = 2 ∧ d = 29) →
  0 ≤ years → 0 ≤ months →
  ∃ h' r,
    Date.subtract fuel self years months 0 h
    = (h', if Calendar.valid ((12 * (y - years) + (m - 1) - months) / 12)
                ((12 * (y - years) + (m - 1) - months) mod 12 + 1) d
           then Ok r else Raise InvalidDateError)
    ∧ (Calendar.valid ((12 * (y - years) + (m - 1) - months) / 12)
         ((12 * (y - years) + (m - 1) - months) mod 12 + 1) d = true →
       is_date h' r ((12 * (y - years) + (m - 1) - months) / 12)
         ((12 * (y - years) + (m - 1) - months) mod 12 + 1) d).
Proof. intros. by apply run_subtract_years_months. Qed.

Lemma subtract_years_and_months_witness :
  ∃ h' r,
    Date.subtract 0 0 1 14 0 [mkDateObj (PyInt 2020) (PyInt 1) (PyInt 31)]
    = (h', if Calendar.valid ((12 * (2020 - 1) + (1 - 1) - 14) / 12)
                ((12 * (2020 - 1) + (1 - 1) - 14) mod 12 + 1) 31
           then Ok r else Raise InvalidDateError)
    ∧ (Calendar.valid ((12 * (2020 - 1) + (1 - 1) - 14) / 12)
         ((12 * (2020 - 1) + (1 - 1) - 14) mod 12 + 1) 31 = true →
       is_date h' r ((12 * (2020 - 1) + (1 - 1) - 14) / 12)
         ((12 * (2020 - 1) + (1 - 1) - 14) mod 12 + 1) 31).
Proof.
  apply (subtract_years_and_months 0
           [mkDateObj (PyInt 2020) (PyInt 1) (PyInt 31)]
           0%nat 2020 1 31 1 14); [reflexivity | reflexivity | lia | lia | lia].
Defined.

(** X12: from a valid date whose day of the month is at most 28,
    [add(years=a, months=b)] always returns, and
    [subtract(years=a, months=b)] on its result gives the first date
    back. *)
Theorem add_then_subtract_years_and_months fuel h self y m d years months :
  is_date h self y m d → Calendar.valid y m d = true → d ≤ 28 →
  0 ≤ years → 0 ≤ months →
  ∃ h1 r1 h2 r2,
    Date.add fuel self years months 0 h = (h1, Ok r1)
    ∧ Date.subtract fuel r1 years months 0 h1 = (h2, Ok r2)
    ∧ is_date h2 r2 y m d
    ∧ Date.__eq__ r2 self h2 = (h2, Ok true).
Proof.
  intros Hself Hvalid Hd Hyears Hmonths.
  pose proof (proj1 (valid_iff _ _ _) Hvalid) as (Hy & Hm & Hd1).
  assert (∀ Y M, 1 ≤ Y → 1 ≤ M ≤ 12 → Calendar.valid Y M d = true) as Hany.
  { intros Y M HY HM. apply valid_iff.
    pose proof (days_in_month_bounds Y M). lia. }
  destruct (run_add_years_months fuel h self y m d years months)
    as (h1 & r1 & Hadd & Hr1); [done | done | lia | done | done |].
  set (idx := 12 * (y + years) + (m - 1) + months) in *.
  assert (Calendar.valid (idx / 12) (idx mod 12 + 1) d = true) as Hv1
    by (apply Hany; Z.div_mod_to_equations; lia).
  rewrite Hv1 in Hadd. specialize (Hr1 Hv1).
  destruct (run_subtract_years_months fuel h1 r1 _ _ d years months Hr1 Hv1)
    as (h2 & r2 & Hsub & Hr2); [lia | done | done |].
  assert ((12 * (idx / 12 - years) + (idx mod 12 + 1 - 1) - months) / 12 = y
          ∧ (12 * (idx / 12 - years) + (idx mod 12 + 1 - 1) - months) mod 12 + 1
            = m) as [Hy2 Hm2]
    by (subst idx; Z.div_mod_to_equations; lia).
  rewrite Hy2, Hm2, Hvalid in *. specialize (Hr2 eq_refl).
  exists h1, r1, h2, r2. repeat split; [done.. |].
  assert (is_date h2 self y m d) as Hself2.
  { pose proof (returns_new_add fuel self years months 0 _ _ _ Hadd)
      as (h0 & o & -> & _ & [k ->] & _).
    pose proof (returns_new_subtract fuel r1 years months 0 _ _ _ Hsub)
      as (h0' & o' & -> & _ & [k' ->] & _).
    rewrite <- !app_assoc. by apply is_date_app. }
  rewrite (run_eq _ _ _ _ _ _ _ _ _ Hr2 Hself2). by rewrite !Z.eqb_refl.
Qed.

Lemma add_then_subtract_years_and_months_witness :
  ∃ h1 r1 h2 r2,
    Date.add 0 0 0 3 0 [mkDateObj (PyInt 2020) (PyInt 5) (PyInt 10)]
    = (h1, Ok r1)
    ∧ Date.subtract 0 r1 0 3 0 h1 = (h2, Ok r2)
    ∧ is_date h2 r2 2020 5 10
    ∧ Date.__eq__ r2 0 h2 = (h2, Ok true).
Proof.
  apply (add_then_subtract_years_and_months 0
           [mkDateObj (PyInt 2020) (PyInt 5) (PyInt 10)] 0%nat 2020 5 10 0 3);
    [reflexivity | reflexivity | lia | lia | lia].
Defined.

(** ** Day shifts *)

Lemma ordinal_day y m d : Calendar.ordinal y m d = Calendar.ordinal y m 0 + d.
Proof. unfold Calendar.ordinal. lia. Qed.

Lemma ordinal_month_start_le y m :
  Calendar.ordinal y 1 0 ≤ Calendar.ordinal y m 0.
Proof.
  unfold Calendar.ordinal.
  pose proof (days_in_months_mono y 0 (Z.to_nat (m - 1))) as H.
  cbn [Calendar.days_in_months Nat.add] in *. change (Z.to_nat (1 - 1)) with O.
  cbn [Calendar.days_in_months]. lia.
Qed.

Lemma ordinal_increment cy cm :
  1 ≤ cy → 1 ≤ cm ≤ 12 →
  Calendar.ordinal (Date._increment_year_and_month cy cm).1
    (Date._increment_year_and_month cy cm).2 0
  = Calendar.ordinal cy cm 0 + Calendar.days_in_month cy cm
  ∧ 1 ≤ (Date._increment_year_and_month cy cm).2 ≤ 12
  ∧ cy ≤ (Date._increment_year_and_month cy cm).1 ≤ cy + 1.
Proof.
  intros Hy Hm. unfold Date._increment_year_and_month, Calendar.ordinal.
  destruct (Z.eqb_spec cm 12) as [-> | Hne]; cbn [fst snd].
  - replace (cy + 1 - 1) with cy by lia.
    rewrite (days_in_years_step cy Hy), <- days_in_months_12.
    change (Z.to_nat (1 - 1)) with O. change (Z.to_nat (12 - 1)) with 11%nat.
    cbn [Calendar.days_in_months]. change (Z.of_nat 12) with 12. lia.
  - replace (cm + 1 - 1) with cm by lia.
    rewrite (days_in_months_step cy cm) by lia. lia.
Qed.

Lemma days_in_years_le a b :
  (a ≤ b)%nat →
  Calendar.days_in_years a + 365 * (Z.of_nat b - Z.of_nat a)
  ≤ Calendar.days_in_years b.
Proof.
  intros Hab. pose proof (days_in_years_mono a (b - a)) as H.
  replace (a + (b - a))%nat with b in H by lia. lia.
Qed.

Lemma add_days_loop lo hi T fuel : ∀ days cy cm,
  lo ≤ cy → 1 ≤ cy → 1 ≤ cm ≤ 12 → 1 ≤ days → days ≤ 28 * Z.of_nat fuel →
  Calendar.ordinal cy cm 0 + days = T →
  match while_true fuel
          (Date._add_days_body
             (get_days_per_month_mapper_for_multiple_years (range lo hi 1)))
          (days, cy, cm) with
  | Ok (y', m', d') =>
      Calendar.valid y' m' d' = true ∧ Calendar.ordinal y' m' d' = T
  | Raise e =>
      e = TypeError ∧ ∃ cy', 1 ≤ cy' ∧ hi ≤ cy' ∧ Calendar.ordinal cy' 1 1 ≤ T
  | OutOfFuel => False
  end.
Proof.
  induction fuel as [| fuel IH]; intros days cy cm Hlo Hcy Hcm Hdays Hfuel HT;
    [lia |].
  cbn [while_true]. unfold Date._add_days_body at 1.
  rewrite mapper_get_spec.
  assert (((1 <=? cm) && (cm <=? 12)) = true) as -> by lia.
  rewrite andb_true_r.
  pose proof (days_in_month_bounds cy cm) as Hdim.
  destruct (ordinal_increment cy cm Hcy Hcm) as (Hinc & Hcm' & Hcy').
  case_bool_decide as Hin; cbn [Date.operand mbind result_bind].
  - destruct (Z.ltb_spec (Calendar.days_in_month cy cm) days) as [Hlt | Hge].
    + destruct (Date._increment_year_and_month cy cm) as [cy' cm'].
      cbn [fst snd] in *. apply IH; lia.
    + assert ((days <=? Calendar.days_in_month cy cm) = true) as -> by lia.
      split; [apply valid_iff; lia |]. rewrite ordinal_day. lia.
  - split; [done |]. exists cy. rewrite elem_of_range in Hin.
    pose proof (ordinal_month_start_le cy cm). rewrite (ordinal_day cy 1 1). lia.
Qed.

Lemma run_add_days fuel h self y m d n :
  is_date h self y m d → Calendar.valid y m d = true →
  0 ≤ n → n ≤ 28 * Z.of_nat fuel →
  (Date._add_days fuel self n h = (h, Raise TypeError) ∧ 730 < n)
  ∨ ∃ y' m' d',
      Date._add_days fuel self n h
      = (h ++ [mkDateObj (PyInt y') (PyInt m') (PyInt d')], Ok (length h))
      ∧ Calendar.valid y' m' d' = true
      ∧ Calendar.ordinal y' m' d' = Calendar.ordinal y m d + n.
Proof.
  intros Hself Hvalid Hn Hfuel.
  pose proof (proj1 (valid_iff _ _ _) Hvalid) as (Hy & Hm & Hd).
  unfold Date._add_days.
  rewrite run_assert by lia.
  rewrite (run_ymd_bind _ _ _ _ _ _ Hself). cbv beta iota zeta.
  rewrite mapper_get_spec.
  assert (bool_decide (y ∈ range y (y + n / 366 + 2) 1) = true) as ->.
  { apply bool_decide_eq_true, elem_of_range. Z.div_mod_to_equations; lia. }
  assert (((1 <=? m) && (m <=? 12)) = true) as -> by lia.
  cbn [andb Date.operand]. rewrite run_lift_Ok.
  destruct (Z.leb_spec n (Calendar.days_in_month y m - d)) as [Hle | Hgt].
  - right. exists y, m, (d + n). rewrite run_new_valid by (apply valid_iff; lia).
    split; [done |]. split; [apply valid_iff; lia |].
    rewrite (ordinal_day y m (d + n)), (ordinal_day y m d). lia.
  - destruct (ordinal_increment y m Hy Hm) as (Hinc & Hcm' & Hcy').
    destruct (Date._increment_year_and_month y m) as [cy cm].
    cbn [fst snd] in *.
    pose proof (add_days_loop y (y + n / 366 + 2)
                  (Calendar.ordinal y m d + n) fuel
                  (n - (Calendar.days_in_month y m - d)) cy cm) as Hloop.
    destruct (while_true _ _ _) as [[[y' m'] d'] | e |].
    + right. exists y', m', d'.
      destruct Hloop as [Hv HT];
        [lia | lia | lia | lia | lia | rewrite (ordinal_day y m d); lia | ].
      rewrite run_lift_Ok. by rewrite run_new_valid.
    + left. destruct Hloop as [-> (cy' & Hcy1 & Hhi & Hord)];
        [lia | lia | lia | lia | lia | rewrite (ordinal_day y m d); lia | ].
      split; [done |].
      pose proof (day_of_year_bounds _ _ _ Hvalid) as Hdoy.
      rewrite ordinal_split in Hord. rewrite (ordinal_split y m d) in Hord.
      unfold day_of_year at 1 in Hord. change (Z.to_nat (1 - 1)) with O in Hord.
      cbn [Calendar.days_in_months] in Hord.
      pose proof (days_in_years_le (Z.to_nat y) (Z.to_nat (cy' - 1))) as Hmono.
      rewrite (days_in_years_step y Hy) in Hmono.
      Z.div_mod_to_equations. lia.
    + exfalso. apply Hloop; [lia | lia | lia | lia | lia |].
      rewrite (ordinal_day y m d); lia.
Qed.

Lemma run_add_only_days fuel h self y m d n :
  is_date h self y m d → Calendar.valid y m d = true →
  0 ≤ n → n ≤ 28 * Z.of_nat fuel →
  ∃ h',
    (Date.add fuel self 0 0 n h = (h', Raise TypeError) ∧ 730 < n)
    ∨ ∃ r y' m' d',
        Date.add fuel self 0 0 n h = (h', Ok r)
        ∧ is_date h' r y' m' d'
        ∧ Calendar.valid y' m' d' = true
        ∧ Calendar.ordinal y' m' d' = Calendar.ordinal y m d + n.
Proof.
  intros Hself Hvalid Hn Hfuel. unfold Date.add.
  rewrite (run_bind_Ok _ _ _ _ _ (run_add_years_0 _ _ _ _ _ Hself Hvalid)).
  rewrite (run_bind_Ok _ _ _ _ _
             (run_add_months_0 _ _ _ _ _ (is_date_new _ _ _ _) Hvalid)).
  destruct (run_add_days fuel _ _ y m d n
              (is_date_second (h ++ [mkDateObj (PyInt y) (PyInt m) (PyInt d)])
                 (mkDateObj (PyInt y) (PyInt m) (PyInt d)) y m d)
              Hvalid Hn Hfuel)
    as [[-> Hbig] | (y' & m' & d' & -> & Hv & Hord)]; eexists.
  - left. by split.
  - right. eexists _, y', m', d'.
    split; [reflexivity |]. split; [apply is_date_new | done].
Qed.

(** X13: for a valid date and [0 <= n <= 730], [add(days=n)] returns,
    and what it returns is the date [n] days later: a date of the
    calendar whose day number is the receiver's plus [n]. *)
Theorem add_days_is_n_days_later fuel h self y m d n :
  is_date h self y m d → Calendar.valid y m d = true →
  0 ≤ n ≤ 730 → n ≤ 28 * Z.of_nat fuel →
  ∃ h' r y' m' d',
    Date.add fuel self 0 0 n h = (h', Ok r)
    ∧ is_date h' r y' m' d'
    ∧ Calendar.valid y' m' d' = true
    ∧ Calendar.ordinal y' m' d' = Calendar.ordinal y m d + n.
Proof.
  intros Hself Hvalid Hn Hfuel.
  destruct (run_add_only_days fuel h self y m d n)
    as (h' & [[_ Hbig] | (r & y' & m' & d' & Hrun)]); [done | done | lia | done | lia |].
  by exists h', r, y', m', d'.
Qed.

Lemma ordinal_decrement cy cm :
  1 ≤ cm ≤ 12 →
  1 ≤ (Date._decrement_year_and_month cy cm).2 ≤ 12
  ∧ cy - 1 ≤ (Date._decrement_year_and_month cy cm).1 ≤ cy
  ∧ ((Date._decrement_year_and_month cy cm).1 < cy → cm = 1)
  ∧ (1 ≤ (Date._decrement_year_and_month cy cm).1 →
     Calendar.ordinal (Date._decrement_year_and_month cy cm).1
       (Date._decrement_year_and_month cy cm).2 0
     + Calendar.days_in_month (Date._decrement_year_and_month cy cm).1
         (Date._decrement_year_and_month cy cm).2
     = Calendar.ordinal cy cm 0).
Proof.
  intros Hm. unfold Date._decrement_year_and_month.
  destruct (Z.eqb_spec cm 1) as [-> | Hne]; cbn [fst snd].
  - repeat split; try lia. intros Hy.
    destruct (ordinal_increment (cy - 1) 12) as (Hinc & _); [lia | lia |].
    unfold Date._increment_year_and_month in Hinc. cbn [Z.eqb Pos.eqb fst snd] in Hinc.
    replace (cy - 1 + 1) with cy in Hinc by lia. lia.
  - repeat split; try lia. intros Hy.
    destruct (ordinal_increment cy (cm - 1)) as (Hinc & _); [lia | lia |].
    unfold Date._increment_year_and_month in Hinc.
    destruct (Z.eqb_spec (cm - 1) 12); [lia |]. cbn [fst snd] in Hinc.
    replace (cm - 1 + 1) with cm in Hinc by lia. lia.
Qed.

Lemma ordinal_le_year_end y m d :
  Calendar.valid y m d = true →
  Calendar.ordinal y m d ≤ Calendar.days_in_years (Z.to_nat y).
Proof.
  intros Hv. pose proof (day_of_year_bounds _ _ _ Hv).
  pose proof (proj1 (valid_iff _ _ _) Hv) as (Hy & _).
  rewrite ordinal_split, (days_in_years_step y Hy). lia.
Qed.

Lemma subtract_days_loop lo hi T fuel : ∀ days cy cm,
  1 ≤ cm ≤ 12 → 0 ≤ days → days < 28 * Z.of_nat fuel → cy < hi →
  (1 ≤ cy →
   Calendar.ordinal cy cm 0 + Calendar.days_in_month cy cm - days = T) →
  (cy ≤ 0 → T ≤ 0) →
  match while_true fuel
          (Date._subtract_days_body
             (get_days_per_month_mapper_for_multiple_years (range lo hi 1)))
          (days, cy, cm) with
  | Ok (y', m', PyInt d') =>
      if Calendar.valid y' m' d' then Calendar.ordinal y' m' d' = T
      else not_after_year lo T
  | Ok (_, _, PyOther _) => not_after_year lo T
  | Raise e => not_after_year lo T
  | OutOfFuel => T ≤ 0 ∨ last_day_of_a_month T
  end.
Proof.
  induction fuel as [| fuel IH]; intros days cy cm Hcm Hdays Hfuel Hhi HT Hneg;
    [lia |].
  pose proof (days_in_month_bounds cy cm) as Hdim.
  assert (¬ lo ≤ cy → not_after_year lo T) as Hout.
  { intros Hlo. destruct (decide (cy ≤ 0)) as [? | Hpos]; [left; auto |].
    right. exists cy. split; [lia |].
    assert (Calendar.valid cy cm (Calendar.days_in_month cy cm) = true) as Hv
      by (apply valid_iff; lia).
    apply ordinal_le_year_end in Hv. rewrite ordinal_day in Hv. lia. }
  cbn [while_true]. unfold Date._subtract_days_body at 1.
  rewrite mapper_get_spec.
  assert (((1 <=? cm) && (cm <=? 12)) = true) as -> by lia.
  rewrite andb_true_r.
  destruct (Z.eqb_spec days 0) as [-> | Hne].
  - case_bool_decide as Hin; cbn [of_option PyNone].
    + destruct (Calendar.valid cy cm _) eqn:Hv.
      * rewrite ordinal_day. apply valid_iff in Hv. lia.
      * left. apply Hneg. apply not_true_iff_false in Hv.
        rewrite valid_iff in Hv. lia.
    + apply Hout. rewrite elem_of_range in Hin. lia.
  - case_bool_decide as Hin; cbn [Date.operand mbind result_bind];
      [| apply Hout; rewrite elem_of_range in Hin; lia].
    destruct (ordinal_decrement cy cm Hcm) as (Hcm' & Hcy' & Hjan & Hdec).
    destruct (Z.ltb_spec (Calendar.days_in_month cy cm) days) as [Hlt | Hge].
    + destruct (Date._decrement_year_and_month cy cm) as [cy' cm'].
      cbn [fst snd] in *. apply IH; try lia.
      intros Hcy0. destruct (decide (cy ≤ 0)) as [? | Hpos]; [auto |].
      assert (cy = 1 ∧ cm = 1) as [-> ->] by lia.
      specialize (HT ltac:(lia)).
      change (Calendar.ordinal 1 1 0) with 0 in HT.
      change (Calendar.days_in_month 1 1) with 31 in *. lia.
    + destruct (Z.ltb_spec days (Calendar.days_in_month cy cm)) as [Hlt | Hge'].
      * destruct (Calendar.valid cy cm _) eqn:Hv.
        -- rewrite ordinal_day. apply valid_iff in Hv. lia.
        -- left. apply Hneg. apply not_true_iff_false in Hv.
           rewrite valid_iff in Hv. lia.
      * rewrite while_true_stuck.
        2:{ unfold Date._subtract_days_body. rewrite mapper_get_spec.
            rewrite bool_decide_eq_true_2 by done.
            assert (((1 <=? cm) && (cm <=? 12)) = true) as -> by lia.
            cbn [andb Date.operand mbind result_bind].
            destruct (Z.eqb_spec days 0); [lia |].
            destruct (Z.ltb_spec (Calendar.days_in_month cy cm) days); [lia |].
            destruct (Z.ltb_spec days (Calendar.days_in_month cy cm)); [lia |].
            done. }
        destruct (decide (cy ≤ 0)) as [? | Hpos]; [left; auto |].
        destruct (Date._decrement_year_and_month cy cm) as [cy' cm'].
        cbn [fst snd] in *.
        destruct (decide (cy' ≤ 0)) as [? | Hpos'].
        -- left. assert (cy = 1 ∧ cm = 1) as [-> ->] by lia.
           specialize (HT ltac:(lia)).
           change (Calendar.ordinal 1 1 0) with 0 in HT. lia.
        -- right. exists cy', cm'. split; [apply valid_iff; pose proof (days_in_month_bounds cy' cm'); lia |].
           rewrite ordinal_day. lia.
Qed.

Lemma not_after_year_far y m d n :
  Calendar.valid y m d = true → 0 ≤ n →
  not_after_year (y - n / 366 - 1) (Calendar.ordinal y m d - n) →
  Calendar.ordinal y m d ≤ n ∨ 730 < n.
Proof.
  intros Hv Hn [Hneg | (cy & Hcy & HT)]; [left; lia | right].
  pose proof (day_of_year_bounds _ _ _ Hv) as Hdoy.
  rewrite ordinal_split in HT.
  pose proof (days_in_years_le (Z.to_nat cy) (Z.to_nat (y - 1))) as Hmono.
  Z.div_mod_to_equations. lia.
Qed.

Lemma run_subtract_days fuel h self y m d n :
  is_date h self y m d → Calendar.valid y m d = true →
  0 ≤ n → n < 28 * Z.of_nat fuel →
  ∃ h' res,
    Date._subtract_days fuel self n h = (h', res)
    ∧ match res with
      | Ok r =>
          ∃ y' m' d',
            is_date h' r y' m' d'
            ∧ Calendar.valid y' m' d' = true
            ∧ Calendar.ordinal y' m' d' = Calendar.ordinal y m d - n
      | Raise e => Calendar.ordinal y m d ≤ n ∨ 730 < n
      | OutOfFuel =>
          Calendar.ordinal y m d ≤ n
          ∨ last_day_of_a_month (Calendar.ordinal y m d - n)
      end.
Proof.
  intros Hself Hvalid Hn Hfuel.
  pose proof (proj1 (valid_iff _ _ _) Hvalid) as (Hy & Hm & Hd).
  unfold Date._subtract_days.
  rewrite run_assert by lia.
  rewrite (run_ymd_bind _ _ _ _ _ _ Hself). cbv beta iota zeta.
  destruct (Z.ltb_spec n d) as [Hlt | Hge].
  - rewrite run_new_valid by (apply valid_iff; lia).
    eexists _, _. split; [reflexivity |]. exists y, m, (d - n).
    split; [apply is_date_new |]. split; [apply valid_iff; lia |].
    rewrite (ordinal_day y m (d - n)), (ordinal_day y m d). lia.
  - destruct (ordinal_decrement y m Hm) as (Hcm' & Hcy' & Hjan & Hdec).
    destruct (Date._decrement_year_and_month y m) as [cy cm].
    cbn [fst snd] in *.
    pose proof (subtract_days_loop (y - n / 366 - 1) (y + 1)
                  (Calendar.ordinal y m d - n) fuel (n - d) cy cm) as Hloop.
    assert (1 ≤ cy →
            Calendar.ordinal cy cm 0 + Calendar.days_in_month cy cm - (n - d)
            = Calendar.ordinal y m d - n) as HT
      by (intros ?; rewrite (ordinal_day y m d); lia).
    assert (cy ≤ 0 → Calendar.ordinal y m d - n ≤ 0) as Hneg.
    { intros ?. assert (y = 1 ∧ m = 1) as [-> ->] by lia.
      rewrite (ordinal_day 1 1 d). change (Calendar.ordinal 1 1 0) with 0. lia. }
    specialize (Hloop ltac:(lia) ltac:(lia) ltac:(lia) ltac:(lia) HT Hneg).
    destruct (while_true _ _ _) as [[[y' m'] [d' | t]] | e |].
    + rewrite run_lift_Ok, run_init. cbn [valid_fields].
      destruct (Calendar.valid y' m' d') eqn:Hv.
      * eexists _, _. split; [reflexivity |]. exists y', m', d'.
        split; [apply is_date_new | done].
      * eexists _, _. split; [reflexivity |]. by eapply not_after_year_far.
    + rewrite run_lift_Ok, run_init. cbn [valid_fields].
      eexists _, _. split; [reflexivity |]. by eapply not_after_year_far.
    + eexists _, _. split; [reflexivity |]. by eapply not_after_year_far.
    + eexists _, _. split; [reflexivity |].
      destruct Hloop as [? | ?]; [left; lia | by right].
Qed.

Lemma run_subtract_only_days fuel h self y m d n :
  is_date h self y m d → Calendar.valid y m d = true →
  0 ≤ n → n < 28 * Z.of_nat fuel →
  ∃ h' res,
    Date.subtract fuel self 0 0 n h = (h', res)
    ∧ match res with
      | Ok r =>
          ∃ y' m' d',
            is_date h' r y' m' d'
            ∧ Calendar.valid y' m' d' = true
            ∧ Calendar.ordinal y' m' d' = Calendar.ordinal y m d - n
      | Raise e => Calendar.ordinal y m d ≤ n ∨ 730 < n
      | OutOfFuel =>
          Calendar.ordinal y m d ≤ n
          ∨ last_day_of_a_month (Calendar.ordinal y m d - n)
      end.
Proof.
  intros Hself Hvalid Hn Hfuel. unfold Date.subtract.
  rewrite (run_bind_Ok _ _ _ _ _ (run_subtract_years_0 _ _ _ _ _ Hself Hvalid)).
  rewrite (run_bind_Ok _ _ _ _ _
             (run_subtract_months_0 _ _ _ _ _ (is_date_new _ _ _ _) Hvalid)).
  by apply run_subtract_days;
    [apply (is_date_second (h ++ [mkDateObj (PyInt y) (PyInt m) (PyInt d)])) | ..].
Qed.

Lemma add_days_is_n_days_later_witness :
  ∃ h' r y' m' d',
    Date.add 27 0 0 0 730 [mkDateObj (PyInt 2021) (PyInt 12) (PyInt 31)]
    = (h', Ok r)
    ∧ is_date h' r y' m' d'
    ∧ Calendar.valid y' m' d' = true
    ∧ Calendar.ordinal y' m' d' = Calendar.ordinal 2021 12 31 + 730.
Proof.
  apply (add_days_is_n_days_later 27
           [mkDateObj (PyInt 2021) (PyInt 12) (PyInt 31)] 0%nat 2021 12 31 730);
    [reflexivity | reflexivity | lia | cbn; lia].
Defined.

(** X14: for a valid date and any [n >= 0], [add(days=n)] either returns
    the date [n] days later or raises [TypeError] (the table of month
    lengths it builds covers the years [year .. year + n // 366 + 1]
    only, and the lookup outside of it gives [None]); the [TypeError]
    needs [n > 730]. *)
Theorem add_days_returns_or_raises_type_error fuel h self y m d n :
  is_date h self y m d → Calendar.valid y m d = true →
  0 ≤ n → n ≤ 28 * Z.of_nat fuel →
  ∃ h',
    (Date.add fuel self 0 0 n h = (h', Raise TypeError) ∧ 730 < n)
    ∨ ∃ r y' m' d',
        Date.add fuel self 0 0 n h = (h', Ok r)
        ∧ is_date h' r y' m' d'
        ∧ Calendar.valid y' m' d' = true
        ∧ Calendar.ordinal y' m' d' = Calendar.ordinal y m d + n.
Proof. intros. by apply run_add_only_days. Qed.

Lemma add_days_returns_or_raises_type_error_witness :
  ∃ h',
    (Date.add 27 0 0 0 731 [mkDateObj (PyInt 2021) (PyInt 12) (PyInt 31)]
     = (h', Raise TypeError) ∧ 730 < 731)
    ∨ ∃ r y' m' d',
        Date.add 27 0 0 0 731 [mkDateObj (PyInt 2021) (PyInt 12) (PyInt 31)]
        = (h', Ok r)
        ∧ is_date h' r y' m' d'
        ∧ Calendar.valid y' m' d' = true
        ∧ Calendar.ordinal y' m' d' = Calendar.ordinal 2021 12 31 + 731.
Proof.
  apply (add_days_returns_or_raises_type_error 27
           [mkDateObj (PyInt 2021) (PyInt 12) (PyInt 31)] 0%nat 2021 12 31 731);
    [reflexivity | reflexivity | lia | cbn; lia].
Defined.

(** The bound 730 is reached: 731 days after 2021-12-31 is 2024-01-01,
    and the table covers 2021 .. 2023. *)
Example add_731_days_raises :
  snd (Date.add 27 0 0 0 731 [mkDateObj (PyInt 2021) (PyInt 12) (PyInt 31)])
  = Raise TypeError.
Proof. vm_compute. reflexivity. Qed.

(** X15: for a valid date and any [n >= 0], [subtract(days=n)] never
    returns a wrong date: when it returns, the result is the date [n]
    days earlier; when it raises, that date lies before 0001-01-01 or
    [n > 730]; and when it does not return (the loop of [_subtract_days]
    repeats a state), that date lies before 0001-01-01 or is the last
    day of a month. *)
Theorem subtract_days_outcomes fuel h self y m d n :
  is_date h self y m d → Calendar.valid y m d = true →
  0 ≤ n → n < 28 * Z.of_nat fuel →
  ∃ h' res,
    Date.subtract fuel self 0 0 n h = (h', res)
    ∧ match res with
      | Ok r =>
          ∃ y' m' d',
            is_date h' r y' m' d'
            ∧ Calendar.valid y' m' d' = true
            ∧ Calendar.ordinal y' m' d' = Calendar.ordinal y m d - n
      | Raise e => Calendar.ordinal y m d ≤ n ∨ 730 < n
      | OutOfFuel =>
          Calendar.ordinal y m d ≤ n
          ∨ last_day_of_a_month (Calendar.ordinal y m d - n)
      end.
Proof. intros. by apply run_subtract_only_days. Qed.

Lemma subtract_days_outcomes_witness :
  ∃ h' res,
    Date.subtract 27 0 0 0 400 [mkDateObj (PyInt 2021) (PyInt 3) (PyInt 15)]
    = (h', res)
    ∧ match res with
      | Ok r =>
          ∃ y' m' d',
            is_date h' r y' m' d'
            ∧ Calendar.valid y' m' d' = true
            ∧ Calendar.ordinal y' m' d' = Calendar.ordinal 2021 3 15 - 400
      | Raise e => Calendar.ordinal 2021 3 15 ≤ 400 ∨ 730 < 400
      | OutOfFuel =>
          Calendar.ordinal 2021 3 15 ≤ 400
          ∨ last_day_of_a_month (Calendar.ordinal 2021 3 15 - 400)
      end.
Proof.
  apply (subtract_days_outcomes 27
           [mkDateObj (PyInt 2021) (PyInt 3) (PyInt 15)] 0%nat 2021 3 15 400);
    [reflexivity | reflexivity | lia | cbn; lia].
Defined.

(** ** The day before *)

Lemma run_is_first_day_of_year h self y m d :
  is_date h self y m d →
  Date.is_first_day_of_year self h = (h, Ok ((m =? 1) && (d =? 1))).
Proof.
  intros Hself. unfold Date.is_first_day_of_year.
  rewrite (run_month_bind _ _ _ _ _ _ Hself).
  by rewrite (run_day_bind _ _ _ _ _ _ Hself).
Qed.

Lemma run_is_first_day_of_month h self y m d :
  is_date h self y m d →
  Date.is_first_day_of_month self h = (h, Ok (d =? 1)).
Proof.
  intros Hself. unfold Date.is_first_day_of_month.
  by rewrite (run_day_bind _ _ _ _ _ _ Hself).
Qed.

(** X16: on a valid date, [_subtract_one_day] returns the date one day
    earlier, and from 0001-01-01, which has none, it raises
    [InvalidDateError]. *)
Theorem subtract_one_day_is_the_day_before h self y m d :
  is_date h self y m d → Calendar.valid y m d = true →
  ∃ h',
    if bool_decide (y = 1 ∧ m = 1 ∧ d = 1)
    then Date._subtract_one_day self h = (h', Raise InvalidDateError)
    else ∃ r y' m' d',
        Date._subtract_one_day self h = (h', Ok r)
        ∧ is_date h' r y' m' d'
        ∧ Calendar.valid y' m' d' = true
        ∧ Calendar.ordinal y' m' d' = Calendar.ordinal y m d - 1.
Proof.
  intros Hself Hvalid.
  pose proof (proj1 (valid_iff _ _ _) Hvalid) as (Hy & Hm & Hd).
  unfold Date._subtract_one_day.
  rewrite (run_bind_Ok _ _ _ _ _ (run_is_first_day_of_year _ _ _ _ _ Hself)).
  destruct (Z.eqb_spec m 1) as [-> | Hm1], (Z.eqb_spec d 1) as [-> | Hd1];
    cbn [andb].
  - rewrite (run_year_bind _ _ _ _ _ _ Hself), run_new.
    case_bool_decide as Hfirst.
    + destruct Hfirst as (-> & _). eexists. reflexivity.
    + eexists. assert (Calendar.valid (y - 1) 12 31 = true) as Hv
        by (apply valid_iff; change (Calendar.days_in_month (y - 1) 12) with 31; lia).
      rewrite Hv. eexists _, (y - 1), 12, 31.
      split; [reflexivity |]. split; [apply is_date_new |]. split; [done |].
      destruct (ordinal_decrement y 1) as (_ & _ & _ & Hdec); [lia |].
      unfold Date._decrement_year_and_month in Hdec. cbn [Z.eqb Pos.eqb fst snd] in Hdec.
      rewrite (ordinal_day (y - 1) 12 31), (ordinal_day y 1 1).
      change (Calendar.days_in_month (y - 1) 12) with 31 in Hdec. lia.
  - rewrite bool_decide_eq_false_2 by lia.
    rewrite (run_bind_Ok _ _ _ _ _ (run_is_first_day_of_month _ _ _ _ _ Hself)).
    destruct (Z.eqb_spec d 1); [lia |].
    rewrite (run_ymd_bind _ _ _ _ _ _ Hself). cbv beta iota.
    rewrite run_new_valid by (apply valid_iff; lia).
    eexists _, _, y, 1, (d - 1). split; [reflexivity |].
    split; [apply is_date_new |]. split; [apply valid_iff; lia |].
    rewrite (ordinal_day y 1 (d - 1)), (ordinal_day y 1 d). lia.
  - rewrite bool_decide_eq_false_2 by lia.
    rewrite (run_bind_Ok _ _ _ _ _ (run_is_first_day_of_month _ _ _ _ _ Hself)).
    cbn [Z.eqb Pos.eqb].
    rewrite (run_ymd_bind _ _ _ _ _ _ Hself). cbv beta iota.
    unfold odict_getitem. rewrite odict_get_days_per_month.
    assert (((1 <=? m - 1) && (m - 1 <=? 12)) = true) as -> by lia.
    rewrite run_lift_Ok.
    pose proof (days_in_month_bounds y (m - 1)) as Hdim.
    rewrite run_new_valid by (apply valid_iff; lia).
    eexists _, _, y, (m - 1), _. split; [reflexivity |].
    split; [apply is_date_new |]. split; [apply valid_iff; lia |].
    destruct (ordinal_decrement y m) as (_ & _ & _ & Hdec); [lia |].
    unfold Date._decrement_year_and_month in Hdec.
    destruct (Z.eqb_spec m 1); [lia |]. cbn [fst snd] in Hdec.
    rewrite (ordinal_day y (m - 1)), (ordinal_day y m 1). lia.
  - rewrite bool_decide_eq_false_2 by lia.
    rewrite (run_bind_Ok _ _ _ _ _ (run_is_first_day_of_month _ _ _ _ _ Hself)).
    destruct (Z.eqb_spec d 1); [lia |].
    rewrite (run_ymd_bind _ _ _ _ _ _ Hself). cbv beta iota.
    rewrite run_new_valid by (apply valid_iff; lia).
    eexists _, _, y, m, (d - 1). split; [reflexivity |].
    split; [apply is_date_new |]. split; [apply valid_iff; lia |].
    rewrite (ordinal_day y m (d - 1)), (ordinal_day y m d). lia.
Qed.

Lemma subtract_one_day_is_the_day_before_witness :
  ∃ h',
    if bool_decide (2021 = 1 ∧ 3 = 1 ∧ 1 = 1)
    then Date._subtract_one_day 0 [mkDateObj (PyInt 2021) (PyInt 3) (PyInt 1)]
         = (h', Raise InvalidDateError)
    else ∃ r y' m' d',
        Date._subtract_one_day 0 [mkDateObj (PyInt 2021) (PyInt 3) (PyInt 1)]
        = (h', Ok r)
        ∧ is_date h' r y' m' d'
        ∧ Calendar.valid y' m' d' = true
        ∧ Calendar.ordinal y' m' d' = Calendar.ordinal 2021 3 1 - 1.
Proof.
  apply (subtract_one_day_is_the_day_before
           [mkDateObj (PyInt 2021) (PyInt 3) (PyInt 1)] 0%nat 2021 3 1);
    reflexivity.
Defined.

(** ** Weekends *)

Lemma weekend_names n :
  1 ≤ n ≤ 7 →
  bool_decide (Calendar.weekday_name n ∈ [DayOfWeek.SATURDAY; DayOfWeek.SUNDAY])
  = (6 <=? n).
Proof.
  intros Hn.
  assert (n = 1 ∨ n = 2 ∨ n = 3 ∨ n = 4 ∨ n = 5 ∨ n = 6 ∨ n = 7)
    as [-> | [-> | [-> | [-> | [-> | [-> | ->]]]]]] by lia;
    vm_compute; reflexivity.
Qed.

Lemma run_day_of_week h self y m d :
  is_date h self y m d → Calendar.valid y m d = true →
  Date.day_of_week self h
  = (h, Ok (Calendar.weekday_name (Calendar.weekday y m d))).
Proof.
  intros Hself Hvalid. unfold Date.day_of_week.
  rewrite (run_bind_Ok _ _ _ _ _ (run_ymd _ _ _ _ _ Hself)). cbv beta iota.
  unfold lift. by rewrite get_day_of_week_correct.
Qed.

(** X17: on a valid date, [is_weekend] is true exactly when the calendar's
    weekday number (1 = Monday ... 7 = Sunday) is 6 or 7, and [is_weekday]
    exactly when it is at most 5. *)
Theorem weekend_and_weekday_against_the_calendar h self y m d :
  is_date h self y m d → Calendar.valid y m d = true →
  Date.is_weekend self h = (h, Ok (6 <=? Calendar.weekday y m d))
  ∧ Date.is_weekday self h = (h, Ok (Calendar.weekday y m d <=? 5)).
Proof.
  intros Hself Hvalid.
  assert (Date.is_weekend self h = (h, Ok (6 <=? Calendar.weekday y m d)))
    as Hweekend.
  { unfold Date.is_weekend.
    rewrite (run_bind_Ok _ _ _ _ _ (run_day_of_week _ _ _ _ _ Hself Hvalid)).
    by rewrite weekend_names by apply weekday_range. }
  split; [done |]. unfold Date.is_weekday.
  rewrite (run_bind_Ok _ _ _ _ _ Hweekend). unfold mret, M_ret.
  do 2 f_equal. lia.
Qed.

Lemma weekend_and_weekday_against_the_calendar_witness :
  Date.is_weekend 0 [mkDateObj (PyInt 2000) (PyInt 1) (PyInt 1)]
  = ([mkDateObj (PyInt 2000) (PyInt 1) (PyInt 1)],
     Ok (6 <=? Calendar.weekday 2000 1 1))
  ∧ Date.is_weekday 0 [mkDateObj (PyInt 2000) (PyInt 1) (PyInt 1)]
    = ([mkDateObj (PyInt 2000) (PyInt 1) (PyInt 1)],
       Ok (Calendar.weekday 2000 1 1 <=? 5)).
Proof.
  apply (weekend_and_weekday_against_the_calendar
           [mkDateObj (PyInt 2000) (PyInt 1) (PyInt 1)] 0%nat 2000 1 1);
    reflexivity.
Defined.

(** ** Strings *)











(** ** The [repeat] decorator *)

Lemma range_from_length start step n : length (range_from start step n) = n.
Proof. revert start. induction n as [| n IH]; intros start; cbn; [done | by rewrite IH]. Qed.

Lemma repeat_loop_returns {St E A} (func : St → St * (E + A))
    (step : St → St) (val : St → A) :
  (∀ s, func s = (step s, inr (val s))) →
  ∀ passes result st,
    repeat_loop func passes result st
    = (Nat.iter (length passes) step st,
       match length passes with
       | O => match result with
              | Some a => Returned a
              | None => UnboundLocalError
              end
       | S k => Returned (val (Nat.iter k step st))
       end).
Proof.
  intros Hfunc passes. induction passes as [| p passes IH]; intros result st.
  - by destruct result.
  - cbn [repeat_loop length]. rewrite Hfunc, IH.
    rewrite <- Nat.iter_succ_r. f_equal.
    destruct (length passes) as [| k]; [done |].
    by rewrite <- Nat.iter_succ_r.
Qed.


(** X20: for a function that does not raise, [repeat(num_times)(func)]
    calls it [num_times] times in a row and returns the value of the last
    call; for [num_times <= 0] it does not call it and raises
    [UnboundLocalError], [result] never having been assigned. *)
Theorem repeat_calls_func_num_times {St E A} (num_times : Z)
    (func : St → St * (E + A)) (step : St → St) (val : St → A) (st : St) :
  (∀ s, func s = (step s, inr (val s))) →
  repeat num_times func st
  = if num_times <=? 0 then (st, UnboundLocalError)
    else (Nat.iter (Z.to_nat num_times) step st,
          Returned (val (Nat.iter (Z.to_nat num_times - 1) step st))).
Proof.
  intros Hfunc. unfold repeat, range.
  rewrite (repeat_loop_returns func step val Hfunc), range_from_length.
  unfold range_len. cbn [Z.ltb Z.compare].
  replace ((num_times - 0 + 1 - 1) / 1) with num_times
    by (rewrite Z.div_1_r; lia).
  destruct (Z.leb_spec num_times 0) as [Hle | Hgt].
  - by replace (Z.to_nat num_times) with O by lia.
  - destruct (Z.to_nat num_times) as [| k] eqn:Hk; [lia |].
    by rewrite Nat.sub_1_r.
Qed.

Lemma repeat_calls_func_num_times_witness :
  repeat 3 (λ s : Z, (s + 1, inr (2 * s) : Empty_set + Z)) 10
  = if 3 <=? 0 then (10, UnboundLocalError)
    else (Nat.iter (Z.to_nat 3) (λ s, s + 1) 10,
          Returned ((λ s, 2 * s) (Nat.iter (Z.to_nat 3 - 1) (λ s, s + 1) 10))).
Proof.
  apply (repeat_calls_func_num_times 3
           (λ s : Z, (s + 1, inr (2 * s) : Empty_set + Z))
           (λ s, s + 1) (λ s, 2 * s) 10).
  reflexivity.
Defined.



(** ** Copies *)

Lemma run_set_year h self o v :
  h !! self = Some o →
  fst (Date.set_year self v h) = <[self := mkDateObj v (_month o) (_day o)]> h.
Proof.
  intros Hself. unfold Date.set_year.
  rewrite (run_bind_Ok _ _ _ _ _ (run_store _ _ _ _ Hself)).
  by rewrite (validate_spec _ _ _ (lookup_stored _ _ _ _ Hself)).
Qed.

Lemma run_set_month h self o v :
  h !! self = Some o →
  fst (Date.set_month self v h) = <[self := mkDateObj (_year o) v (_day o)]> h.
Proof.
  intros Hself. unfold Date.set_month.
  rewrite (run_bind_Ok _ _ _ _ _ (run_store _ _ _ _ Hself)).
  by rewrite (validate_spec _ _ _ (lookup_stored _ _ _ _ Hself)).
Qed.

Lemma run_set_day h self o v :
  h !! self = Some o →
  fst (Date.set_day self v h) = <[self := mkDateObj (_year o) (_month o) v]> h.
Proof.
  intros Hself. unfold Date.set_day.
  rewrite (run_bind_Ok _ _ _ _ _ (run_store _ _ _ _ Hself)).
  by rewrite (validate_spec _ _ _ (lookup_stored _ _ _ _ Hself)).
Qed.

(** X22: on a valid date, [copy] returns another object, equal to the
    receiver by [==], and no assignment to the year, month or day of the
    copy changes the receiver. *)
Theorem copy_is_equal_and_independent h self y m d :
  is_date h self y m d → Calendar.valid y m d = true →
  ∃ h1 c,
    Date.copy self h = (h1, Ok c)
    ∧ c ≠ self
    ∧ Date.__eq__ c self h1 = (h1, Ok true)
    ∧ ∀ v, is_date (fst (Date.set_year c v h1)) self y m d
           ∧ is_date (fst (Date.set_month c v h1)) self y m d
           ∧ is_date (fst (Date.set_day c v h1)) self y m d.
Proof.
  intros Hself Hvalid. eexists _, _.
  split; [by apply run_copy |].
  pose proof (lookup_lt_Some _ _ _ Hself) as Hlt.
  assert (length h ≠ self) as Hne by lia.
  split; [done |].
  pose proof (is_date_new h y m d) as Hc.
  pose proof (is_date_app h [mkDateObj (PyInt y) (PyInt m) (PyInt d)] _ _ _ _ Hself)
    as Hself1.
  split.
  - rewrite (run_eq _ _ _ _ _ _ _ _ _ Hc Hself1). by rewrite !Z.eqb_refl.
  - intros v.
    rewrite (run_set_year _ _ _ v Hc), (run_set_month _ _ _ v Hc),
      (run_set_day _ _ _ v Hc).
    unfold is_date. by rewrite !list_lookup_insert_ne by done.
Qed.

Lemma copy_is_equal_and_independent_witness :
  ∃ h1 c,
    Date.copy 0 [mkDateObj (PyInt 2021) (PyInt 3) (PyInt 22)] = (h1, Ok c)
    ∧ c ≠ 0%nat
    ∧ Date.__eq__ c 0 h1 = (h1, Ok true)
    ∧ ∀ v, is_date (fst (Date.set_year c v h1)) 0 2021 3 22
           ∧ is_date (fst (Date.set_month c v h1)) 0 2021 3 22
           ∧ is_date (fst (Date.set_day c v h1)) 0 2021 3 22.
Proof.
  apply (copy_is_equal_and_independent
           [mkDateObj (PyInt 2021) (PyInt 3) (PyInt 22)] 0%nat 2021 3 22);
    reflexivity.
Defined.

(** ** First and last days *)

Lemma day_of_year_dec31 y : day_of_year y 12 31 = Calendar.days_in_year y.
Proof.
  unfold day_of_year. rewrite <- days_in_months_12.
  change (Z.to_nat (12 - 1)) with 11%nat. reflexivity.
Qed.

(** X23: on a valid date, [is_first_day_of_year] holds exactly when
    [days_since_start_of_year] is 1, [is_last_day_of_year] exactly when
    [days_till_end_of_year] is 0, [is_first_day_of_month] exactly when the
    day before is not in the month, and [is_last_day_of_month] exactly
    when the day after is not in the month. *)
Theorem first_and_last_days h self y m d :
  is_date h self y m d → Calendar.valid y m d = true →
  ∃ since till,
    Date.days_since_start_of_year self h = (h, Ok since)
    ∧ Date.days_till_end_of_year self h = (h, Ok till)
    ∧ Date.is_first_day_of_year self h = (h, Ok (since =? 1))
    ∧ Date.is_last_day_of_year self h = (h, Ok (till =? 0))
    ∧ Date.is_first_day_of_month self h
      = (h, Ok (negb (Calendar.valid y m (d - 1))))
    ∧ Date.is_last_day_of_month self h
      = (h, Ok (negb (Calendar.valid y m (d + 1)))).
Proof.
  intros Hself Hvalid.
  pose proof (proj1 (valid_iff _ _ _) Hvalid) as (Hy & Hm & Hd).
  eexists _, _.
  split; [by apply run_days_since_start_of_year |].
  split; [by apply run_days_till_end_of_year |].
  assert (Calendar.valid y 1 1 = true) as Hjan1 by (apply valid_iff; cbn; lia).
  assert (Calendar.valid y 12 31 = true) as Hdec31 by (apply valid_iff; cbn; lia).
  pose proof (day_of_year_lt _ _ _ _ _ Hjan1 Hvalid) as Hfirst.
  pose proof (day_of_year_lt _ _ _ _ _ Hvalid Hdec31) as Hlast.
  pose proof (day_of_year_bounds _ _ _ Hvalid) as Hbounds.
  pose proof (days_in_month_bounds y m) as Hdim.
  rewrite day_of_year_dec31 in Hlast.
  change (day_of_year y 1 1) with 1 in Hfirst.
  repeat split.
  - rewrite (run_is_first_day_of_year _ _ _ _ _ Hself). do 2 f_equal.
    destruct (Z.eqb_spec m 1), (Z.eqb_spec d 1),
      (Z.eqb_spec (day_of_year y m d) 1); cbn [andb]; lia.
  - unfold Date.is_last_day_of_year.
    rewrite (run_month_bind _ _ _ _ _ _ Hself).
    rewrite (run_day_bind _ _ _ _ _ _ Hself). unfold mret, M_ret. do 2 f_equal.
    destruct (Z.eqb_spec m 12), (Z.eqb_spec d 31),
      (Z.eqb_spec (Calendar.days_in_year y - day_of_year y m d) 0);
      cbn [andb]; lia.
  - rewrite (run_is_first_day_of_month _ _ _ _ _ Hself). do 2 f_equal.
    destruct (Calendar.valid y m (d - 1)) eqn:Hv.
    + apply valid_iff in Hv. cbn. lia.
    + apply not_true_iff_false in Hv. rewrite valid_iff in Hv. cbn. lia.
  - unfold Date.is_last_day_of_month.
    rewrite (run_ymd_bind _ _ _ _ _ _ Hself). cbv beta iota.
    unfold odict_getitem. rewrite odict_get_days_per_month.
    assert (((1 <=? m) && (m <=? 12)) = true) as -> by lia.
    rewrite run_lift_Ok. unfold mret, M_ret. do 2 f_equal.
    destruct (Calendar.valid y m (d + 1)) eqn:Hv.
    + apply valid_iff in Hv. cbn. lia.
    + apply not_true_iff_false in Hv. rewrite valid_iff in Hv. cbn. lia.
Qed.

Lemma first_and_last_days_witness :
  ∃ since till,
    Date.days_since_start_of_year 0 [mkDateObj (PyInt 2020) (PyInt 12) (PyInt 31)]
    = ([mkDateObj (PyInt 2020) (PyInt 12) (PyInt 31)], Ok since)
    ∧ Date.days_till_end_of_year 0 [mkDateObj (PyInt 2020) (PyInt 12) (PyInt 31)]
      = ([mkDateObj (PyInt 2020) (PyInt 12) (PyInt 31)], Ok till)
    ∧ Date.is_first_day_of_year 0 [mkDateObj (PyInt 2020) (PyInt 12) (PyInt 31)]
      = ([mkDateObj (PyInt 2020) (PyInt 12) (PyInt 31)], Ok (since =? 1))
    ∧ Date.is_last_day_of_year 0 [mkDateObj (PyInt 2020) (PyInt 12) (PyInt 31)]
      = ([mkDateObj (PyInt 2020) (PyInt 12) (PyInt 31)], Ok (till =? 0))
    ∧ Date.is_first_day_of_month 0 [mkDateObj (PyInt 2020) (PyInt 12) (PyInt 31)]
      = ([mkDateObj (PyInt 2020) (PyInt 12) (PyInt 31)],
         Ok (negb (Calendar.valid 2020 12 (31 - 1))))
    ∧ Date.is_last_day_of_month 0 [mkDateObj (PyInt 2020) (PyInt 12) (PyInt 31)]
      = ([mkDateObj (PyInt 2020) (PyInt 12) (PyInt 31)],
         Ok (negb (Calendar.valid 2020 12 (31 + 1)))).
Proof.
  apply (first_and_last_days
           [mkDateObj (PyInt 2020) (PyInt 12) (PyInt 31)] 0%nat 2020 12 31);
    reflexivity.
Defined.
